(** * tutorly-ws-server: the staged course-generation pipeline of [src/index.ts]

    A shallow embedding of the WebSocket message handler, of
    [generateValidJsonWithRetries] and of the object literal handed to
    [db.course.create], with the properties the specification states about
    them.

    JavaScript strings are sequences of UTF-16 code units, JavaScript numbers
    are binary64 floats (Rocq's primitive floats), and the values produced by
    [JSON.parse] are a tree datatype read with the optimistic property
    accesses the source performs. *)

From Stdlib Require Import ZArith NArith List Bool Lia.
From Stdlib Require Ascii String DecimalString DecimalNat.
Import String.StringSyntax.
From Stdlib Require Import PrimFloat SpecFloat FloatOps FloatAxioms.
Import ListNotations.
Open Scope string_scope.
Open Scope list_scope.

(* ================================================================== *)
(** * Strings *)

Module JsString.

(** A string is its sequence of UTF-16 code units. *)
Definition jsstring := list N.

(** An ASCII literal of the source, as code units. *)
Definition lit (s : String.string) : jsstring :=
  map Ascii.N_of_ascii (String.list_ascii_of_string s).

Fixpoint eqb (a b : jsstring) : bool :=
  match a, b with
  | [], [] => true
  | x :: a', y :: b' => N.eqb x y && eqb a' b'
  | _, _ => false
  end.

Fixpoint is_prefix (p s : jsstring) : bool :=
  match p, s with
  | [], _ => true
  | x :: p', y :: s' => N.eqb x y && is_prefix p' s'
  | _ :: _, [] => false
  end.

(** ECMAScript WhiteSpace and LineTerminator code points, the set
    [String.prototype.trim] and [Number] strip. *)
Definition is_ws (c : N) : bool :=
  ((9 <=? c) && (c <=? 13) ||
   (c =? 32) || (c =? 160) || (c =? 5760) ||
   (8192 <=? c) && (c <=? 8202) ||
   (c =? 8232) || (c =? 8233) || (c =? 8239) || (c =? 8287) ||
   (c =? 12288) || (c =? 65279))%N.

Fixpoint trimStart (s : jsstring) : jsstring :=
  match s with
  | [] => []
  | c :: r => if is_ws c then trimStart r else s
  end.

Fixpoint trimEnd (s : jsstring) : jsstring :=
  match s with
  | [] => []
  | c :: r =>
      match trimEnd r with
      | [] => if is_ws c then [] else [c]
      | r' => c :: r'
      end
  end.

(** [s.trim()] *)
Definition trim (s : jsstring) : jsstring := trimEnd (trimStart s).

End JsString.
Import JsString.

(* ================================================================== *)
(** * Normalisation of the backend's text

    The chain of [replace] calls of [generateValidJsonWithRetries]
    ([src/index.ts], lines 35-44), one definition per call. *)

Module Normalize.

Definition fence : jsstring := lit "```".
Definition fence_json : jsstring := lit "```json".

(** [.replace(/```json|```/g, '')]: a left-to-right scan; at each position
    the first alternative is tried before the second, a match is dropped
    and the scan resumes after it.  [skip] counts the code units of the
    current match still to drop. *)
Fixpoint strip_fences_from (skip : nat) (s : jsstring) : jsstring :=
  match s with
  | [] => []
  | c :: rest =>
      match skip with
      | S k => strip_fences_from k rest
      | O =>
          if is_prefix fence_json s then strip_fences_from 6 rest
          else if is_prefix fence s then strip_fences_from 2 rest
          else c :: strip_fences_from 0 rest
      end
  end.

Definition strip_fences (s : jsstring) : jsstring := strip_fences_from 0 s.

(** [.replace(/\r/g, '')] *)
Definition strip_cr (s : jsstring) : jsstring :=
  filter (fun c => negb (c =? 13)%N) s.

(** [.replace(/\u0000/g, '')] *)
Definition strip_nul (s : jsstring) : jsstring :=
  filter (fun c => negb (c =? 0)%N) s.

(** The class [[^{\[]]: any code unit but an opening brace or bracket. *)
Definition is_opening (c : N) : bool := ((c =? 123) || (c =? 91))%N.

(** [.replace(/^[^{\[]+/, '')]: the longest run of non-opening code units
    at the start of the text is dropped. *)
Fixpoint strip_preamble (s : jsstring) : jsstring :=
  match s with
  | [] => []
  | c :: r => if is_opening c then s else strip_preamble r
  end.

(** The class [[\x00-\x1F\x7F]]. *)
Definition is_control (c : N) : bool := ((c <=? 31) || (c =? 127))%N.

(** The replacer [c => c === '\n' || c === '\t' ? c : ''] keeps a matched
    code unit only when it is a line feed or a tab. *)
Definition keeps (c : N) : bool :=
  negb (is_control c) || (c =? 10)%N || (c =? 9)%N.

(** [.replace(/[\x00-\x1F\x7F]/g, ...)] *)
Definition strip_control (s : jsstring) : jsstring := filter keeps s.

Definition normalize (raw : jsstring) : jsstring :=
  trim (strip_control (strip_preamble (strip_nul (strip_cr (strip_fences raw))))).

(** The chain of the earlier copies of the handler: [trim] comes before the
    control characters are stripped. *)
Definition normalize_earlier (raw : jsstring) : jsstring :=
  strip_control (trim (strip_preamble (strip_nul (strip_cr (strip_fences raw))))).

(** Whether the text contains three consecutive backticks. *)
Fixpoint has_fence (s : jsstring) : bool :=
  match s with
  | [] => false
  | _ :: r => is_prefix fence s || has_fence r
  end.

End Normalize.
Import Normalize.

(* ================================================================== *)
(** * Numbers

    [Number(text)] on a string: the StringToNumber conversion of
    ECMAScript, with the mathematical value of a literal rounded to the
    nearest binary64 (ties to even). *)

Module JsNumber.

Local Open Scope Z_scope.

(** The binary64 nearest to an integer. *)
Definition float_of_Z (z : Z) : float :=
  SF2Prim (binary_normalize prec emax z 0 false).

Definition digit_of (base : Z) (c : N) : option Z :=
  let d :=
    if ((48 <=? c) && (c <=? 57))%N then Some (Z.of_N c - 48)
    else if ((97 <=? c) && (c <=? 102))%N then Some (Z.of_N c - 87)
    else if ((65 <=? c) && (c <=? 70))%N then Some (Z.of_N c - 55)
    else None in
  match d with
  | Some v => if v <? base then Some v else None
  | None => None
  end.

(** The longest run of digits of the base at the start of the text, and
    the rest. *)
Fixpoint span_digits (base : Z) (s : jsstring) : list Z * jsstring :=
  match s with
  | [] => ([], [])
  | c :: r =>
      match digit_of base c with
      | Some d => let (ds, rest) := span_digits base r in (d :: ds, rest)
      | None => ([], s)
      end
  end.

Definition Z_of_digits (base : Z) (ds : list Z) : Z :=
  fold_left (fun acc d => acc * base + d) ds 0.

(** The binary64 nearest to [m * 10^k], for [m >= 0]. *)
Definition round_decimal (m k : Z) : float :=
  match m with
  | Zpos p =>
      if 0 <=? k then float_of_Z (m * 10 ^ k)
      else SF2Prim (SFdiv prec emax (S754_finite false p 0)
                      (S754_finite false (Z.to_pos (10 ^ (- k))) 0))
  | _ => zero
  end.

(** ExponentPart_opt followed by the end of the text. *)
Definition parse_exponent (s : jsstring) : option Z :=
  match s with
  | [] => Some 0
  | c :: r =>
      if ((c =? 101) || (c =? 69))%N then
        let '(neg, r') :=
          match r with
          | 43%N :: t => (false, t)
          | 45%N :: t => (true, t)
          | _ => (false, r)
          end in
        match span_digits 10 r' with
        | ((_ :: _) as ds, []) =>
            Some (if neg then - Z_of_digits 10 ds else Z_of_digits 10 ds)
        | _ => None
        end
      else None
  end.

(** StrUnsignedDecimalLiteral other than [Infinity]: the mantissa digits
    as an integer and the decimal exponent. *)
Definition parse_unsigned_decimal (s : jsstring) : option (Z * Z) :=
  let (ip, r1) := span_digits 10 s in
  let '(fp, r2) :=
    match r1 with
    | 46%N :: r => span_digits 10 r
    | _ => ([], r1)
    end in
  match ip, fp with
  | [], [] => None
  | _, _ =>
      match parse_exponent r2 with
      | Some e => Some (Z_of_digits 10 (ip ++ fp), e - Z.of_nat (length fp))
      | None => None
      end
  end.

(** NonDecimalIntegerLiteral after its two-character prefix. *)
Definition parse_radix (base : Z) (s : jsstring) : float :=
  match span_digits base s with
  | ((_ :: _) as ds, []) => float_of_Z (Z_of_digits base ds)
  | _ => nan
  end.

Definition parse_signed_decimal (s : jsstring) : float :=
  let '(neg, r) :=
    match s with
    | 43%N :: t => (false, t)
    | 45%N :: t => (true, t)
    | _ => (false, s)
    end in
  let magnitude :=
    if JsString.eqb r (lit "Infinity") then infinity
    else match parse_unsigned_decimal r with
         | Some (m, k) => round_decimal m k
         | None => nan
         end in
  if neg then (- magnitude)%float else magnitude.

Definition StringToNumber (s : jsstring) : float :=
  match trim s with
  | [] => zero
  | (48%N :: c :: r) as t =>
      if ((c =? 120) || (c =? 88))%N then parse_radix 16 r
      else if ((c =? 111) || (c =? 79))%N then parse_radix 8 r
      else if ((c =? 98) || (c =? 66))%N then parse_radix 2 r
      else parse_signed_decimal t
  | t => parse_signed_decimal t
  end.

End JsNumber.
Import JsNumber.

(* ================================================================== *)
(** * Errors *)

(** What the handler's code can throw. *)
Inductive error : Type :=
| TypeError                (** a read of a property of [null] or [undefined],
                               a [for-of] over a non-iterable, a call of a
                               non-function, an object without a usable
                               [toString] used as a primitive *)
| SyntaxError              (** [JSON.parse] *)
| BackendError             (** [model.generateContent] *)
| MissingTopicOrUserId     (** [new Error('Missing topic or userId')] *)
| MissingApiKey (envKey : jsstring)
                           (** [new Error(`Missing API key for ${envKey}`)] *)
| FailedAfterAttempts (maxRetries : nat)
                           (** [new Error(`Failed after ${maxRetries} attempts.`)] *)
| PersistenceError.        (** [db.course.create] *)

(** A completion: a value or a thrown error. *)
Inductive outcome (A : Type) : Type :=
| Ok (a : A)
| Throw (e : error).
Arguments Ok {A} a.
Arguments Throw {A} e.

Definition obind {A B} (o : outcome A) (k : A -> outcome B) : outcome B :=
  match o with
  | Ok a => k a
  | Throw e => Throw e
  end.

(* ================================================================== *)
(** * Values

    What [JSON.parse] returns, plus [undefined], which a read of a missing
    property yields. *)

Module JsValue.

Local Set Warnings "-register-all".

Inductive value : Type :=
| VUndefined
| VNull
| VBool (b : bool)
| VNum (x : float)
| VStr (s : jsstring)
| VArr (elems : list value)
| VObj (props : list (jsstring * value)).

Fixpoint lookup (props : list (jsstring * value)) (k : jsstring) : value :=
  match props with
  | [] => VUndefined
  | (k', v) :: rest => if JsString.eqb k' k then v else lookup rest k
  end.

Definition has_key (props : list (jsstring * value)) (k : jsstring) : bool :=
  existsb (fun kv => JsString.eqb (fst kv) k) props.

Definition length_value (n : nat) : value := VNum (float_of_Z (Z.of_nat n)).

(** [v.k] for the identifier names the source reads.  None of them is
    inherited from a prototype, [length] of arrays and strings apart. *)
Definition get (v : value) (k : jsstring) : outcome value :=
  match v with
  | VUndefined | VNull => Throw TypeError
  | VObj props => Ok (lookup props k)
  | VArr elems =>
      Ok (if JsString.eqb k (lit "length") then length_value (length elems)
          else VUndefined)
  | VStr s =>
      Ok (if JsString.eqb k (lit "length") then length_value (length s)
          else VUndefined)
  | VBool _ | VNum _ => Ok VUndefined
  end.

(** ToBoolean *)
Definition truthy (v : value) : bool :=
  match v with
  | VUndefined | VNull => false
  | VBool b => b
  | VNum x => negb (PrimFloat.is_zero x || PrimFloat.is_nan x)
  | VStr s => match s with [] => false | _ => true end
  | VArr _ | VObj _ => true
  end.

Definition is_nullish (v : value) : bool :=
  match v with
  | VUndefined | VNull => true
  | _ => false
  end.

(** [v ?? d] *)
Definition nullish_or (v d : value) : value :=
  if is_nullish v then d else v.

(** A destructuring default, [{ k = d }]: only [undefined] takes it. *)
Definition default_to (v d : value) : value :=
  match v with
  | VUndefined => d
  | _ => v
  end.

(** [v === 'literal'] *)
Definition is_literal (v : value) (s : jsstring) : bool :=
  match v with
  | VStr t => JsString.eqb t s
  | _ => false
  end.

(** The elements a string yields to [for-of]: its code points, a
    surrogate pair being one element. *)
Fixpoint code_points (s : jsstring) : list jsstring :=
  match s with
  | [] => []
  | c :: r =>
      match r with
      | d :: r' =>
          if ((55296 <=? c) && (c <=? 56319) && (56320 <=? d) && (d <=? 57343))%N
          then match code_points r with
               | _ :: tl => [c; d] :: tl
               | [] => [[c; d]]
               end
          else [c] :: code_points r
      | [] => [[c]]
      end
  end.

(** The elements [for (const x of v)] visits. *)
Definition iterate (v : value) : outcome (list value) :=
  match v with
  | VArr elems => Ok elems
  | VStr s => Ok (map VStr (code_points s))
  | _ => Throw TypeError
  end.

(** The receiver of [v.map(f)]: only an array has a callable [map]. *)
Definition array_elements (v : value) : outcome (list value) :=
  match v with
  | VArr elems => Ok elems
  | _ => Throw TypeError
  end.

Section Conversions.

(** [Number.prototype.toString], the runtime's. *)
Variable Number_toString : float -> jsstring.

(** ToString.  An array joins its elements with commas, [null] and
    [undefined] elements being empty; a plain object is
    ["[object Object]"] unless an own [toString] property, which cannot
    be a function in parsed JSON, hides the inherited method. *)
Fixpoint ToString (v : value) : outcome jsstring :=
  match v with
  | VUndefined => Ok (lit "undefined")
  | VNull => Ok (lit "null")
  | VBool true => Ok (lit "true")
  | VBool false => Ok (lit "false")
  | VNum x => Ok (Number_toString x)
  | VStr s => Ok s
  | VArr elems =>
      (fix join (first : bool) (l : list value) : outcome jsstring :=
         match l with
         | [] => Ok []
         | e :: r =>
             obind (if is_nullish e then Ok [] else ToString e) (fun part =>
             obind (join false r) (fun rest =>
             Ok ((if first then [] else lit ",") ++ part ++ rest)))
         end) true elems
  | VObj props =>
      if has_key props (lit "toString") then Throw TypeError
      else Ok (lit "[object Object]")
  end.

(** ToNumber, and so [Number(v)]. *)
Definition ToNumber (v : value) : outcome float :=
  match v with
  | VUndefined => Ok nan
  | VNull => Ok zero
  | VBool true => Ok one
  | VBool false => Ok zero
  | VNum x => Ok x
  | VStr s => Ok (StringToNumber s)
  | VArr _ | VObj _ => obind (ToString v) (fun s => Ok (StringToNumber s))
  end.

(** [v + 'literal']: the right operand is a string, so the left one is
    converted to a string and the two are concatenated. *)
Definition concat_literal (v : value) (s : jsstring) : outcome value :=
  obind (ToString v) (fun t => Ok (VStr (t ++ s))).

End Conversions.

End JsValue.
Import JsValue.

(* ================================================================== *)
(** * The observable world and the effects of the handler *)

Module Effects.

Record Personalization : Type := {
  level : value;
  preferredTopics : value;
  dislikedTopics : value;
  goal : value;
  timeCommitment : value;
  learningStyle : value
}.

(** The object literal [contentBlock] of the flattening loop. *)
Record ContentBlock : Type := {
  cb_id : jsstring;
  cb_order : value;
  cb_type : value;
  cb_text : value;
  cb_code : value;
  cb_math : value;
  cb_graph : value
}.

(** The plain-string notices. *)
Inductive notice : Type :=
| GeneratingSyllabus | GeneratingPostCourse | SavingToDatabase | GenerationComplete.

(** What [sendData] is given. *)
Inductive message : Type :=
| SyllabusStarted
| Notice (n : notice)
| SyllabusCompleted (data : value)
| LessonStarted (title : value)
| ContentBlockProduced (lessonTitle sectionTitle : value) (contentBlock : ContentBlock)
| QuizCompleted (data : value)
| Completed (courseId : value)
| ErrorMessage.

(** The terminal events: [step: 'completed'] and [step: 'error']. *)
Definition is_terminal (m : message) : bool :=
  match m with
  | Completed _ | ErrorMessage => true
  | _ => false
  end.

(** The argument of [db.course.create], [data] and below. *)
Record QuestionCreate : Type := {
  q_number : value;
  q_question : value;
  q_type : value;
  q_options : value;
  q_marks : value;
  q_correctAnswers : value;
  q_explanation : value;
  q_rubric : value
}.

Record QuizCreate : Type := {
  quiz_title : value;
  quiz_duration : value;
  quiz_totalMarks : value;
  quiz_passingMarks : value;
  quiz_isCompleted : bool;
  quiz_gainedMarks : Z;
  quiz_timeTaken : Z;
  quiz_questions : list QuestionCreate
}.

Record BlockCreate : Type := {
  b_order : nat;
  b_type : value;
  b_text : value;
  b_code : value;
  b_math : value;
  b_graph : value
}.

Record LessonCreate : Type := {
  l_title : value;
  l_description : value;
  l_duration : value;
  l_order : nat;
  l_contentBlocks : list BlockCreate;
  l_quizz : QuizCreate
}.

Record CourseCreate : Type := {
  c_title : value;
  c_description : value;
  c_user : value;
  c_lessons : list LessonCreate;
  c_summary : value;
  c_keyPoints : value;
  c_analytics : value
}.

(** What a run leaves behind, each log oldest first. *)
Record World : Type := {
  backend_calls : list jsstring;   (** prompts given to [model.generateContent] *)
  warnings : list nat;             (** [console.warn], by attempt number *)
  timeouts : list nat;             (** delays awaited, in milliseconds *)
  uuids_drawn : nat;               (** calls of [crypto.randomUUID] *)
  sent : list message;             (** [ws.send] *)
  db_calls : list CourseCreate;    (** [db.course.create] *)
  errors_logged : list error;      (** [console.error] *)
  closes : nat                     (** [ws.close] *)
}.

Definition fresh : World :=
  {| backend_calls := []; warnings := []; timeouts := []; uuids_drawn := 0;
     sent := []; db_calls := []; errors_logged := []; closes := 0 |}.

(** The collaborators of the pipeline and the prompt templates. *)
Record Runtime : Type := {
  (** [model.generateContent(prompt)] then [result.response.text()] for
      the call of the given rank (from 0); [None] when either throws. *)
  generateContent : nat -> jsstring -> option jsstring;
  (** [JSON.parse]; [None] for a SyntaxError. *)
  JSON_parse : jsstring -> option value;
  (** [crypto.randomUUID()], by rank of the call. *)
  randomUUID : nat -> jsstring;
  Number_toString : float -> jsstring;
  (** [Math.floor(Math.random() * n)] *)
  random_below : nat -> nat;
  process_env : jsstring -> option jsstring;
  (** [db.course.create({ data })]; [None] when it rejects. *)
  db_course_create : CourseCreate -> option value;
  getSyllabusPrompt : value -> Personalization -> outcome jsstring;
  getLessonContextPrompt : value -> Personalization -> outcome jsstring;
  getAllSectionsContentPrompt : value -> Personalization -> outcome jsstring;
  getQuizPrompt : value -> list ContentBlock -> Personalization -> outcome jsstring;
  getPostCourseDataPrompt : value -> Personalization -> outcome jsstring
}.

(** Computations that change the world and may throw. *)
Definition M (A : Type) : Type := World -> outcome A * World.

Definition ret {A} (a : A) : M A := fun w => (Ok a, w).
Definition throw {A} (e : error) : M A := fun w => (Throw e, w).
Definition lift {A} (o : outcome A) : M A := fun w => (o, w).

Definition bind {A B} (m : M A) (k : A -> M B) : M B :=
  fun w =>
    match m w with
    | (Ok a, w') => k a w'
    | (Throw e, w') => (Throw e, w')
    end.

(** [try { m } catch (err) { h err }] *)
Definition try_catch {A} (m : M A) (h : error -> M A) : M A :=
  fun w =>
    match m w with
    | (Ok a, w') => (Ok a, w')
    | (Throw e, w') => h e w'
    end.

Declare Scope effect_scope.
Delimit Scope effect_scope with effect.
Notation "x <- m ;; k" := (bind m (fun x => k))
  (at level 61, m at next level, right associativity) : effect_scope.
Notation "m ;;; k" := (bind m (fun _ => k))
  (at level 61, right associativity) : effect_scope.

(** One more entry in a log of the world. *)
Definition log_backend_call (prompt : jsstring) (w : World) : World :=
  {| backend_calls := backend_calls w ++ [prompt]; warnings := warnings w;
     timeouts := timeouts w; uuids_drawn := uuids_drawn w;
     sent := sent w; db_calls := db_calls w;
     errors_logged := errors_logged w; closes := closes w |}.

Definition log_warning (attempt : nat) (w : World) : World :=
  {| backend_calls := backend_calls w; warnings := warnings w ++ [attempt];
     timeouts := timeouts w; uuids_drawn := uuids_drawn w;
     sent := sent w; db_calls := db_calls w;
     errors_logged := errors_logged w; closes := closes w |}.

Definition log_timeout (ms : nat) (w : World) : World :=
  {| backend_calls := backend_calls w; warnings := warnings w;
     timeouts := timeouts w ++ [ms]; uuids_drawn := uuids_drawn w;
     sent := sent w; db_calls := db_calls w;
     errors_logged := errors_logged w; closes := closes w |}.

Definition count_uuid (w : World) : World :=
  {| backend_calls := backend_calls w; warnings := warnings w;
     timeouts := timeouts w; uuids_drawn := S (uuids_drawn w);
     sent := sent w; db_calls := db_calls w;
     errors_logged := errors_logged w; closes := closes w |}.

Definition log_sent (data : message) (w : World) : World :=
  {| backend_calls := backend_calls w; warnings := warnings w;
     timeouts := timeouts w; uuids_drawn := uuids_drawn w;
     sent := sent w ++ [data]; db_calls := db_calls w;
     errors_logged := errors_logged w; closes := closes w |}.

Definition log_db_call (data : CourseCreate) (w : World) : World :=
  {| backend_calls := backend_calls w; warnings := warnings w;
     timeouts := timeouts w; uuids_drawn := uuids_drawn w;
     sent := sent w; db_calls := db_calls w ++ [data];
     errors_logged := errors_logged w; closes := closes w |}.

Definition log_error (e : error) (w : World) : World :=
  {| backend_calls := backend_calls w; warnings := warnings w;
     timeouts := timeouts w; uuids_drawn := uuids_drawn w;
     sent := sent w; db_calls := db_calls w;
     errors_logged := errors_logged w ++ [e]; closes := closes w |}.

Definition count_close (w : World) : World :=
  {| backend_calls := backend_calls w; warnings := warnings w;
     timeouts := timeouts w; uuids_drawn := uuids_drawn w;
     sent := sent w; db_calls := db_calls w;
     errors_logged := errors_logged w; closes := S (closes w) |}.

Definition update (f : World -> World) : M unit := fun w => (Ok tt, f w).

(** [sendData({ ws, data })] *)
Definition sendData (data : message) : M unit := update (log_sent data).

Definition console_warn (attempt : nat) : M unit := update (log_warning attempt).

Definition console_error (e : error) : M unit := update (log_error e).

(** [await new Promise(res => setTimeout(res, ms))] *)
Definition sleep (ms : nat) : M unit := update (log_timeout ms).

Definition ws_close : M unit := update count_close.

(** [await model.generateContent(prompt)] and [result.response.text()];
    the rank of the call is the number of calls made before it. *)
Definition call_backend (R : Runtime) (prompt : jsstring) : M jsstring :=
  fun w =>
    match generateContent R (length (backend_calls w)) prompt with
    | Some text => (Ok text, log_backend_call prompt w)
    | None => (Throw BackendError, log_backend_call prompt w)
    end.

(** [crypto.randomUUID()] *)
Definition draw_uuid (R : Runtime) : M jsstring :=
  fun w => (Ok (randomUUID R (uuids_drawn w)), count_uuid w).

(** [await db.course.create({ data })] *)
Definition db_create (R : Runtime) (data : CourseCreate) : M value :=
  fun w =>
    match db_course_create R data with
    | Some created => (Ok created, log_db_call data w)
    | None => (Throw PersistenceError, log_db_call data w)
    end.

End Effects.
Import Effects.
Open Scope effect_scope.

(* ================================================================== *)
(** * The pipeline of [src/index.ts] *)

Module Pipeline.

Definition TOTAL_KEYS : nat := 24.
Definition MAX_RETRIES : nat := 5.

Definition decimal (n : nat) : jsstring :=
  lit (DecimalString.NilEmpty.string_of_uint (Nat.to_uint n)).

Definition getRandomApiKey (R : Runtime) : outcome jsstring :=
  let keyIndex := random_below R TOTAL_KEYS + 1 in
  let envKey := lit "GEMINI_API_KEY_" ++ decimal keyIndex in
  match process_env R envKey with
  | Some selectedKey =>
      if truthy (VStr selectedKey) then Ok selectedKey
      else Throw (MissingApiKey envKey)
  | None => Throw (MissingApiKey envKey)
  end.

(** ** [generateValidJsonWithRetries] *)

Section Generator.

(** The chain of [replace] and [trim] calls applied to the backend's text.
    The copies of the handler differ in it and in nothing else of the
    function. *)
Variable chain : jsstring -> jsstring.

(** The [try] block: one backend call, the chain and [JSON.parse]. *)
Definition attempt_once_with (R : Runtime) (prompt : jsstring) : M value :=
  text <- call_backend R prompt ;;
  match JSON_parse R (chain text) with
  | Some parsed => ret parsed
  | None => throw SyntaxError
  end.

(** What the backend call of rank [n] yields once normalised and parsed;
    [None] when the call fails or its text does not parse. *)
Definition try_parse_with (R : Runtime) (n : nat) (prompt : jsstring) : option value :=
  match generateContent R n prompt with
  | Some text => JSON_parse R (chain text)
  | None => None
  end.

(** The [for] loop from the given [attempt] on.  [fuel] bounds the
    iterations left; the loop condition is tested as written. *)
Fixpoint attempts_from_with (R : Runtime) (prompt : jsstring)
    (maxRetries fuel attempt : nat) : M value :=
  match fuel with
  | O => ret VUndefined
  | S fuel' =>
      if attempt <=? maxRetries then
        try_catch (attempt_once_with R prompt) (fun _ =>
          console_warn attempt ;;;
          if attempt =? maxRetries then throw (FailedAfterAttempts maxRetries)
          else
            sleep (1000 * attempt) ;;;
            attempts_from_with R prompt maxRetries fuel' (S attempt))
      else ret VUndefined
  end.

(** [attempt] runs from 1 to [maxRetries], so [maxRetries] iterations
    exhaust the loop. *)
Definition generate_with (R : Runtime) (prompt : jsstring) (maxRetries : nat) : M value :=
  attempts_from_with R prompt maxRetries maxRetries 1.

End Generator.

(** The function of [src/index.ts]. *)
Definition try_parse : Runtime -> nat -> jsstring -> option value :=
  try_parse_with normalize.

Definition generateValidJsonWithRetries : Runtime -> jsstring -> nat -> M value :=
  generate_with normalize.

(** The function of the earlier copies of the handler. *)
Definition generateValidJsonWithRetries_earlier : Runtime -> jsstring -> nat -> M value :=
  generate_with normalize_earlier.

(** ** The flattening loop *)

(** [block.type === tag ? block.content : undefined] *)
Definition payload_if (block : value) (tag : jsstring) : outcome value :=
  obind (get block (lit "type")) (fun t =>
  if is_literal t tag then get block (lit "content") else Ok VUndefined).

(** The object literal [contentBlock], its properties evaluated in
    order after [crypto.randomUUID()]. *)
Definition make_contentBlock (id : jsstring) (block : value) : outcome ContentBlock :=
  obind (get block (lit "order")) (fun order =>
  obind (get block (lit "type")) (fun type =>
  obind (payload_if block (lit "TEXT")) (fun text =>
  obind (payload_if block (lit "CODE")) (fun code =>
  obind (payload_if block (lit "MATH")) (fun math =>
  obind (payload_if block (lit "GRAPH")) (fun graph =>
  Ok {| cb_id := id;
        cb_order := nullish_or order (VNum zero);
        cb_type := type;
        cb_text := text;
        cb_code := code;
        cb_math := math;
        cb_graph := graph |})))))).

(** [for (const block of section.contentBlocks)] *)
Fixpoint blocks_loop (R : Runtime) (lessonTitle section : value)
    (blocks : list value) (allContentBlocks : list ContentBlock)
  : M (list ContentBlock) :=
  match blocks with
  | [] => ret allContentBlocks
  | block :: rest =>
      id <- draw_uuid R ;;
      contentBlock <- lift (make_contentBlock id block) ;;
      sectionTitle <- lift (get section (lit "title")) ;;
      sendData (ContentBlockProduced lessonTitle sectionTitle contentBlock) ;;;
      blocks_loop R lessonTitle section rest (allContentBlocks ++ [contentBlock])
  end.

(** [for (const section of sectionContent.sections)] *)
Fixpoint sections_loop (R : Runtime) (lessonTitle : value)
    (sections : list value) (allContentBlocks : list ContentBlock)
  : M (list ContentBlock) :=
  match sections with
  | [] => ret allContentBlocks
  | section :: rest =>
      contentBlocks <- lift (get section (lit "contentBlocks")) ;;
      blocks <- lift (iterate contentBlocks) ;;
      allContentBlocks' <- blocks_loop R lessonTitle section blocks allContentBlocks ;;
      sections_loop R lessonTitle rest allContentBlocks'
  end.

(** ** The lesson loop *)

(** An element of the accumulator [lessons]. *)
Record LessonRecord : Type := {
  lessonTitle : value;
  lessonDuration : value;
  context : value;
  allContentBlocks : list ContentBlock;
  quizJson : value
}.

Definition with_timeCommitment (p : Personalization) (t : value) : Personalization :=
  {| level := level p; preferredTopics := preferredTopics p;
     dislikedTopics := dislikedTopics p; goal := goal p;
     timeCommitment := t; learningStyle := learningStyle p |}.

(** [x.toString()] on a number. *)
Definition number_text (R : Runtime) (x : float) : value :=
  VStr (Number_toString R x).

(** The body of [for (const lessonObj of syllabusJson.lessons)]. *)
Definition lesson_body (R : Runtime) (p : Personalization)
    (lessonTimePerLesson quizTimePerLesson : float) (lessonObj : value)
  : M LessonRecord :=
  lessonTitle <- lift (get lessonObj (lit "title")) ;;
  lessonDuration <- lift (get lessonObj (lit "duration")) ;;
  sendData (LessonStarted lessonTitle) ;;;
  contextPrompt <- lift (getLessonContextPrompt R lessonTitle
                     (with_timeCommitment p (number_text R lessonTimePerLesson))) ;;
  context <- generateValidJsonWithRetries R contextPrompt MAX_RETRIES ;;
  sectionPrompt <- lift (getAllSectionsContentPrompt R context
                     (with_timeCommitment p (number_text R lessonTimePerLesson))) ;;
  sectionContent <- generateValidJsonWithRetries R sectionPrompt MAX_RETRIES ;;
  sections <- lift (obind (get sectionContent (lit "sections")) iterate) ;;
  allContentBlocks <- sections_loop R lessonTitle sections [] ;;
  quizPrompt <- lift (getQuizPrompt R lessonTitle allContentBlocks
                  (with_timeCommitment p (number_text R quizTimePerLesson))) ;;
  quizJson <- generateValidJsonWithRetries R quizPrompt MAX_RETRIES ;;
  sendData (QuizCompleted quizJson) ;;;
  ret {| lessonTitle := lessonTitle; lessonDuration := lessonDuration;
         context := context; allContentBlocks := allContentBlocks;
         quizJson := quizJson |}.

Fixpoint lesson_loop (R : Runtime) (p : Personalization)
    (lessonTimePerLesson quizTimePerLesson : float)
    (lessonObjs : list value) (lessons : list LessonRecord)
  : M (list LessonRecord) :=
  match lessonObjs with
  | [] => ret lessons
  | lessonObj :: rest =>
      l <- lesson_body R p lessonTimePerLesson quizTimePerLesson lessonObj ;;
      lesson_loop R p lessonTimePerLesson quizTimePerLesson rest (lessons ++ [l])
  end.

(** ** The time budgets *)

Record Budgets : Type := {
  totalTimeMinutes : float;
  numberOfLessons : value;
  lessonTimePerLesson : float;
  quizTimePerLesson : float
}.

(** The literals [60], [0.8] and [0.2] as binary64. *)
Definition sixty : float := 60%float.
Definition eight_tenths : float := 0x1.999999999999ap-1%float.
Definition two_tenths : float := 0x1.999999999999ap-3%float.

(** Lines 96-99: [Number(timeCommitment) * 60], the lesson count and the
    two per-lesson shares.  Each division converts [numberOfLessons] to a
    number; the conversion has no effect, so it is written once. *)
Definition time_budgets (R : Runtime) (timeCommitment syllabusJson : value)
  : outcome Budgets :=
  obind (ToNumber (Number_toString R) timeCommitment) (fun hours =>
  let totalTimeMinutes := (hours * sixty)%float in
  obind (get syllabusJson (lit "lessons")) (fun lessons =>
  obind (get lessons (lit "length")) (fun numberOfLessons =>
  obind (ToNumber (Number_toString R) numberOfLessons) (fun n =>
  Ok {| totalTimeMinutes := totalTimeMinutes;
        numberOfLessons := numberOfLessons;
        lessonTimePerLesson := (totalTimeMinutes * eight_tenths / n)%float;
        quizTimePerLesson := (totalTimeMinutes * two_tenths / n)%float |})))).

(** ** The argument of [db.course.create] *)

Fixpoint mapi_from {A B} (f : nat -> A -> B) (idx : nat) (l : list A) : list B :=
  match l with
  | [] => []
  | x :: r => f idx x :: mapi_from f (S idx) r
  end.

Fixpoint mapi_outcome_from {A B} (f : nat -> A -> outcome B) (idx : nat) (l : list A)
  : outcome (list B) :=
  match l with
  | [] => Ok []
  | x :: r =>
      obind (f idx x) (fun y =>
      obind (mapi_outcome_from f (S idx) r) (fun ys => Ok (y :: ys)))
  end.

(** [l.allContentBlocks.map((block, blockIdx) => ({ ... }))] *)
Definition block_create (blockIdx : nat) (block : ContentBlock) : BlockCreate :=
  {| b_order := blockIdx + 1;
     b_type := cb_type block;
     b_text := cb_text block;
     b_code := cb_code block;
     b_math := cb_math block;
     b_graph := cb_graph block |}.

Definition explanation_default : jsstring := lit "Explanation not provided.".

(** [l.quizJson.questions.map((q: any) => ({ ... }))] *)
Definition question_create (q : value) : outcome QuestionCreate :=
  obind (get q (lit "number")) (fun number =>
  obind (get q (lit "question")) (fun question =>
  obind (get q (lit "type")) (fun type =>
  obind (get q (lit "options")) (fun options =>
  obind (get q (lit "marks")) (fun marks =>
  obind (get q (lit "correctAnswers")) (fun correctAnswers =>
  obind (get q (lit "explanation")) (fun explanation =>
  obind (get q (lit "rubric")) (fun rubric =>
  Ok {| q_number := number;
        q_question := question;
        q_type := type;
        q_options := nullish_or options (VArr []);
        q_marks := marks;
        q_correctAnswers := nullish_or correctAnswers (VArr []);
        q_explanation := nullish_or explanation (VStr explanation_default);
        q_rubric := nullish_or rubric (VArr []) |})))))))).

(** The value of [quizz: { create: { ... } }]. *)
Definition quiz_create (R : Runtime) (l : LessonRecord) : outcome QuizCreate :=
  obind (get (context l) (lit "title")) (fun contextTitle =>
  obind (concat_literal (Number_toString R) contextTitle (lit " Quiz")) (fun title =>
  obind (get (quizJson l) (lit "duration")) (fun duration =>
  obind (get (quizJson l) (lit "totalMarks")) (fun totalMarks =>
  obind (get (quizJson l) (lit "passingMarks")) (fun passingMarks =>
  obind (get (quizJson l) (lit "questions")) (fun questions =>
  obind (array_elements questions) (fun qs =>
  obind (mapi_outcome_from (fun _ q => question_create q) 0 qs) (fun created =>
  Ok {| quiz_title := title;
        quiz_duration := duration;
        quiz_totalMarks := totalMarks;
        quiz_passingMarks := passingMarks;
        quiz_isCompleted := false;
        quiz_gainedMarks := 0%Z;
        quiz_timeTaken := 0%Z;
        quiz_questions := created |})))))))).

(** The callback of [lessons.map((l, idx) => ({ ... }))]. *)
Definition lesson_create (R : Runtime) (idx : nat) (l : LessonRecord)
  : outcome LessonCreate :=
  obind (get (context l) (lit "title")) (fun title =>
  obind (get (context l) (lit "objective")) (fun description =>
  obind (quiz_create R l) (fun quizz =>
  Ok {| l_title := title;
        l_description := description;
        l_duration := lessonDuration l;
        l_order := idx;
        l_contentBlocks := mapi_from block_create 0 (allContentBlocks l);
        l_quizz := quizz |}))).

Definition course_create_data (R : Runtime) (syllabusJson userId : value)
    (lessons : list LessonRecord) (postCourse : value) : outcome CourseCreate :=
  obind (get syllabusJson (lit "title")) (fun title =>
  obind (get syllabusJson (lit "description")) (fun description =>
  obind (mapi_outcome_from (lesson_create R) 0 lessons) (fun created =>
  obind (get postCourse (lit "summary")) (fun summary =>
  obind (get postCourse (lit "keyPoints")) (fun keyPoints =>
  obind (get postCourse (lit "analytics")) (fun analytics =>
  Ok {| c_title := title;
        c_description := description;
        c_user := userId;
        c_lessons := created;
        c_summary := summary;
        c_keyPoints := keyPoints;
        c_analytics := analytics |})))))).

(** ** The message handler *)

(** The two destructuring patterns at the top of the handler. *)
Definition destructure_personalization (personalization : value)
  : outcome Personalization :=
  let field k := obind (get personalization (lit k)) (fun v =>
                 Ok (default_to v (VStr []))) in
  obind (field "level") (fun level =>
  obind (field "preferredTopics") (fun preferredTopics =>
  obind (field "dislikedTopics") (fun dislikedTopics =>
  obind (field "goal") (fun goal =>
  obind (field "timeCommitment") (fun timeCommitment =>
  obind (field "learningStyle") (fun learningStyle =>
  Ok {| level := level; preferredTopics := preferredTopics;
        dislikedTopics := dislikedTopics; goal := goal;
        timeCommitment := timeCommitment;
        learningStyle := learningStyle |})))))).

Record Request : Type := {
  topic : value;
  userId : value;
  personalization : Personalization
}.

Definition destructure_request (R : Runtime) (message : jsstring) : outcome Request :=
  match JSON_parse R message with
  | None => Throw SyntaxError
  | Some parsed =>
      obind (get parsed (lit "topic")) (fun topic =>
      obind (get parsed (lit "userId")) (fun userId =>
      obind (get parsed (lit "personalization")) (fun p =>
      obind (destructure_personalization (default_to p (VObj []))) (fun pers =>
      Ok {| topic := topic; userId := userId; personalization := pers |}))))
  end.

(** What the generation stages hand to the persisting step. *)
Record Generated : Type := {
  g_syllabusJson : value;
  g_userId : value;
  g_lessons : list LessonRecord;
  g_postCourse : value
}.

(** The [try] block up to the post-course stage. *)
Definition generate_course (R : Runtime) (message : jsstring) : M Generated :=
  req <- lift (destructure_request R message) ;;
  if negb (truthy (topic req)) || negb (truthy (userId req))
  then throw MissingTopicOrUserId
  else
    _ <- lift (getRandomApiKey R) ;;
    sendData SyllabusStarted ;;;
    sendData (Notice GeneratingSyllabus) ;;;
    syllabusPrompt <- lift (getSyllabusPrompt R (topic req) (personalization req)) ;;
    syllabusJson <- generateValidJsonWithRetries R syllabusPrompt MAX_RETRIES ;;
    b <- lift (time_budgets R (timeCommitment (personalization req)) syllabusJson) ;;
    sendData (SyllabusCompleted syllabusJson) ;;;
    lessonObjs <- lift (obind (get syllabusJson (lit "lessons")) iterate) ;;
    lessons <- lesson_loop R (personalization req)
                 (lessonTimePerLesson b) (quizTimePerLesson b) lessonObjs [] ;;
    sendData (Notice GeneratingPostCourse) ;;;
    postCoursePrompt <- lift (getPostCourseDataPrompt R (topic req) (personalization req)) ;;
    postCourse <- generateValidJsonWithRetries R postCoursePrompt MAX_RETRIES ;;
    ret {| g_syllabusJson := syllabusJson; g_userId := userId req;
           g_lessons := lessons; g_postCourse := postCourse |}.

(** The rest of the [try] block: the write and the completed event. *)
Definition persist (R : Runtime) (g : Generated) : M unit :=
  sendData (Notice SavingToDatabase) ;;;
  data <- lift (course_create_data R (g_syllabusJson g) (g_userId g)
                  (g_lessons g) (g_postCourse g)) ;;
  createdCourse <- db_create R data ;;
  courseId <- lift (get createdCourse (lit "id")) ;;
  sendData (Completed courseId) ;;;
  sendData (Notice GenerationComplete) ;;;
  ws_close.

Definition try_block (R : Runtime) (message : jsstring) : M unit :=
  g <- generate_course R message ;;
  persist R g.

(** [ws.on('message', async message => { try { ... } catch (error) { ... } })] *)
Definition on_message (R : Runtime) (message : jsstring) : M unit :=
  try_catch (try_block R message) (fun error =>
    console_error error ;;;
    sendData ErrorMessage ;;;
    ws_close).

End Pipeline.
Import Pipeline.

(* ================================================================== *)
(** * A reference runtime

    [JSON.parse] and [Number.prototype.toString] as ECMAScript defines
    them, for the example runs.  The properties below hold for any
    runtime; these definitions only supply concrete ones. *)

Module Reference.

Local Open Scope N_scope.

Definition is_json_ws (c : N) : bool :=
  (c =? 32) || (c =? 9) || (c =? 10) || (c =? 13).

Fixpoint skip_ws (s : jsstring) : jsstring :=
  match s with
  | c :: r => if is_json_ws c then skip_ws r else s
  | [] => []
  end.

Definition hex4 (a b c d : N) : option N :=
  match digit_of 16 a, digit_of 16 b, digit_of 16 c, digit_of 16 d with
  | Some x, Some y, Some z, Some t =>
      Some (Z.to_N (((x * 16 + y) * 16 + z) * 16 + t)%Z)
  | _, _, _, _ => None
  end.

(** The characters of a string literal after its opening quote, and the
    text after its closing quote. *)
Fixpoint string_body (fuel : nat) (s : jsstring) : option (jsstring * jsstring) :=
  match fuel with
  | O => None
  | S fuel' =>
      let more (c : N) (r : jsstring) :=
        match string_body fuel' r with
        | Some (body, rest) => Some (c :: body, rest)
        | None => None
        end in
      match s with
      | [] => None
      | 34 :: r => Some ([], r)
      | 92 :: e :: r =>
          if (e =? 34) || (e =? 92) || (e =? 47) then more e r
          else if e =? 98 then more 8 r
          else if e =? 102 then more 12 r
          else if e =? 110 then more 10 r
          else if e =? 114 then more 13 r
          else if e =? 116 then more 9 r
          else if e =? 117 then
            match r with
            | a :: b :: c :: d :: r' =>
                match hex4 a b c d with
                | Some u => more u r'
                | None => None
                end
            | _ => None
            end
          else None
      | c :: r => if c <? 32 then None else more c r
      end
  end.

(** A JSON number at the start of the text. *)
Definition number (s : jsstring) : option (float * jsstring) :=
  let '(neg, s1) :=
    match s with
    | 45 :: t => (true, t)
    | _ => (false, s)
    end in
  let (ip, r1) := span_digits 10 s1 in
  let int_ok :=
    match ip with
    | [] => false
    | [_] => true
    | d :: _ => negb (d =? 0)%Z
    end in
  let frac :=
    match r1 with
    | 46 :: t =>
        match span_digits 10 t with
        | ((_ :: _) as fp, r2) => Some (fp, r2)
        | _ => None
        end
    | _ => Some ([], r1)
    end in
  match int_ok, frac with
  | true, Some (fp, r2) =>
      let expo :=
        match r2 with
        | c :: t =>
            if (c =? 101) || (c =? 69) then
              let '(eneg, t1) :=
                match t with
                | 43 :: u => (false, u)
                | 45 :: u => (true, u)
                | _ => (false, t)
                end in
              match span_digits 10 t1 with
              | ((_ :: _) as ds, r3) =>
                  Some ((if eneg then - Z_of_digits 10 ds else Z_of_digits 10 ds)%Z, r3)
              | _ => None
              end
            else Some (0%Z, r2)
        | [] => Some (0%Z, r2)
        end in
      match expo with
      | Some (e, r3) =>
          let x := round_decimal (Z_of_digits 10 (ip ++ fp))
                     (e - Z.of_nat (length fp))%Z in
          Some (if neg then (- x)%float else x, r3)
      | None => None
      end
  | _, _ => None
  end.

(** A property set by a later member replaces the value of an earlier
    one of the same name, in place. *)
Fixpoint set_prop (props : list (jsstring * value)) (k : jsstring) (v : value)
  : list (jsstring * value) :=
  match props with
  | [] => [(k, v)]
  | (k', v') :: rest =>
      if JsString.eqb k' k then (k', v) :: rest else (k', v') :: set_prop rest k v
  end.

Section Containers.

(** The parser of one value, leading whitespace included. *)
Variable parse_one : jsstring -> option (value * jsstring).

(** Elements after [[], at least one. *)
Fixpoint elements (fuel : nat) (s : jsstring) (acc : list value)
  : option (value * jsstring) :=
  match fuel with
  | O => None
  | S fuel' =>
      match parse_one s with
      | Some (v, r) =>
          match skip_ws r with
          | 44 :: r' => elements fuel' r' (acc ++ [v])
          | 93 :: r' => Some (VArr (acc ++ [v]), r')
          | _ => None
          end
      | None => None
      end
  end.

(** Members after [{], at least one. *)
Fixpoint members (fuel : nat) (s : jsstring) (acc : list (jsstring * value))
  : option (value * jsstring) :=
  match fuel with
  | O => None
  | S fuel' =>
      match skip_ws s with
      | 34 :: r =>
          match string_body (length r) r with
          | Some (k, r1) =>
              match skip_ws r1 with
              | 58 :: r2 =>
                  match parse_one r2 with
                  | Some (v, r3) =>
                      match skip_ws r3 with
                      | 44 :: r4 => members fuel' r4 (set_prop acc k v)
                      | 125 :: r4 => Some (VObj (set_prop acc k v), r4)
                      | _ => None
                      end
                  | None => None
                  end
              | _ => None
              end
          | None => None
          end
      | _ => None
      end
  end.

End Containers.

Fixpoint parse_value (fuel : nat) (s : jsstring) : option (value * jsstring) :=
  match fuel with
  | O => None
  | S fuel' =>
      match skip_ws s with
      | [] => None
      | 123 :: r =>
          match skip_ws r with
          | 125 :: r' => Some (VObj [], r')
          | r1 => members (parse_value fuel') (length r1) r1 []
          end
      | 91 :: r =>
          match skip_ws r with
          | 93 :: r' => Some (VArr [], r')
          | r1 => elements (parse_value fuel') (length r1) r1 []
          end
      | 34 :: r =>
          match string_body (length r) r with
          | Some (body, rest) => Some (VStr body, rest)
          | None => None
          end
      | (_ :: _) as t =>
          if is_prefix (lit "true") t then Some (VBool true, skipn 4 t)
          else if is_prefix (lit "false") t then Some (VBool false, skipn 5 t)
          else if is_prefix (lit "null") t then Some (VNull, skipn 4 t)
          else match number t with
               | Some (x, rest) => Some (VNum x, rest)
               | None => None
               end
      end
  end.

(** [JSON.parse(text)] *)
Definition JSON_parse (text : jsstring) : option value :=
  match parse_value (S (length text)) text with
  | Some (v, rest) =>
      match skip_ws rest with
      | [] => Some v
      | _ => None
      end
  | None => None
  end.

(** ** [Number.prototype.toString] *)

Local Open Scope Z_scope.

(** The decimal digits of a non-negative integer. *)
Fixpoint digits_of (fuel : nat) (z : Z) (acc : jsstring) : jsstring :=
  match fuel with
  | O => acc
  | S fuel' =>
      let acc' := Z.to_N (48 + z mod 10) :: acc in
      if z <? 10 then acc' else digits_of fuel' (z / 10) acc'
  end.

Definition digits (z : Z) : jsstring := digits_of 400 z [].

(** A positive finite float as an exact fraction. *)
Definition fraction_of (x : float) : option (Z * Z) :=
  match Prim2SF x with
  | S754_finite false m e =>
      Some (if 0 <=? e then (Zpos m * 2 ^ e, 1) else (Zpos m, 2 ^ (- e)))
  | _ => None
  end.

(** [num / den] scaled by [10 ^ p], as a fraction. *)
Definition scale (num den p : Z) : Z * Z :=
  if 0 <=? p then (num * 10 ^ p, den) else (num, den * 10 ^ (- p)).

(** The least [n] from the given one on with [num / den < 10 ^ n].  The
    search starts just below the decimal magnitude that the binary one
    gives. *)
Fixpoint magnitude (fuel : nat) (num den n : Z) : Z :=
  match fuel with
  | O => n
  | S fuel' =>
      let (a, b) := scale num den (- n) in
      if b <=? a then magnitude fuel' num den (n + 1) else n
  end.

(** The [k]-digit decimal [s * 10 ^ (n - k)] nearest to [num / den] that
    converts back to [x], if there is one. *)
Definition candidate (x : float) (num den n k : Z) : option (Z * Z) :=
  let (a, b) := scale num den (k - n) in
  let lo := a / b in
  let r := a mod b in
  let back s := PrimFloat.eqb (round_decimal s (n - k)) x in
  let pick s := if s =? 10 ^ k then Some (10 ^ (k - 1), n + 1) else Some (s, n) in
  let lo_first := (2 * r <? b) || ((2 * r =? b) && Z.even lo) in
  match back lo, back (lo + 1) with
  | true, true => pick (if lo_first then lo else lo + 1)
  | true, false => pick lo
  | false, true => pick (lo + 1)
  | false, false => None
  end.

Fixpoint shortest (fuel : nat) (x : float) (num den n k : Z) : Z * Z * Z :=
  match fuel with
  | O => (1, n, k)
  | S fuel' =>
      match candidate x num den n k with
      | Some (s, n') => (s, n', k)
      | None => shortest fuel' x num den n (k + 1)
      end
  end.

Definition zeros (n : Z) : jsstring := repeat 48%N (Z.to_nat n).

Definition positive_text (x : float) : jsstring :=
  match fraction_of x with
  | None => lit "Infinity"
  | Some (num, den) =>
      let n0 := magnitude 8 num den
                  ((Z.log2 num - Z.log2 den - 1) * 30103 / 100000 - 2) in
      let '(s, n, k) := shortest 17 x num den n0 1 in
      let ds := digits s in
      if (k <=? n) && (n <=? 21) then ds ++ zeros (n - k)
      else if (0 <? n) && (n <=? 21) then
        firstn (Z.to_nat n) ds ++ lit "." ++ skipn (Z.to_nat n) ds
      else if (-6 <? n) && (n <=? 0) then lit "0." ++ zeros (- n) ++ ds
      else
        let e := n - 1 in
        let mantissa :=
          match ds with
          | d :: ((_ :: _) as rest) => d :: lit "." ++ rest
          | _ => ds
          end in
        mantissa ++ lit "e" ++ (if 0 <=? e then lit "+" else lit "-")
                 ++ digits (Z.abs e)
  end.

(** [x.toString()] *)
Definition Number_toString (x : float) : jsstring :=
  if PrimFloat.is_nan x then lit "NaN"
  else if PrimFloat.is_zero x then lit "0"
  else if PrimFloat.ltb x zero then lit "-" ++ positive_text (- x)%float
  else positive_text x.

End Reference.

(* ================================================================== *)
(** * Well-formed payloads

    The shape each stage's prompt asks the backend for, as far as the
    handler reads it. *)

Module Shape.

Definition is_str (v : value) : bool :=
  match v with VStr _ => true | _ => false end.

Definition is_obj (v : value) : bool :=
  match v with VObj _ => true | _ => false end.

(** A property that is read without a throw, or [undefined]. *)
Definition field (v : value) (k : String.string) : value :=
  match get v (lit k) with
  | Ok x => x
  | Throw _ => VUndefined
  end.

Definition str_personalization (p : Personalization) : bool :=
  is_str (level p) && is_str (preferredTopics p) && is_str (dislikedTopics p)
  && is_str (goal p) && is_str (timeCommitment p) && is_str (learningStyle p).

Definition valid_request (req : Request) : bool :=
  is_str (topic req) && truthy (topic req) && truthy (userId req)
  && str_personalization (personalization req).

Definition valid_lessonObj (v : value) : bool :=
  is_obj v && is_str (field v "title").

Definition valid_syllabus (v : value) : bool :=
  is_obj v &&
  match field v "lessons" with
  | VArr lessonObjs => forallb valid_lessonObj lessonObjs
  | _ => false
  end.

Definition valid_context (v : value) : bool :=
  is_obj v && is_str (field v "title") && is_str (field v "objective").

Definition valid_section (v : value) : bool :=
  is_obj v &&
  match field v "contentBlocks" with
  | VArr blocks => forallb is_obj blocks
  | _ => false
  end.

Definition valid_sectionContent (v : value) : bool :=
  is_obj v &&
  match field v "sections" with
  | VArr sections => forallb valid_section sections
  | _ => false
  end.

Definition valid_quiz (v : value) : bool :=
  is_obj v &&
  match field v "questions" with
  | VArr questions => forallb is_obj questions
  | _ => false
  end.

Definition valid_postCourse (v : value) : bool := is_obj v.

(** Every backend call, whatever its rank, answers the stage's prompt at
    once with text that normalises and parses to a payload of the
    stage's shape. *)
Definition answered (R : Runtime) (prompt : outcome jsstring)
    (valid : value -> bool) : Prop :=
  forall n : nat,
    exists (text : jsstring) (v : value),
      prompt = Ok text /\ try_parse R n text = Some v /\ valid v = true.

Record responsive (R : Runtime) : Prop := {
  syllabus_answered :
    forall topic p, is_str topic = true -> str_personalization p = true ->
      answered R (getSyllabusPrompt R topic p) valid_syllabus;
  context_answered :
    forall title p, is_str title = true -> str_personalization p = true ->
      answered R (getLessonContextPrompt R title p) valid_context;
  sections_answered :
    forall ctx p, valid_context ctx = true -> str_personalization p = true ->
      answered R (getAllSectionsContentPrompt R ctx p) valid_sectionContent;
  quiz_answered :
    forall title blocks p, is_str title = true -> str_personalization p = true ->
      answered R (getQuizPrompt R title blocks p) valid_quiz;
  postCourse_answered :
    forall topic p, is_str topic = true -> str_personalization p = true ->
      answered R (getPostCourseDataPrompt R topic p) valid_postCourse
}.

(** The store accepts every write and returns a record with an [id]. *)
Definition store_accepts (R : Runtime) : Prop :=
  forall data : CourseCreate,
    exists created courseId,
      db_course_create R data = Some created
      /\ get created (lit "id") = Ok courseId.

(** The messages the generation stages send: no terminal event and no
    notice of the persisting step. *)
Definition during_generation (m : message) : bool :=
  match m with
  | Completed _ | ErrorMessage
  | Notice SavingToDatabase | Notice GenerationComplete => false
  | _ => true
  end.

(** Whether a payload field holds something: neither [undefined] nor
    [null]. *)
Definition populated (v : value) : bool := negb (is_nullish v).

Definition count_populated (cb : ContentBlock) : nat :=
  length (filter populated [cb_text cb; cb_code cb; cb_math cb; cb_graph cb]).

(** Whether the type is one of the four the construction tests for. *)
Definition selects (t : value) : bool :=
  is_literal t (lit "TEXT") || is_literal t (lit "CODE")
  || is_literal t (lit "MATH") || is_literal t (lit "GRAPH").

(** The raw blocks of the sections in section-then-block order. *)
Fixpoint raw_blocks (sections : list value) : outcome (list value) :=
  match sections with
  | [] => Ok []
  | section :: rest =>
      obind (get section (lit "contentBlocks")) (fun contentBlocks =>
      obind (iterate contentBlocks) (fun blocks =>
      obind (raw_blocks rest) (fun more => Ok (blocks ++ more))))
  end.

End Shape.
Import Shape.

(* ================================================================== *)
(** * Example runs *)

Module Demo.

(** A JSON text written with single quotes in place of double ones. *)
Definition json (s : String.string) : jsstring :=
  map (fun c => if (c =? 39)%N then 34%N else c) (lit s).

Definition lessons3 : jsstring :=
  json "{'title':'Algebra','description':'Basics','lessons':[{'title':'Numbers','duration':'1 hour'},{'title':'Equations','duration':'2 hours'},{'title':'Functions','duration':'3 hours'}]}".

Definition lessons5 : jsstring :=
  json "Here is the syllabus: {'title':'Algebra','description':'Basics','lessons':[{'title':'L1','duration':'1h'},{'title':'L2','duration':'1h'},{'title':'L3','duration':'1h'},{'title':'L4','duration':'1h'},{'title':'L5','duration':'1h'}]}".

Definition lessons0 : jsstring :=
  json "{'title':'Algebra','description':'Basics','lessons':[]}".

Definition context_text : jsstring :=
  lit "```json" ++ [10%N] ++
  json "{'title':'From the context stage','objective':'Understand it','sections':[{'title':'Intro','description':'d'}]}"
  ++ [10%N] ++ lit "```".

(** Three sections of two blocks each, some with an [order] hint. *)
Definition sections_text : jsstring :=
  json "{'sections':[{'title':'S1','contentBlocks':[{'type':'TEXT','content':'a','order':7},{'type':'CODE','content':'b'}]},{'title':'S2','contentBlocks':[{'type':'MATH','content':'c','order':7},{'type':'GRAPH','content':{'xKey':'x'}}]},{'title':'S3','contentBlocks':[{'type':'TEXT','content':'e'},{'type':'TEXT','content':'f','order':1}]}]}".

Definition quiz_text : jsstring :=
  json "{'title':'From the quiz stage','duration':'10 min','totalMarks':10,'passingMarks':6,'questions':[{'number':1,'question':'Q1','type':'MCQ','options':['a','b'],'marks':5,'correctAnswers':['a'],'explanation':'why'},{'number':2,'question':'Q2','type':'DESCRIPTIVE','marks':5}]}".

Definition postCourse_text : jsstring :=
  json "{'summary':{'overview':'o'},'keyPoints':[],'analytics':{'grade':'GOOD'}}".

(** Prompt templates cut down to the stage, the subject and the time
    commitment, interpolated as a template literal does. *)
Definition interpolate (v : value) : outcome jsstring :=
  ToString Reference.Number_toString v.

Definition or_else (v : value) (d : String.string) : value :=
  if truthy v then v else VStr (lit d).

Definition template (stage : String.string) (subject : value) (p : Personalization)
  : outcome jsstring :=
  obind (interpolate subject) (fun s =>
  obind (interpolate (or_else (timeCommitment p) "Flexible")) (fun t =>
  Ok (lit stage ++ s ++ lit "|" ++ t))).

(** The backend answers by the stage named at the start of the prompt. *)
Definition answer (syllabus_text : jsstring) (prompt : jsstring) : option jsstring :=
  if is_prefix (lit "syllabus|") prompt then Some syllabus_text
  else if is_prefix (lit "context|") prompt then Some context_text
  else if is_prefix (lit "sections|") prompt then Some sections_text
  else if is_prefix (lit "quiz|") prompt then Some quiz_text
  else if is_prefix (lit "postcourse|") prompt then Some postCourse_text
  else None.

Definition uuid (n : nat) : jsstring := lit "uuid-" ++ decimal n.

Definition runtime (backend : nat -> jsstring -> option jsstring)
    (store : CourseCreate -> option value) : Runtime :=
  {| generateContent := backend;
     JSON_parse := Reference.JSON_parse;
     randomUUID := uuid;
     Number_toString := Reference.Number_toString;
     random_below := fun _ => 6;
     process_env := fun name =>
       if JsString.eqb name (lit "GEMINI_API_KEY_7") then Some (lit "secret")
       else None;
     db_course_create := store;
     getSyllabusPrompt := template "syllabus|";
     getLessonContextPrompt := template "context|";
     getAllSectionsContentPrompt := fun ctx p =>
       obind (get ctx (lit "title")) (fun title => template "sections|" title p);
     getQuizPrompt := fun title _ p => template "quiz|" title p;
     getPostCourseDataPrompt := template "postcourse|" |}.

(** The store accepts every write. *)
Definition accepting (data : CourseCreate) : option value :=
  Some (VObj [(lit "id", VStr (lit "course-1"))]).

(** The store rejects every write. *)
Definition rejecting (data : CourseCreate) : option value := None.

(** Every call answered at once. *)
Definition steady (syllabus_text : jsstring) : Runtime :=
  runtime (fun _ prompt => answer syllabus_text prompt) accepting.

(** Every call answered at once, and the write rejected. *)
Definition steady_rejected (syllabus_text : jsstring) : Runtime :=
  runtime (fun _ prompt => answer syllabus_text prompt) rejecting.

(** From the seventh call on the backend returns prose: with three
    lessons that is the quiz stage of the second. *)
Definition failing_from_rank6 : Runtime :=
  runtime (fun n prompt =>
    if 6 <=? n then Some (lit "I cannot help with that.")
    else answer lessons3 prompt) accepting.

(** The backend fails twice before each answer. *)
Definition flaky : Runtime :=
  runtime (fun n prompt =>
    if n mod 3 =? 2 then answer lessons3 prompt else None) accepting.

(** The sections of [sections_text], parsed. *)
Definition sections : list value :=
  match Reference.JSON_parse sections_text with
  | Some v => match field v "sections" with VArr l => l | _ => [] end
  | None => []
  end.

Definition request : jsstring :=
  json "{'topic':'Algebra','userId':'u1','personalization':{'timeCommitment':'10','level':'beginner'}}".

Definition request_without_userId : jsstring := json "{'topic':'Algebra'}".

(** [request] once destructured. *)
Definition destructured : Request :=
  {| topic := VStr (lit "Algebra");
     userId := VStr (lit "u1");
     personalization :=
       {| level := VStr (lit "beginner"); preferredTopics := VStr [];
          dislikedTopics := VStr []; goal := VStr [];
          timeCommitment := VStr (lit "10"); learningStyle := VStr [] |} |}.

(** A backend text once normalised and parsed. *)
Definition parsed (text : jsstring) : value :=
  match Reference.JSON_parse (normalize text) with
  | Some v => v
  | None => VNull
  end.

(** What the generation stages of a run return. *)
Definition generated (R : Runtime) (message : jsstring) : Generated :=
  match fst (generate_course R message fresh) with
  | Ok g => g
  | Throw _ =>
      {| g_syllabusJson := VNull; g_userId := VNull; g_lessons := [];
         g_postCourse := VNull |}
  end.

(** The argument of [db.course.create] in a run that reaches it. *)
Definition persisted (R : Runtime) (message : jsstring) : CourseCreate :=
  let g := generated R message in
  match course_create_data R (g_syllabusJson g) (g_userId g) (g_lessons g)
          (g_postCourse g) with
  | Ok data => data
  | Throw _ =>
      {| c_title := VNull; c_description := VNull; c_user := VNull;
         c_lessons := []; c_summary := VNull; c_keyPoints := VNull;
         c_analytics := VNull |}
  end.

(** The backend never answers. *)
Definition silent : Runtime := runtime (fun _ _ => None) accepting.

Definition syllabus_prompt : jsstring := lit "syllabus|Algebra|10".

(** The text of the counterexample: an opening brace, a backtick, a
    carriage return and two backticks. *)
Definition split_fence : jsstring := lit "{`" ++ [13%N] ++ lit "``".

(** A block whose type the construction does not test for. *)
Definition image_block : value :=
  VObj [(lit "type", VStr (lit "IMAGE")); (lit "content", VStr (lit "a.png"))].

End Demo.

(* ================================================================== *)
(** * Relations between the states and the values of a run *)

Module Relations.

(** After the preamble is dropped the text is empty or starts with an
    opening brace or bracket. *)
Definition opens (s : jsstring) : Prop :=
  match s with
  | [] => True
  | c :: _ => is_opening c = true
  end.

(** The world after a failed attempt that is not the last: the call, the
    warning and the wait. *)
Definition after_failure (prompt : jsstring) (attempt : nat) (w : World) : World :=
  log_timeout (1000 * attempt) (log_warning attempt (log_backend_call prompt w)).

(** [w'] extends [w] by generation-stage effects only. *)
Definition quiet (w w' : World) : Prop :=
  db_calls w' = db_calls w
  /\ closes w' = closes w
  /\ errors_logged w' = errors_logged w
  /\ exists ms, sent w' = sent w ++ ms
                /\ Forall (fun m => during_generation m = true) ms.

Definition stays {A} (m : M A) : Prop := forall w, quiet w (snd (m w)).

(** One block is made per raw block, in order, each with the identifier
    drawn for it. *)
Definition made_from (raw : value) (cb : ContentBlock) : Prop :=
  make_contentBlock (cb_id cb) raw = Ok cb.

Definition persisted_from (cb : ContentBlock) (bc : BlockCreate) : Prop :=
  b_type bc = cb_type cb /\ b_text bc = cb_text cb /\ b_code bc = cb_code cb
  /\ b_math bc = cb_math cb /\ b_graph bc = cb_graph cb.

(** The persisted question, property by property. *)
Definition defaults_applied (q : value) (qc : QuestionCreate) : Prop :=
  q_number qc = field q "number"
  /\ q_question qc = field q "question"
  /\ q_type qc = field q "type"
  /\ q_marks qc = field q "marks"
  /\ q_options qc = nullish_or (field q "options") (VArr [])
  /\ q_correctAnswers qc = nullish_or (field q "correctAnswers") (VArr [])
  /\ q_explanation qc = nullish_or (field q "explanation") (VStr explanation_default)
  /\ q_rubric qc = nullish_or (field q "rubric") (VArr []).

(** The persisted quiz of a lesson record. *)
Definition quiz_of (R : Runtime) (l : LessonRecord) (quiz : QuizCreate) : Prop :=
  quiz_isCompleted quiz = false
  /\ quiz_gainedMarks quiz = 0%Z
  /\ quiz_timeTaken quiz = 0%Z
  /\ (exists contextTitle,
        get (context l) (lit "title") = Ok contextTitle
        /\ concat_literal (Number_toString R) contextTitle (lit " Quiz")
           = Ok (quiz_title quiz))
  /\ exists questions,
       get (quizJson l) (lit "questions") = Ok (VArr questions)
       /\ Forall2 defaults_applied questions (quiz_questions quiz).

(** The persisted lesson of a lesson record at a position. *)
Definition lesson_of (R : Runtime) (idx : nat) (l : LessonRecord) (lc : LessonCreate)
  : Prop :=
  l_order lc = idx
  /\ get (context l) (lit "title") = Ok (l_title lc)
  /\ get (context l) (lit "objective") = Ok (l_description lc)
  /\ l_duration lc = lessonDuration l
  /\ l_contentBlocks lc = mapi_from block_create 0 (allContentBlocks l)
  /\ quiz_of R l (l_quizz lc).

(** That a value is what the structured generator returned for a prompt,
    in some state of the run. *)
Definition generated_for (R : Runtime) (prompt : jsstring) (v : value) : Prop :=
  exists w1 w2, generateValidJsonWithRetries R prompt MAX_RETRIES w1 = (Ok v, w2).

(** How a lesson record comes out of the body of the loop. *)
Definition lesson_generated (R : Runtime) (p : Personalization) (lt qt : float)
    (lessonObj : value) (l : LessonRecord) : Prop :=
  get lessonObj (lit "title") = Ok (lessonTitle l)
  /\ get lessonObj (lit "duration") = Ok (lessonDuration l)
  /\ (exists prompt,
        getLessonContextPrompt R (lessonTitle l)
          (with_timeCommitment p (number_text R lt)) = Ok prompt
        /\ generated_for R prompt (context l))
  /\ (exists prompt sectionContent sections w1 w2,
        getAllSectionsContentPrompt R (context l)
          (with_timeCommitment p (number_text R lt)) = Ok prompt
        /\ generated_for R prompt sectionContent
        /\ obind (get sectionContent (lit "sections")) iterate = Ok sections
        /\ sections_loop R (lessonTitle l) sections [] w1 = (Ok (allContentBlocks l), w2))
  /\ (exists prompt,
        getQuizPrompt R (lessonTitle l) (allContentBlocks l)
          (with_timeCommitment p (number_text R qt)) = Ok prompt
        /\ generated_for R prompt (quizJson l)).

(** The context and the quiz of a record have the shape of their stage. *)
Definition valid_record (l : LessonRecord) : bool :=
  valid_context (context l) && valid_quiz (quizJson l).

(** The world the [catch] block leaves. *)
Definition failed (e : error) (w : World) : World :=
  count_close (log_sent ErrorMessage (log_error e w)).

(** The world a completed run leaves. *)
Definition completed (data : CourseCreate) (courseId : value) (w : World) : World :=
  count_close
    (log_sent (Notice GenerationComplete)
       (log_sent (Completed courseId)
          (log_db_call data (log_sent (Notice SavingToDatabase) w)))).

End Relations.
Import Relations.

(* ================================================================== *)
(** * Further vocabulary: texts, schedules, streams and more example runs *)

Module Texts.

(** A code unit other than the backtick. *)
Definition not_backtick (c : N) : bool := negb (c =? 96)%N.

(** The closing brace and bracket. *)
Definition is_closing (c : N) : bool := ((c =? 125) || (c =? 93))%N.

(** JSON text as the prompts ask for it: from an opening brace or bracket
    to a closing one, free of fence markers and of the characters the
    chain strips. *)
Definition bare (s : jsstring) : bool :=
  match s with
  | c :: _ => is_opening c
  | [] => false
  end
  && is_closing (last s 0%N) && forallb keeps s && negb (has_fence s).

(** Text around the payload: no opening brace or bracket, no backtick. *)
Definition prose (s : jsstring) : bool :=
  forallb (fun c => negb (is_opening c) && not_backtick c) s.

Definition blank (s : jsstring) : bool := forallb is_ws s.

(** What may stand where a fence opens: nothing, or either marker. *)
Definition opening_marker (f : jsstring) : bool :=
  JsString.eqb f [] || JsString.eqb f fence || JsString.eqb f fence_json.

(** What may stand where a fence closes: nothing, or the short marker. *)
Definition closing_marker (f : jsstring) : bool :=
  JsString.eqb f [] || JsString.eqb f fence.

End Texts.
Import Texts.

Module Schedule.

(** The waits after the failed attempts [from], [from + 1], ..., [n] of
    them: [1000 * attempt] milliseconds each. *)
Definition backoff (from n : nat) : list nat :=
  map (fun attempt => 1000 * attempt) (seq from n).

(** The logs the structured generator leaves alone. *)
Definition same_channel (w w' : World) : Prop :=
  sent w' = sent w /\ db_calls w' = db_calls w /\ closes w' = closes w
  /\ errors_logged w' = errors_logged w /\ uuids_drawn w' = uuids_drawn w.

(** The time a run has spent waiting between attempts, in milliseconds. *)
Definition waited (w : World) : nat := list_sum (timeouts w).

(** The calls of one stage: its prompt, once per attempt. *)
Definition stage_calls (stage : jsstring * nat) : list jsstring :=
  repeat (fst stage) (snd stage).

(** The name of the environment variable of a key index. *)
Definition key_name (keyIndex : nat) : jsstring :=
  lit "GEMINI_API_KEY_" ++ decimal keyIndex.

End Schedule.
Import Schedule.

Module Stream.

(** The event a content block is streamed as, given the title read from
    its section. *)
Definition block_event (lessonTitle : value) (entry : value * ContentBlock) : message :=
  ContentBlockProduced lessonTitle (fst entry) (snd entry).

(** The events of one lesson: its start, its blocks in order and its
    quiz. *)
Definition lesson_events (entry : LessonRecord * list value) : list message :=
  LessonStarted (lessonTitle (fst entry))
  :: map (block_event (lessonTitle (fst entry)))
       (combine (snd entry) (allContentBlocks (fst entry)))
  ++ [QuizCompleted (quizJson (fst entry))].

(** The events of the generation stages of a run. *)
Definition generation_events (g : Generated) (sectionTitles : list (list value))
  : list message :=
  [SyllabusStarted; Notice GeneratingSyllabus; SyllabusCompleted (g_syllabusJson g)]
  ++ concat (map lesson_events (combine (g_lessons g) sectionTitles))
  ++ [Notice GeneratingPostCourse].

(** The events of the persisting step that completes. *)
Definition closing_events (courseId : value) : list message :=
  [Notice SavingToDatabase; Completed courseId; Notice GenerationComplete].

End Stream.
Import Stream.

Module Server.

(** [const PORT = Number(process.env.PORT) || 3001]; a variable that is
    not set reads as [undefined], and [Number(undefined)] is [NaN]. *)
Definition PORT (env : jsstring -> option jsstring) : float :=
  let n :=
    match env (lit "PORT") with
    | Some s => StringToNumber s
    | None => nan
    end in
  if truthy (VNum n) then n else 3001%float.

(** An environment in which [PORT] has the given text. *)
Definition with_port (text : jsstring) (name : jsstring) : option jsstring :=
  if JsString.eqb name (lit "PORT") then Some text else None.

(** A number written in decimal. *)
Definition numeral (n : N) : jsstring :=
  lit (DecimalString.NilEmpty.string_of_uint (N.to_uint n)).

(** The numbers from [from] on, [count] of them. *)
Fixpoint count_up (from : N) (count : nat) : list N :=
  match count with
  | O => []
  | S c => from :: count_up (N.succ from) c
  end.

(** The port numbers a listener can be given. *)
Definition ports : list N := count_up 1 (N.to_nat 65535).

(** Whether the port read from the numeral of [n] is [n]. *)
Definition port_read (n : N) : bool :=
  PrimFloat.Leibniz.eqb (PORT (with_port (numeral n))) (float_of_Z (Z.of_N n)).

End Server.
Import Server.

Module Cases.

(** The backend answers every prompt with a refusal in prose. *)
Definition refusing : Runtime :=
  Demo.runtime (fun _ _ => Some (lit "I cannot help with that.")) Demo.accepting.

(** No key is configured. *)
Definition keyless : Runtime :=
  let R := Demo.steady Demo.lessons3 in
  {| generateContent := generateContent R;
     JSON_parse := JSON_parse R;
     randomUUID := randomUUID R;
     Number_toString := Number_toString R;
     random_below := random_below R;
     process_env := fun _ => None;
     db_course_create := db_course_create R;
     getSyllabusPrompt := getSyllabusPrompt R;
     getLessonContextPrompt := getLessonContextPrompt R;
     getAllSectionsContentPrompt := getAllSectionsContentPrompt R;
     getQuizPrompt := getQuizPrompt R;
     getPostCourseDataPrompt := getPostCourseDataPrompt R |}.

(** The backend answers the syllabus prompt with the empty object, the
    answer every prompt asks for when the model cannot comply. *)
Definition giving_up : Runtime := Demo.steady (lit "{}").

(** The backend answers every quiz prompt with the empty object. *)
Definition quizless : Runtime :=
  Demo.runtime
    (fun _ prompt =>
       if is_prefix (lit "quiz|") prompt then Some (lit "{}")
       else Demo.answer Demo.lessons3 prompt)
    Demo.accepting.

End Cases.

(* ================================================================== *)
(** * The prompt builders

    The five functions at the end of [src/index.ts], lines 282-621.  Each
    destructures its argument, a personalization field that is [undefined]
    taking the default [''], and returns one template literal.  The
    templates are copied line by line.  In the quoted text the character
    [^], which no template holds, stands for the double quote. *)

Module Prompts.

Section Templates.

(** [Number.prototype.toString] and [JSON.stringify] on the flattened
    blocks, the runtime's. *)
Variable Number_toString : float -> jsstring.
Variable JSON_stringify : list ContentBlock -> jsstring.

(** What a line of a template is made of: literal text, literal characters
    outside ASCII, a substituted value, and a substituted member read. *)
Inductive part : Type :=
| T (s : String.string)
| U (units : jsstring)
| V (v : value)
| E (o : outcome value).

Definition quoted (c : N) : N := if (c =? 94)%N then 34%N else c.

Definition text (s : String.string) : jsstring := map quoted (lit s).

(** A substitution evaluates its expression and converts the value to a
    string. *)
Definition piece (x : part) : outcome jsstring :=
  match x with
  | T s => Ok (text s)
  | U units => Ok units
  | V v => ToString Number_toString v
  | E o => obind o (ToString Number_toString)
  end.

(** The parts of a line, left to right. *)
Fixpoint line (l : list part) : outcome jsstring :=
  match l with
  | [] => Ok []
  | x :: r =>
      obind (piece x) (fun a =>
      obind (line r) (fun b => Ok (a ++ b)))
  end.

(** The lines of a template, a line feed between two of them. *)
Fixpoint render (lines : list (list part)) : outcome jsstring :=
  match lines with
  | [] => Ok []
  | l :: rest =>
      obind (line l) (fun a =>
      match rest with
      | [] => Ok a
      | _ => obind (render rest) (fun b => Ok (a ++ [10%N] ++ b))
      end)
  end.

(** [x || 'label'] *)
Definition or_label (v : value) (label : String.string) : value :=
  if truthy v then v else VStr (lit label).

(** The defaults of the destructuring pattern, [{ level = '', ... }]. *)
Definition with_defaults (p : Personalization) : Personalization :=
  {| level := default_to (level p) (VStr []);
     preferredTopics := default_to (preferredTopics p) (VStr []);
     dislikedTopics := default_to (dislikedTopics p) (VStr []);
     goal := default_to (goal p) (VStr []);
     timeCommitment := default_to (timeCommitment p) (VStr []);
     learningStyle := default_to (learningStyle p) (VStr []) |}.

(** The characters of the templates outside ASCII, as UTF-16 code units. *)
Definition lock : jsstring := [55357; 56592]%N.
Definition pushpin : jsstring := [55357; 56524]%N.
Definition warning_sign : jsstring := [9888; 65039]%N.
Definition em_dash : jsstring := [8212]%N.
Definition palette : jsstring := [55356; 57256]%N.
Definition en_dash : jsstring := [8211]%N.
Definition right_quote : jsstring := [8217]%N.
Definition check_mark : jsstring := [9989]%N.
Definition books : jsstring := [55357; 56538]%N.
Definition direct_hit : jsstring := [55356; 57263]%N.
Definition open_book : jsstring := [55357; 56534]%N.
Definition right_arrow : jsstring := [8594]%N.

(** [getSyllabusPrompt], lines 282-334. *)
Definition getSyllabusPrompt (topic : value) (p : Personalization)
  : outcome jsstring :=
  let p := with_defaults p in
  render
    [ [];
      [T "You are a highly specialized curriculum designer for personalized learning programs."];
      [];
      [U lock;
       T " Your task is to generate a **STRICTLY VALID JSON** syllabus for the course titled **^";
       V topic;
       T "^** tailored to the user's preferences."];
      [];
      [U pushpin; T " **Learner Profile**:"];
      [T "- Skill Level: "; V (or_label (level p) "General")];
      [T "- Topics to Emphasize: "; V (or_label (preferredTopics p) "None specified")];
      [T "- Topics to Avoid: "; V (or_label (dislikedTopics p) "None specified")];
      [T "- Learning Goal: "; V (or_label (goal p) "None specified")];
      [T "- Total Time Commitment: "; V (or_label (timeCommitment p) "Flexible")];
      [T "- Preferred Learning Style: "; V (or_label (learningStyle p) "None specified")];
      [];
      [U warning_sign; T " **ABSOLUTE RULES**:"];
      [T "- OUTPUT MUST BE **STRICT VALID JSON**"];
      [T "- DO NOT include any explanation, markdown, or extra characters outside of the JSON object."];
      [T "- JSON **MUST** start with '{' and end with '}'."];
      [T "- No null, undefined, or empty (^^) values "; U em_dash; T " omit unknowns."];
      [T "- All keys and string values **must** be enclosed in double quotes."];
      [T "- Escape internal double quotes properly: ^"];
      [];
      [U palette; T " **STRUCTURE**:"];
      [T "{"];
      [T "  ^title^: ^Concise, engaging course title (relevant to topic & user preferences)^,"];
      [T "  ^description^: ^1";
       U en_dash;
       T "2 sentence overview aligned to the learner";
       U right_quote;
       T "s goals.^,"];
      [T "  ^lessons^: ["];
      [T "    {"];
      [T "      ^title^: ^Lesson Title (engaging, specific, NOT 'Lesson 1')^,"];
      [T "      ^duration^: ^e.g., '10 minutes', '45 minutes', or '1 hour 30 minutes'^"];
      [T "    }"];
      [T "  ]"];
      [T "}"];
      [];
      [U check_mark; T " If JSON generation fails for any reason, respond ONLY with '{}'."];
      [] ].

(** [getLessonContextPrompt], lines 336-384. *)
Definition getLessonContextPrompt (lessonTitle : value) (p : Personalization)
  : outcome jsstring :=
  let p := with_defaults p in
  render
    [ [];
      [T "You are a curriculum architect creating **STRICTLY VALID JSON** for a lesson titled ^";
       V lessonTitle;
       T "^."];
      [];
      [U pushpin; T " **Learner Profile**:"];
      [T "- Skill Level: "; V (or_label (level p) "General")];
      [T "- Preferred Topics: "; V (or_label (preferredTopics p) "None specified")];
      [T "- Topics to Avoid: "; V (or_label (dislikedTopics p) "None specified")];
      [T "- Goal: "; V (or_label (goal p) "None specified")];
      [T "- Available Time: "; V (or_label (timeCommitment p) "Flexible")];
      [T "- Learning Style: "; V (or_label (learningStyle p) "General")];
      [];
      [U warning_sign; T " **STRICT JSON RULES**:"];
      [T "- Response MUST start with '{' and end with '}' "; U em_dash; T " NOTHING ELSE."];
      [T "- NO markdown, explanations, code fences, or comments."];
      [T "- OMIT empty or unknown values."];
      [T "- Strings MUST be double-quoted, and embedded quotes properly escaped."];
      [];
      [U books; T " **STRUCTURE**:"];
      [T "{"];
      [T "  ^title^: ^"; V lessonTitle; T "^,"];
      [T "  ^objective^: ^One clear, specific outcome describing what the learner will accomplish.^,"];
      [T "  ^sections^: ["];
      [T "    {"];
      [T "      ^title^: ^Engaging section title (clear, concise)^,"];
      [T "      ^description^: ^Brief explanation of what the section covers.^"];
      [T "    }"];
      [T "  ]"];
      [T "}"];
      [];
      [U check_mark; T " If JSON generation fails, respond ONLY with '{}'."];
      [] ].

(** [getAllSectionsContentPrompt], lines 386-453. *)
Definition getAllSectionsContentPrompt (context : value) (p : Personalization)
  : outcome jsstring :=
  let p := with_defaults p in
  render
    [ [];
      [T "You are a specialized educational content writer generating **STRICTLY VALID JSON** for the sections of the lesson ^";
       E (get context (lit "title"));
       T "^."];
      [];
      [U direct_hit; T " Lesson Objective: ^"; E (get context (lit "objective")); T "^"];
      [];
      [U pushpin; T " **Learner Profile**:"];
      [T "- Skill Level: "; V (or_label (level p) "General")];
      [T "- Emphasize Topics: "; V (or_label (preferredTopics p) "None")];
      [T "- Avoid Topics: "; V (or_label (dislikedTopics p) "None")];
      [T "- Goal: "; V (or_label (goal p) "None")];
      [T "- Time Commitment: "; V (or_label (timeCommitment p) "Flexible")];
      [T "- Learning Style: "; V (or_label (learningStyle p) "General")];
      [];
      [U warning_sign; T " **STRICT JSON RULES**:"];
      [T "- DO NOT include markdown, explanations, or code syntax."];
      [T "- Output MUST start with '{' and end with '}'."];
      [T "- OMIT empty or unknown values."];
      [T "- Strings MUST be double-quoted. Escape special characters correctly."];
      [T "- Proper JSON structure with NO extra whitespace."];
      [];
      [U books; T " **STRUCTURE**:"];
      [T "{"];
      [T "  ^sections^: ["];
      [T "    {"];
      [T "      ^title^: ^Section Title^,"];
      [T "      ^contentBlocks^: ["];
      [T "        {"];
      [T "          ^type^: ^TEXT^ | ^CODE^ | ^MATH^ | ^GRAPH^,"];
      [T "          ^content^: ^Detailed content or structured object for GRAPH type^"];
      [T "        }"];
      [T "      ]"];
      [T "    }"];
      [T "  ]"];
      [T "}"];
      [];
      [U check_mark; T " **GRAPH FORMAT Example (structure only)**:"];
      [T "{"];
      [T "  ^type^: ^GRAPH^,"];
      [T "  ^content^: {"];
      [T "    ^description^: ^Brief description of the graph.^,"];
      [T "    ^xKey^: ^X-axis label^,"];
      [T "    ^yKey^: ^Y-axis label^,"];
      [T "    ^data^: ["];
      [T "      { ^label^: ^Label^, ^value^: NumericValue }"];
      [T "    ]"];
      [T "  }"];
      [T "}"];
      [];
      [T "If JSON generation fails or you"; U right_quote; T "re unsure, return '{}' ONLY."];
      [] ].

(** [getQuizPrompt], lines 455-536. *)
Definition getQuizPrompt (lessonTitle : value) (contentBlocks : list ContentBlock)
    (p : Personalization)
  : outcome jsstring :=
  let p := with_defaults p in
  render
    [ [];
      [T "You are an expert educational assessment designer."];
      [];
      [U direct_hit;
       T " Your task is to generate a **STRICTLY VALID JSON** quiz for the lesson titled: ^";
       V lessonTitle;
       T "^."];
      [];
      [U pushpin; T " **Learner Profile (FOLLOW STRICTLY):**"];
      [T "- Skill Level: "; V (or_label (level p) "General")];
      [T "- Emphasize Topics: "; V (or_label (preferredTopics p) "None specified")];
      [T "- Avoid Topics: "; V (or_label (dislikedTopics p) "None specified")];
      [T "- Goal: "; V (or_label (goal p) "None specified")];
      [T "- Available Time: "; V (or_label (timeCommitment p) "Flexible")];
      [T "- Learning Style: "; V (or_label (learningStyle p) "None specified")];
      [];
      [U open_book; T " Lesson Content (REFERENCE ONLY, DO NOT INCLUDE IN RESPONSE):"];
      [U (JSON_stringify contentBlocks)];
      [];
      [U warning_sign; T " **ABSOLUTE JSON RULES**:"];
      [T "- OUTPUT MUST start directly with '{' and end with '}'."];
      [T "- OMIT markdown, explanations, introductory text, comments, or code fences."];
      [T "- OMIT empty or unknown values."];
      [T "- Strings MUST use double quotes. Escape embedded quotes properly: \^."];
      [T "- Trailing commas are NOT allowed."];
      [T "- If JSON generation fails, respond ONLY with '{}'."];
      [];
      [U books; T " **REQUIRED JSON FORMAT**:"];
      [T "{"];
      [T "  ^title^: ^Quiz for "; V lessonTitle; T "^,"];
      [T "  ^duration^: ^10 minutes^,"];
      [T "  ^totalMarks^: 50,"];
      [T "  ^passingMarks^: 30,"];
      [T "  ^status^: ^NOT_STARTED^,"];
      [T "  ^questions^: ["];
      [T "    {"];
      [T "      ^number^: 1,"];
      [T "      ^question^: ^Clear, concise question based on the lesson content.^,"];
      [T "      ^type^: ^MCQ^ | ^MULTIPLE_SELECT^ | ^DESCRIPTIVE^ | ^TRUE_FALSE^,"];
      [T "      ^options^: [^Option A^, ^Option B^, ^Option C^, ^Option D^],  // REQUIRED for MCQ & MULTIPLE_SELECT ONLY"];
      [T "      ^marks^: 10,"];
      [T "      ^correctAnswers^: [^A^],                                      // REQUIRED for ALL except DESCRIPTIVE"];
      [T "      ^explanation^: ^Short explanation of the correct answer.^,    // REQUIRED for ALL except DESCRIPTIVE"];
      [T "      ^rubric^: [^Point 1^, ^Point 2^]                              // REQUIRED for DESCRIPTIVE ONLY"];
      [T "    }"];
      [T "  ]"];
      [T "}"];
      [];
      [U check_mark; T " **Quiz Requirements**:"];
      [T "- **5 to 8 questions** covering a mix of concepts, difficulty levels, and question types."];
      [T "- **Types:**"];
      [T "  - MCQ "; U right_arrow; T " 4 plausible, distinct options."];
      [T "  - MULTIPLE_SELECT "; U right_arrow; T " 4 plausible options, multiple correct."];
      [T "  - TRUE_FALSE "; U right_arrow; T " Must be clearly True or False."];
      [T "  - DESCRIPTIVE "; U right_arrow; T " Include rubric (minimum 2 points) for grading."];
      [T "- Total Marks MUST equal 50."];
      [T "- Number questions sequentially starting at 1."];
      [T "- Adjust difficulty based on learner"; U right_quote; T "s **skill level**."];
      [T "- Avoid questions related to: "; V (or_label (dislikedTopics p) "None specified"); T "."];
      [T "- Explanations REQUIRED for all except DESCRIPTIVE."];
      [T "- Provide **practical application-based** questions if the learning style is ^Project-focused^."];
      [T "- Questions MUST vary in complexity (easy ";
       U right_arrow;
       T " medium ";
       U right_arrow;
       T " hard)."];
      [];
      [U lock; T " **STRICT VALID JSON ONLY.** Respond with '{}' if unsure."];
      [] ].

(** [getPostCourseDataPrompt], lines 539-621. *)
Definition getPostCourseDataPrompt (topic : value) (p : Personalization)
  : outcome jsstring :=
  let p := with_defaults p in
  render
    [ [];
      [T "You are an expert educational analyst and instructional designer."];
      [];
      [U direct_hit;
       T " Your task is to generate a **STRICTLY VALID JSON** object for the **summary**, **key points**, and **analytics** of the personalized course titled: ^";
       V topic;
       T "^."];
      [];
      [U pushpin; T " **Learner Profile:**"];
      [T "- Skill Level: "; V (or_label (level p) "General")];
      [T "- Emphasize Topics: "; V (or_label (preferredTopics p) "None specified")];
      [T "- Avoid Topics: "; V (or_label (dislikedTopics p) "None specified")];
      [T "- Goal: "; V (or_label (goal p) "None specified")];
      [T "- Available Time: "; V (or_label (timeCommitment p) "Flexible")];
      [T "- Learning Style: "; V (or_label (learningStyle p) "None specified")];
      [];
      [U warning_sign; T " **STRICT JSON FORMAT RULES**:"];
      [T "- MUST start with '{' and end with '}' "; U em_dash; T " NO other output allowed."];
      [T "- NO markdown, explanations, or introductory text."];
      [T "- OMIT empty or unknown values."];
      [T "- All property names and string values must be double-quoted."];
      [T "- Escape embedded quotes properly using \^."];
      [T "- NO trailing commas."];
      [T "- If JSON generation fails or is uncertain, respond ONLY with '{}'."];
      [];
      [U books; T " **REQUIRED JSON STRUCTURE**:"];
      [T "{"];
      [T "  ^summary^: {"];
      [T "    ^overview^: ^2";
       U en_dash;
       T "3 sentences summarizing the course tailored to the learner";
       U right_quote;
       T "s ";
       V (or_label (goal p) "learning objective");
       T ".^,"];
      [T "    ^whatYouLearned^: [^Concept 1^, ^Concept 2^, ^Concept 3^],"];
      [T "    ^skillsGained^: [^Skill 1^, ^Skill 2^, ^Skill 3^],"];
      [T "    ^nextSteps^: [^Recommended topic 1^, ^Recommended topic 2^]"];
      [T "  },"];
      [T "  ^keyPoints^: ["];
      [T "    {"];
      [T "      ^category^: ^e.g., Core Concepts, Best Practices, Tools Used^,"];
      [T "      ^points^: [^Key point 1^, ^Key point 2^, ^Key point 3^]"];
      [T "    }"];
      [T "  ],"];
      [T "  ^analytics^: {"];
      [T "    ^timeSpentTotal^: float,            // = timeSpentLessons + timeSpentQuizzes (e.g., 120.5)"];
      [T "    ^timeSpentLessons^: float,          // (e.g., 90.0)"];
      [T "    ^timeSpentQuizzes^: float,          // (e.g., 30.5)"];
      [T "    ^averageScore^: float,              // (e.g., 85.0)"];
      [T "    ^totalQuizzes^: integer,            // (e.g., 5)"];
      [T "    ^passedQuizzes^: integer,           // (e.g., 4)"];
      [T "    ^grade^: ^EXCELLENT^ | ^GOOD^ | ^AVERAGE^ | ^NEEDS_IMPROVEMENT^,"];
      [T "    ^lessonsCompleted^: integer,        // (e.g., 10)"];
      [T "    ^quizzesCompleted^: integer,        // (e.g., 5)"];
      [T "    ^totalLessons^: integer             // (e.g., 10)"];
      [T "  }"];
      [T "}"];
      [];
      [U check_mark; T " **Generation Guidelines**:"];
      [T "- Overview must reflect **goal** or general learning purpose."];
      [T "- Avoid mentioning: "; V (or_label (dislikedTopics p) "None"); T "."];
      [T "- nextSteps "; U right_arrow; T " Recommend relevant follow-up learning paths."];
      [T "- **Grade/averageScore correlation:**"];
      [T "  - EXCELLENT "; U right_arrow; T " 85"; U en_dash; T "100"];
      [T "  - GOOD "; U right_arrow; T " 70"; U en_dash; T "85"];
      [T "  - AVERAGE "; U right_arrow; T " 50"; U en_dash; T "70"];
      [T "  - NEEDS_IMPROVEMENT "; U right_arrow; T " Below 50"];
      [T "- Use **float** numbers for time metrics; **integers** for counts."];
      [T "- Arrays for **whatYouLearned**, **skillsGained**, and **nextSteps** should each have **at least 2";
       U en_dash;
       T "3** items."];
      [T "- Ensure that **timeSpentTotal = timeSpentLessons + timeSpentQuizzes**."];
      [];
      [U lock; T " **STRICT VALID JSON ONLY.** Respond with '{}' if unsure."];
      [] ].

End Templates.

(** The collaborators of a runtime with the five builders above for
    prompt templates. *)
Definition installed (JSON_stringify : list ContentBlock -> jsstring) (R : Runtime)
  : Runtime :=
  {| generateContent := generateContent R;
     JSON_parse := JSON_parse R;
     randomUUID := randomUUID R;
     Number_toString := Number_toString R;
     random_below := random_below R;
     process_env := process_env R;
     db_course_create := db_course_create R;
     Effects.getSyllabusPrompt := getSyllabusPrompt (Number_toString R);
     Effects.getLessonContextPrompt := getLessonContextPrompt (Number_toString R);
     Effects.getAllSectionsContentPrompt :=
       getAllSectionsContentPrompt (Number_toString R);
     Effects.getQuizPrompt := getQuizPrompt (Number_toString R) JSON_stringify;
     Effects.getPostCourseDataPrompt :=
       getPostCourseDataPrompt (Number_toString R) |}.

End Prompts.

(** What the properties of the prompt builders and of the errors of a run
    are stated with. *)
Module Failures.

(** The values a template can print: all but an object with an own
    [toString] property, and an array that holds one at any depth. *)
Fixpoint convertible (v : value) : bool :=
  match v with
  | VArr elems => forallb convertible elems
  | VObj props => negb (has_key props (lit "toString"))
  | _ => true
  end.

Definition convertible_profile (p : Personalization) : bool :=
  convertible (level p) && convertible (preferredTopics p)
  && convertible (dislikedTopics p) && convertible (goal p)
  && convertible (timeCommitment p) && convertible (learningStyle p).

(** A substitution that prints. *)
Definition prints (x : Prompts.part) : bool :=
  match x with
  | Prompts.T _ | Prompts.U _ => true
  | Prompts.V v => convertible v
  | Prompts.E (Ok v) => convertible v
  | Prompts.E (Throw _) => false
  end.

(** A conversion that returns for a printable operand and throws a
    TypeError for any other. *)
Definition settles {A} (o : outcome A) (printable : bool) : Prop :=
  match o with
  | Ok _ => printable = true
  | Throw e => e = TypeError /\ printable = false
  end.

(** A member read of a template throws a TypeError or nothing. *)
Definition reads_typed (x : Prompts.part) : Prop :=
  forall e, x = Prompts.E (Throw e) -> e = TypeError.

(** Two values of a personalization field that are the same or both
    falsy. *)
Definition alike (v v' : value) : Prop :=
  v = v' \/ (truthy v = false /\ truthy v' = false).

Definition same_profile (p p' : Personalization) : Prop :=
  alike (level p) (level p') /\ alike (preferredTopics p) (preferredTopics p')
  /\ alike (dislikedTopics p) (dislikedTopics p') /\ alike (goal p) (goal p')
  /\ alike (timeCommitment p) (timeCommitment p')
  /\ alike (learningStyle p) (learningStyle p').

(** A conversion or a read that throws a TypeError or nothing. *)
Definition typed {A} (o : outcome A) : Prop :=
  forall e, o = Throw e -> e = TypeError.

(** A computation whose errors all satisfy [P]. *)
Definition raises {A} (P : error -> Prop) (m : M A) : Prop :=
  forall w e w', m w = (Throw e, w') -> P e.

(** Prompt builders that throw TypeErrors only. *)
Definition typed_prompts (R : Runtime) : Prop :=
  (forall topic p, typed (Effects.getSyllabusPrompt R topic p))
  /\ (forall lessonTitle p, typed (Effects.getLessonContextPrompt R lessonTitle p))
  /\ (forall context p, typed (Effects.getAllSectionsContentPrompt R context p))
  /\ (forall lessonTitle contentBlocks p,
        typed (Effects.getQuizPrompt R lessonTitle contentBlocks p))
  /\ (forall topic p, typed (Effects.getPostCourseDataPrompt R topic p)).

(** The errors the code of the handler raises itself, the error of the
    store apart. *)
Definition raised_by_handler (e : error) : Prop :=
  e = SyntaxError \/ e = TypeError \/ e = MissingTopicOrUserId
  \/ (exists keyIndex, e = MissingApiKey (key_name keyIndex))
  \/ e = FailedAfterAttempts MAX_RETRIES.

End Failures.

Import Failures.

(** Inputs the properties of the prompt builders are tried on. *)
Module Samples.

(** No personalization field sent. *)
Definition absent : Personalization :=
  {| level := VUndefined; preferredTopics := VUndefined;
     dislikedTopics := VUndefined; goal := VUndefined;
     timeCommitment := VUndefined; learningStyle := VUndefined |}.

(** Every field falsy in a way of its own. *)
Definition falsy : Personalization :=
  {| level := VNull; preferredTopics := VBool false;
     dislikedTopics := VNum zero; goal := VNum nan;
     timeCommitment := VStr []; learningStyle := VUndefined |}.

Definition profile : Personalization :=
  {| level := VStr (lit "Beginner"); preferredTopics := VStr (lit "Fractions");
     dislikedTopics := VStr []; goal := VStr (lit "Pass the exam");
     timeCommitment := VNum 2%float; learningStyle := VUndefined |}.

(** [JSON.stringify] of the empty list of blocks. *)
Definition stringify (contentBlocks : list ContentBlock) : jsstring := lit "[]".

Definition lesson_context : value :=
  VObj [(lit "title", VStr (lit "Numbers")); (lit "objective", VStr (lit "Count"))].

(** The prompt a builder returned. *)
Definition returned (o : outcome jsstring) : jsstring :=
  match o with
  | Ok s => s
  | Throw _ => []
  end.

End Samples.

(** What the claims about an exhausted stage and about the course handed
    to the store are stated with. *)
Module Runs.

(** The warnings and the backend calls a computation adds, and what the
    warning of the last attempt means: the computation threw the error of
    the structured generator, and its last [MAX_RETRIES] calls carry one
    prompt and none of them parses. *)
Definition exhausts_only {A} (R : Runtime) (m : M A) : Prop :=
  forall w,
    exists ws calls,
      warnings (snd (m w)) = warnings w ++ ws
      /\ backend_calls (snd (m w)) = backend_calls w ++ calls
      /\ (In MAX_RETRIES ws ->
          fst (m w) = Throw (FailedAfterAttempts MAX_RETRIES)
          /\ exists earlier prompt,
               calls = earlier ++ repeat prompt MAX_RETRIES
               /\ forall i, i < MAX_RETRIES ->
                    try_parse R (length (backend_calls w) + length earlier + i) prompt
                    = None).

(** The number [n] as the code writes it in an [order] field. *)
Definition order_value (n : nat) : value := VNum (float_of_Z (Z.of_nat n)).

(** The first block the example run streams for its first lesson. *)
Definition first_block : ContentBlock :=
  {| cb_id := Demo.uuid 0;
     cb_order := VNum 7%float;
     cb_type := VStr (lit "TEXT");
     cb_text := VStr (lit "a");
     cb_code := VUndefined;
     cb_math := VUndefined;
     cb_graph := VUndefined |}.

End Runs.
Import Runs.
(* ================================================================== *)
(** * Normalisation: when a second pass changes nothing *)

Section NormalizeFacts.

Lemma trimStart_length (s : jsstring) : length (trimStart s) <= length s.
Proof.
  induction s as [|c r IH]; simpl; [lia|].
  destruct (is_ws c); simpl; lia.
Qed.

Lemma trimEnd_length (s : jsstring) : length (trimEnd s) <= length s.
Proof.
  induction s as [|c r IH]; simpl; [lia|].
  destruct (trimEnd r) as [|d r'].
  - destruct (is_ws c); simpl; lia.
  - simpl in *. lia.
Qed.

Lemma trim_length (s : jsstring) : length (trim s) <= length s.
Proof.
  unfold trim. pose proof (trimEnd_length (trimStart s)).
  pose proof (trimStart_length s). lia.
Qed.

Lemma trimEnd_cons (c : N) (r : jsstring) :
  is_ws c = false -> trimEnd (c :: r) = c :: trimEnd r.
Proof.
  intros Hc. simpl. rewrite Hc. destruct (trimEnd r); reflexivity.
Qed.

Lemma trimEnd_idempotent (s : jsstring) : trimEnd (trimEnd s) = trimEnd s.
Proof.
  induction s as [|c r IH]; [reflexivity|].
  simpl. destruct (trimEnd r) as [|d r'] eqn:E.
  - destruct (is_ws c) eqn:Hc; [reflexivity|].
    simpl. rewrite Hc. reflexivity.
  - change (trimEnd (c :: d :: r')) with
      (match trimEnd (d :: r') with
       | [] => if is_ws c then [] else [c]
       | x :: l => c :: x :: l
       end).
    rewrite IH. reflexivity.
Qed.

Lemma trimStart_Forall (P : N -> Prop) (s : jsstring) :
  Forall P s -> Forall P (trimStart s).
Proof.
  induction 1 as [|c r Hc Hr IH]; simpl; [constructor|].
  destruct (is_ws c); [assumption | constructor; assumption].
Qed.

Lemma trimEnd_Forall (P : N -> Prop) (s : jsstring) :
  Forall P s -> Forall P (trimEnd s).
Proof.
  induction 1 as [|c r Hc Hr IH]; simpl; [constructor|].
  destruct (trimEnd r) as [|d r'].
  - destruct (is_ws c); repeat constructor; assumption.
  - constructor; assumption.
Qed.

Lemma filter_length_le {A} (f : A -> bool) (l : list A) :
  length (filter f l) <= length l.
Proof.
  induction l as [|x r IH]; simpl; [lia|].
  destruct (f x); simpl; lia.
Qed.

Lemma filter_all {A} (f : A -> bool) (l : list A) :
  Forall (fun x => f x = true) l -> filter f l = l.
Proof.
  induction 1 as [|x r Hx Hr IH]; simpl; [reflexivity|].
  rewrite Hx, IH. reflexivity.
Qed.

Lemma filter_kept {A} (f : A -> bool) (l : list A) :
  Forall (fun x => f x = true) (filter f l).
Proof.
  induction l as [|x r IH]; simpl; [constructor|].
  destruct (f x) eqn:E; [constructor; assumption | assumption].
Qed.

Lemma strip_preamble_length (s : jsstring) : length (strip_preamble s) <= length s.
Proof.
  induction s as [|c r IH]; simpl; [lia|].
  destruct (is_opening c); simpl; lia.
Qed.

Lemma strip_preamble_opens (s : jsstring) : opens (strip_preamble s).
Proof.
  induction s as [|c r IH]; simpl; [exact I|].
  destruct (is_opening c) eqn:E; [exact E | exact IH].
Qed.

Lemma strip_preamble_fixed (s : jsstring) : opens s -> strip_preamble s = s.
Proof.
  destruct s as [|c r]; simpl; [reflexivity|].
  intros ->. reflexivity.
Qed.

Lemma opening_kept (c : N) : is_opening c = true -> keeps c = true.
Proof.
  unfold is_opening, keeps, is_control. intros H.
  apply orb_true_iff in H. destruct H as [H|H]; apply N.eqb_eq in H; subst; reflexivity.
Qed.

Lemma opening_not_ws (c : N) : is_opening c = true -> is_ws c = false.
Proof.
  unfold is_opening. intros H.
  apply orb_true_iff in H. destruct H as [H|H]; apply N.eqb_eq in H; subst; reflexivity.
Qed.

Lemma kept_not_cr (c : N) : keeps c = true -> negb (c =? 13)%N = true.
Proof.
  intros H. destruct (N.eqb_spec c 13) as [->|]; [discriminate H | reflexivity].
Qed.

Lemma kept_not_nul (c : N) : keeps c = true -> negb (c =? 0)%N = true.
Proof.
  intros H. destruct (N.eqb_spec c 0) as [->|]; [discriminate H | reflexivity].
Qed.

Lemma strip_control_opens (s : jsstring) : opens s -> opens (strip_control s).
Proof.
  destruct s as [|c r]; simpl; [trivial|].
  intros H. rewrite (opening_kept _ H). exact H.
Qed.

Lemma trim_opens (s : jsstring) :
  opens s -> trim s = trimEnd s /\ opens (trim s).
Proof.
  destruct s as [|c r]; [split; [reflexivity | exact I]|].
  intros H. pose proof (opening_not_ws _ H) as Hw.
  unfold trim. cbn [trimStart]. rewrite Hw.
  split; [reflexivity|]. rewrite (trimEnd_cons _ _ Hw). exact H.
Qed.

(** The shape of every normalised text. *)
Lemma normalize_shape (s : jsstring) :
  opens (normalize s)
  /\ Forall (fun c => keeps c = true) (normalize s)
  /\ trimEnd (normalize s) = normalize s.
Proof.
  unfold normalize.
  set (t := strip_control (strip_preamble (strip_nul (strip_cr (strip_fences s))))).
  assert (Ho : opens t) by (apply strip_control_opens, strip_preamble_opens).
  destruct (trim_opens _ Ho) as [Ht Ho'].
  split; [exact Ho'|]. split.
  - unfold trim. apply trimEnd_Forall, trimStart_Forall. apply filter_kept.
  - rewrite Ht. apply trimEnd_idempotent.
Qed.

Lemma is_prefix_fence_json (s : jsstring) :
  is_prefix fence_json s = true -> is_prefix fence s = true.
Proof.
  assert (Hj : fence_json = fence ++ lit "json") by reflexivity.
  rewrite Hj. generalize (lit "json"). generalize fence.
  intros p; revert s. induction p as [|x p IH]; intros s q; [reflexivity|].
  destruct s as [|y s]; simpl; [discriminate|].
  intros H. apply andb_true_iff in H. destruct H as [Hxy H].
  rewrite Hxy. simpl. exact (IH s q H).
Qed.

Lemma strip_fences_fixed (s : jsstring) :
  has_fence s = false -> strip_fences s = s.
Proof.
  unfold strip_fences. induction s as [|c r IH]; [reflexivity|].
  intros H. cbn [has_fence] in H. apply orb_false_iff in H. destruct H as [Hp Hr].
  cbn [strip_fences_from].
  destruct (is_prefix fence_json (c :: r)) eqn:Ej.
  - apply is_prefix_fence_json in Ej. congruence.
  - rewrite Hp, (IH Hr). reflexivity.
Qed.

Lemma strip_fences_from_length (s : jsstring) :
  forall skip, length (strip_fences_from skip s) <= length s.
Proof.
  induction s as [|c r IH]; intros skip; [simpl; lia|].
  cbn [strip_fences_from]. destruct skip as [|k].
  - destruct (is_prefix fence_json (c :: r)).
    + specialize (IH 6). simpl. lia.
    + destruct (is_prefix fence (c :: r)).
      * specialize (IH 2). simpl. lia.
      * specialize (IH 0). simpl. lia.
  - specialize (IH k). simpl. lia.
Qed.

Lemma strip_fences_shrinks (s : jsstring) :
  has_fence s = true -> length (strip_fences s) < length s.
Proof.
  unfold strip_fences. induction s as [|c r IH]; [discriminate|].
  intros H. cbn [has_fence] in H. cbn [strip_fences_from].
  destruct (is_prefix fence_json (c :: r)) eqn:Ej.
  - pose proof (strip_fences_from_length r 6). simpl. lia.
  - destruct (is_prefix fence (c :: r)) eqn:Ef.
    + pose proof (strip_fences_from_length r 2). simpl. lia.
    + simpl in H. specialize (IH H). simpl. lia.
Qed.

Lemma normalize_length (s : jsstring) :
  length (normalize s) <= length (strip_fences s).
Proof.
  unfold normalize.
  etransitivity; [apply trim_length|].
  etransitivity; [apply filter_length_le|].
  etransitivity; [apply strip_preamble_length|].
  etransitivity; [apply filter_length_le|].
  apply filter_length_le.
Qed.

(** A normalised text without a fence is left alone by a second pass. *)
Lemma normalize_fixed (y : jsstring) :
  opens y -> Forall (fun c => keeps c = true) y -> trimEnd y = y ->
  has_fence y = false -> normalize y = y.
Proof.
  intros Ho Hk Ht Hf. unfold normalize.
  rewrite (strip_fences_fixed _ Hf).
  assert (Hcr : strip_cr y = y).
  { apply filter_all. eapply Forall_impl; [|exact Hk]. apply kept_not_cr. }
  rewrite Hcr.
  assert (Hnul : strip_nul y = y).
  { apply filter_all. eapply Forall_impl; [|exact Hk]. apply kept_not_nul. }
  rewrite Hnul.
  rewrite (strip_preamble_fixed _ Ho).
  assert (Hc : strip_control y = y) by (apply filter_all; exact Hk).
  rewrite Hc.
  destruct (trim_opens _ Ho) as [-> _]. exact Ht.
Qed.

End NormalizeFacts.

(** ** C8, as the code has it *)

(** C8, counterexample: normalisation is not idempotent.  Dropping the
    carriage return of [Demo.split_fence] joins three backticks, which the first
    pass has already scanned past and the second pass removes. *)
Lemma C8_normalize_not_idempotent :
  ~ (forall s : jsstring, normalize (normalize s) = normalize s).
Proof.
  intros H. specialize (H Demo.split_fence). vm_compute in H. discriminate H.
Qed.

(** C8, amended: re-normalising a normalised text yields the same text
    exactly when the normalised text contains no run of three backticks;
    otherwise the second pass strips the re-formed fence marker. *)
Theorem C8_normalize_idempotent_iff (s : jsstring) :
  normalize (normalize s) = normalize s <-> has_fence (normalize s) = false.
Proof.
  split.
  - intros Heq. destruct (has_fence (normalize s)) eqn:Hf; [|reflexivity].
    exfalso.
    pose proof (strip_fences_shrinks _ Hf) as Hlt.
    pose proof (normalize_length (normalize s)) as Hle.
    rewrite Heq in Hle. lia.
  - intros Hf. destruct (normalize_shape s) as (Ho & Hk & Ht).
    apply normalize_fixed; assumption.
Qed.

(* ================================================================== *)
(** * Running a computation step by step *)

Section Steps.

Context {A B : Type}.

Lemma bind_ok (m : M A) (k : A -> M B) (w w' : World) (a : A) :
  m w = (Ok a, w') -> bind m k w = k a w'.
Proof. intros H. unfold bind. rewrite H. reflexivity. Qed.

Lemma bind_throw (m : M A) (k : A -> M B) (w w' : World) (e : error) :
  m w = (Throw e, w') -> bind m k w = (Throw e, w').
Proof. intros H. unfold bind. rewrite H. reflexivity. Qed.

Lemma bind_inv_ok (m : M A) (k : A -> M B) (w w'' : World) (b : B) :
  bind m k w = (Ok b, w'') ->
  exists a w', m w = (Ok a, w') /\ k a w' = (Ok b, w'').
Proof.
  unfold bind. destruct (m w) as [[a|e] w'].
  - intros H. exists a, w'. split; [reflexivity | exact H].
  - discriminate.
Qed.

Lemma lift_inv_ok (o : outcome A) (k : A -> M B) (w w' : World) (b : B) :
  bind (lift o) k w = (Ok b, w') -> exists a, o = Ok a /\ k a w = (Ok b, w').
Proof.
  intros H. apply bind_inv_ok in H. destruct H as (a & w1 & H1 & H2).
  unfold lift in H1. inversion H1; subst. exists a. split; [reflexivity | exact H2].
Qed.

End Steps.

(* ================================================================== *)
(** * The retry loop *)

Section Retries.

Variable chain : jsstring -> jsstring.
Variable R : Runtime.
Variable prompt : jsstring.

Lemma attempt_once_ok (w : World) (v : value) :
  try_parse_with chain R (length (backend_calls w)) prompt = Some v ->
  attempt_once_with chain R prompt w = (Ok v, log_backend_call prompt w).
Proof.
  unfold try_parse_with, attempt_once_with, bind, call_backend. intros H.
  destruct (generateContent R (length (backend_calls w)) prompt) as [text|];
    [|discriminate].
  rewrite H. reflexivity.
Qed.

Lemma attempt_once_fail (w : World) :
  try_parse_with chain R (length (backend_calls w)) prompt = None ->
  exists e, attempt_once_with chain R prompt w = (Throw e, log_backend_call prompt w).
Proof.
  unfold try_parse_with, attempt_once_with, bind, call_backend. intros H.
  destruct (generateContent R (length (backend_calls w)) prompt) as [text|].
  - rewrite H. exists SyntaxError. reflexivity.
  - exists BackendError. reflexivity.
Qed.

Variable maxRetries : nat.

Lemma attempts_step_fail (fuel attempt : nat) (w : World) :
  attempt <= maxRetries ->
  try_parse_with chain R (length (backend_calls w)) prompt = None ->
  attempts_from_with chain R prompt maxRetries (S fuel) attempt w =
    if attempt =? maxRetries
    then (Throw (FailedAfterAttempts maxRetries),
          log_warning attempt (log_backend_call prompt w))
    else attempts_from_with chain R prompt maxRetries fuel (S attempt) (after_failure prompt attempt w).
Proof.
  intros Hle Hfail. cbn [attempts_from_with].
  apply Nat.leb_le in Hle. rewrite Hle.
  destruct (attempt_once_fail w Hfail) as [e He].
  unfold try_catch. rewrite He.
  unfold bind, console_warn, update.
  destruct (attempt =? maxRetries); reflexivity.
Qed.

Lemma attempts_step_ok (fuel attempt : nat) (w : World) (v : value) :
  attempt <= maxRetries ->
  try_parse_with chain R (length (backend_calls w)) prompt = Some v ->
  attempts_from_with chain R prompt maxRetries (S fuel) attempt w =
    (Ok v, log_backend_call prompt w).
Proof.
  intros Hle Hok. cbn [attempts_from_with].
  apply Nat.leb_le in Hle. rewrite Hle.
  unfold try_catch. rewrite (attempt_once_ok w v Hok). reflexivity.
Qed.

Lemma after_failure_calls (attempt : nat) (w : World) :
  backend_calls (after_failure prompt attempt w) = backend_calls w ++ [prompt].
Proof. reflexivity. Qed.

Lemma repeat_snoc (n : nat) : [prompt] ++ repeat prompt n = repeat prompt (S n).
Proof. reflexivity. Qed.

(** Every remaining attempt fails: the loop makes them all and throws. *)
Lemma attempts_exhaust (fuel : nat) :
  forall (attempt : nat) (w : World),
    attempt + fuel = maxRetries ->
    (forall i, i <= fuel ->
               try_parse_with chain R (length (backend_calls w) + i) prompt = None) ->
    exists w',
      attempts_from_with chain R prompt maxRetries (S fuel) attempt w =
        (Throw (FailedAfterAttempts maxRetries), w')
      /\ backend_calls w' = backend_calls w ++ repeat prompt (S fuel).
Proof.
  induction fuel as [|fuel IH]; intros attempt w Hsum Hfail.
  - rewrite attempts_step_fail;
      [| lia | specialize (Hfail 0 (le_n 0)); rewrite Nat.add_0_r in Hfail; exact Hfail].
    replace (attempt =? maxRetries) with true by (symmetry; apply Nat.eqb_eq; lia).
    eexists. split; reflexivity.
  - rewrite attempts_step_fail;
      [| lia | specialize (Hfail 0 (Nat.le_0_l _)); rewrite Nat.add_0_r in Hfail; exact Hfail].
    replace (attempt =? maxRetries) with false by (symmetry; apply Nat.eqb_neq; lia).
    destruct (IH (S attempt) (after_failure prompt attempt w)) as (w' & Hrun & Hcalls).
    + lia.
    + intros i Hi. rewrite after_failure_calls, length_app. simpl.
      replace (length (backend_calls w) + 1 + i)
        with (length (backend_calls w) + S i) by lia.
      apply Hfail. lia.
    + exists w'. split; [exact Hrun|].
      rewrite Hcalls, after_failure_calls, <- app_assoc. reflexivity.
Qed.

(** The first [k] remaining attempts fail and the next one parses: the
    loop makes [k + 1] calls and returns the parsed value. *)
Lemma attempts_succeed (k : nat) :
  forall (fuel attempt : nat) (w : World) (v : value),
    attempt + k <= maxRetries -> k <= fuel ->
    (forall i, i < k ->
               try_parse_with chain R (length (backend_calls w) + i) prompt = None) ->
    try_parse_with chain R (length (backend_calls w) + k) prompt = Some v ->
    exists w',
      attempts_from_with chain R prompt maxRetries (S fuel) attempt w = (Ok v, w')
      /\ backend_calls w' = backend_calls w ++ repeat prompt (S k).
Proof.
  induction k as [|k IH]; intros fuel attempt w v Hsum Hfuel Hfail Hok.
  - rewrite Nat.add_0_r in Hok.
    rewrite (attempts_step_ok fuel attempt w v); [| lia | exact Hok].
    eexists. split; reflexivity.
  - destruct fuel as [|fuel]; [lia|].
    rewrite attempts_step_fail;
      [| lia | specialize (Hfail 0 (Nat.lt_0_succ _)); rewrite Nat.add_0_r in Hfail; exact Hfail].
    replace (attempt =? maxRetries) with false by (symmetry; apply Nat.eqb_neq; lia).
    destruct (IH fuel (S attempt) (after_failure prompt attempt w) v) as (w' & Hrun & Hcalls).
    + lia.
    + lia.
    + intros i Hi. rewrite after_failure_calls, length_app. simpl.
      replace (length (backend_calls w) + 1 + i)
        with (length (backend_calls w) + S i) by lia.
      apply Hfail. lia.
    + rewrite after_failure_calls, length_app. simpl.
      replace (length (backend_calls w) + 1 + k)
        with (length (backend_calls w) + S k) by lia.
      exact Hok.
    + exists w'. split; [exact Hrun|].
      rewrite Hcalls, after_failure_calls, <- app_assoc. reflexivity.
Qed.

(** A call that parses at once: one backend call, nothing else. *)
Lemma generate_first_try (w : World) (v : value) :
  1 <= maxRetries ->
  try_parse_with chain R (length (backend_calls w)) prompt = Some v ->
  generate_with chain R prompt maxRetries w =
    (Ok v, log_backend_call prompt w).
Proof.
  intros Hmax Hok. unfold generate_with.
  assert (H : forall fuel, 1 <= fuel ->
              attempts_from_with chain R prompt maxRetries fuel 1 w =
                (Ok v, log_backend_call prompt w)).
  { intros [|fuel] Hfuel; [lia|]. apply attempts_step_ok; [lia | exact Hok]. }
  apply H. exact Hmax.
Qed.

End Retries.

(** The bound, for any normalisation chain. *)
Lemma retry_bound (chain : jsstring -> jsstring) (R : Runtime) (prompt : jsstring)
    (maxRetries : nat) (w : World) (Hmax : 1 <= maxRetries) :
  ((forall i, i < maxRetries ->
              try_parse_with chain R (length (backend_calls w) + i) prompt = None) ->
   exists w',
     generate_with chain R prompt maxRetries w =
       (Throw (FailedAfterAttempts maxRetries), w')
     /\ backend_calls w' = backend_calls w ++ repeat prompt maxRetries)
  /\
  (forall (k : nat) (v : value),
     1 <= k <= maxRetries ->
     (forall i, i < k - 1 ->
                try_parse_with chain R (length (backend_calls w) + i) prompt = None) ->
     try_parse_with chain R (length (backend_calls w) + (k - 1)) prompt = Some v ->
     exists w',
       generate_with chain R prompt maxRetries w = (Ok v, w')
       /\ backend_calls w' = backend_calls w ++ repeat prompt k).
Proof.
  unfold generate_with.
  assert (Hfuel : exists m, maxRetries = S m /\ 1 + m = maxRetries)
    by (exists (maxRetries - 1); lia).
  destruct Hfuel as (m & Hm & Hsum).
  split.
  - intros Hfail.
    destruct (attempts_exhaust chain R prompt maxRetries m 1 w Hsum) as (w' & Hrun & Hcalls).
    + intros i Hi. apply Hfail. lia.
    + exists w'. rewrite <- Hm in Hrun, Hcalls. split; assumption.
  - intros k v Hk Hfail Hok.
    destruct (attempts_succeed chain R prompt maxRetries (k - 1) m 1 w v) as (w' & Hrun & Hcalls).
    + lia.
    + lia.
    + exact Hfail.
    + exact Hok.
    + exists w'. rewrite <- Hm in Hrun. split; [exact Hrun|].
      rewrite Hcalls. replace (S (k - 1)) with k by lia. reflexivity.
Qed.

(** The earlier copies of the handler keep the same bound: they differ from
    [src/index.ts] in the order of the chain alone. *)
Corollary retry_bound_earlier (R : Runtime) (prompt : jsstring) (maxRetries : nat)
    (w : World) (Hmax : 1 <= maxRetries) :
  ((forall i, i < maxRetries ->
              try_parse_with normalize_earlier R (length (backend_calls w) + i) prompt = None) ->
   exists w',
     generateValidJsonWithRetries_earlier R prompt maxRetries w =
       (Throw (FailedAfterAttempts maxRetries), w')
     /\ backend_calls w' = backend_calls w ++ repeat prompt maxRetries)
  /\
  (forall (k : nat) (v : value),
     1 <= k <= maxRetries ->
     (forall i, i < k - 1 ->
                try_parse_with normalize_earlier R (length (backend_calls w) + i) prompt = None) ->
     try_parse_with normalize_earlier R (length (backend_calls w) + (k - 1)) prompt = Some v ->
     exists w',
       generateValidJsonWithRetries_earlier R prompt maxRetries w = (Ok v, w')
       /\ backend_calls w' = backend_calls w ++ repeat prompt k).
Proof. exact (retry_bound normalize_earlier R prompt maxRetries w Hmax). Qed.

(** ** C1 *)

(** C1: for every prompt and every bound [maxRetries >= 1], counting
    backend calls from the state [w] in which the generator starts: if no
    one of the next [maxRetries] calls yields parseable text, the generator
    makes exactly [maxRetries] calls and throws the error that carries
    [maxRetries]; if the [k]-th call is the first to parse, with
    [k <= maxRetries], it makes exactly [k] calls and returns the parsed
    value. *)
Theorem C1_retry_bound (R : Runtime) (prompt : jsstring) (maxRetries : nat) (w : World)
    (Hmax : 1 <= maxRetries) :
  ((forall i, i < maxRetries ->
              try_parse R (length (backend_calls w) + i) prompt = None) ->
   exists w',
     generateValidJsonWithRetries R prompt maxRetries w =
       (Throw (FailedAfterAttempts maxRetries), w')
     /\ backend_calls w' = backend_calls w ++ repeat prompt maxRetries)
  /\
  (forall (k : nat) (v : value),
     1 <= k <= maxRetries ->
     (forall i, i < k - 1 ->
                try_parse R (length (backend_calls w) + i) prompt = None) ->
     try_parse R (length (backend_calls w) + (k - 1)) prompt = Some v ->
     exists w',
       generateValidJsonWithRetries R prompt maxRetries w = (Ok v, w')
       /\ backend_calls w' = backend_calls w ++ repeat prompt k).
Proof. exact (retry_bound normalize R prompt maxRetries w Hmax). Qed.

(** C1, witness: a backend that never answers, and one that answers the
    third call. *)
Lemma C1_retry_bound_witness :
  (exists w',
     generateValidJsonWithRetries Demo.silent Demo.syllabus_prompt 5 fresh
     = (Throw (FailedAfterAttempts 5), w')
     /\ backend_calls w' = backend_calls fresh ++ repeat Demo.syllabus_prompt 5)
  /\ (exists w',
        generateValidJsonWithRetries Demo.flaky Demo.syllabus_prompt 5 fresh
        = (Ok (Demo.parsed Demo.lessons3), w')
        /\ backend_calls w' = backend_calls fresh ++ repeat Demo.syllabus_prompt 3).
Proof.
  split.
  - destruct (C1_retry_bound Demo.silent Demo.syllabus_prompt 5 fresh) as [Hfail _];
      [lia|].
    apply Hfail. intros i Hi. reflexivity.
  - destruct (C1_retry_bound Demo.flaky Demo.syllabus_prompt 5 fresh) as [_ Hok];
      [lia|].
    apply (Hok 3 (Demo.parsed Demo.lessons3)).
    + lia.
    + intros i Hi. destruct i as [|[|i]]; [reflexivity | reflexivity | lia].
    + vm_compute. reflexivity.
Defined.

(* ================================================================== *)
(** * What the generation stages leave untouched

    No stage writes to the store, closes the socket, logs an error or sends
    a terminal event: those happen after the stages or in the [catch]
    block. *)

Section Quiet.

Lemma quiet_refl (w : World) : quiet w w.
Proof.
  repeat split. exists []. split; [symmetry; apply app_nil_r | constructor].
Qed.

Lemma quiet_trans (w1 w2 w3 : World) : quiet w1 w2 -> quiet w2 w3 -> quiet w1 w3.
Proof.
  intros (Hd & Hc & He & ms & Hs & Hms) (Hd' & Hc' & He' & ms' & Hs' & Hms').
  repeat split; try congruence.
  exists (ms ++ ms'). split.
  - rewrite Hs', Hs, app_assoc. reflexivity.
  - apply Forall_app. split; assumption.
Qed.

Lemma stays_ret {A} (a : A) : stays (ret a).
Proof. intros w. apply quiet_refl. Qed.

Lemma stays_throw {A} (e : error) : stays (@throw A e).
Proof. intros w. apply quiet_refl. Qed.

Lemma stays_lift {A} (o : outcome A) : stays (lift o).
Proof. intros w. apply quiet_refl. Qed.

Lemma stays_bind {A B} (m : M A) (k : A -> M B) :
  stays m -> (forall a, stays (k a)) -> stays (bind m k).
Proof.
  intros Hm Hk w. unfold bind. specialize (Hm w).
  destruct (m w) as [[a|e] w1]; simpl in Hm.
  - eapply quiet_trans; [exact Hm | apply Hk].
  - exact Hm.
Qed.

Lemma stays_try_catch {A} (m : M A) (h : error -> M A) :
  stays m -> (forall e, stays (h e)) -> stays (try_catch m h).
Proof.
  intros Hm Hh w. unfold try_catch. specialize (Hm w).
  destruct (m w) as [[a|e] w1]; simpl in Hm.
  - exact Hm.
  - eapply quiet_trans; [exact Hm | apply Hh].
Qed.

Lemma stays_sendData (m : message) : during_generation m = true -> stays (sendData m).
Proof.
  intros Hm w. repeat split. exists [m]. split; [reflexivity|].
  constructor; [exact Hm | constructor].
Qed.

Lemma quiet_same_logs (w w' : World) :
  db_calls w' = db_calls w -> closes w' = closes w ->
  errors_logged w' = errors_logged w -> sent w' = sent w -> quiet w w'.
Proof.
  intros Hd Hc He Hs. repeat split; try assumption.
  exists []. rewrite app_nil_r. split; [exact Hs | constructor].
Qed.

Lemma stays_console_warn (attempt : nat) : stays (console_warn attempt).
Proof. intros w. apply quiet_same_logs; reflexivity. Qed.

Lemma stays_sleep (ms : nat) : stays (sleep ms).
Proof. intros w. apply quiet_same_logs; reflexivity. Qed.

Variable R : Runtime.

Lemma stays_call_backend (prompt : jsstring) : stays (call_backend R prompt).
Proof.
  intros w. unfold call_backend.
  destruct (generateContent R (length (backend_calls w)) prompt);
    apply quiet_same_logs; reflexivity.
Qed.

Lemma stays_draw_uuid : stays (draw_uuid R).
Proof. intros w. apply quiet_same_logs; reflexivity. Qed.

Ltac stays_step :=
  first
    [ apply stays_ret | apply stays_throw | apply stays_lift
    | apply stays_console_warn | apply stays_sleep
    | apply stays_call_backend | apply stays_draw_uuid
    | apply stays_sendData; reflexivity
    | apply stays_bind; [|intro]
    | apply stays_try_catch; [|intro] ].

Lemma stays_attempt_once (chain : jsstring -> jsstring) (prompt : jsstring) :
  stays (attempt_once_with chain R prompt).
Proof.
  unfold attempt_once_with. apply stays_bind; [apply stays_call_backend|].
  intros text. destruct (JSON_parse R (chain text)); stays_step.
Qed.

Lemma stays_attempts_from (chain : jsstring -> jsstring) (prompt : jsstring)
    (maxRetries fuel : nat) :
  forall attempt, stays (attempts_from_with chain R prompt maxRetries fuel attempt).
Proof.
  induction fuel as [|fuel IH]; intros attempt; cbn [attempts_from_with].
  - apply stays_ret.
  - destruct (attempt <=? maxRetries); [|apply stays_ret].
    apply stays_try_catch; [apply stays_attempt_once|].
    intros _. apply stays_bind; [apply stays_console_warn|].
    intros _. destruct (attempt =? maxRetries); [apply stays_throw|].
    apply stays_bind; [apply stays_sleep|]. intros _. apply IH.
Qed.

Lemma stays_generate (prompt : jsstring) (maxRetries : nat) :
  stays (generateValidJsonWithRetries R prompt maxRetries).
Proof. apply stays_attempts_from. Qed.

Lemma stays_blocks_loop (lessonTitle section : value) (blocks : list value) :
  forall acc, stays (blocks_loop R lessonTitle section blocks acc).
Proof.
  induction blocks as [|block rest IH]; intros acc; cbn [blocks_loop].
  - apply stays_ret.
  - repeat stays_step. apply IH.
Qed.

Lemma stays_sections_loop (lessonTitle : value) (sections : list value) :
  forall acc, stays (sections_loop R lessonTitle sections acc).
Proof.
  induction sections as [|section rest IH]; intros acc; cbn [sections_loop].
  - apply stays_ret.
  - apply stays_bind; [apply stays_lift|]. intros contentBlocks.
    apply stays_bind; [apply stays_lift|]. intros blocks.
    apply stays_bind; [apply stays_blocks_loop|]. intros acc'. apply IH.
Qed.

Lemma stays_lesson_body (p : Personalization) (lt qt : float) (lessonObj : value) :
  stays (lesson_body R p lt qt lessonObj).
Proof.
  unfold lesson_body.
  repeat first [ apply stays_generate | apply stays_sections_loop | stays_step ].
Qed.

Lemma stays_lesson_loop (p : Personalization) (lt qt : float) (lessonObjs : list value) :
  forall acc, stays (lesson_loop R p lt qt lessonObjs acc).
Proof.
  induction lessonObjs as [|lessonObj rest IH]; intros acc; cbn [lesson_loop].
  - apply stays_ret.
  - apply stays_bind; [apply stays_lesson_body|]. intros l. apply IH.
Qed.

Lemma stays_generate_course (message : jsstring) : stays (generate_course R message).
Proof.
  unfold generate_course.
  apply stays_bind; [apply stays_lift|]. intros req.
  destruct (negb (truthy (topic req)) || negb (truthy (userId req)));
    [apply stays_throw|].
  repeat first [ apply stays_generate | apply stays_lesson_loop | stays_step ].
Qed.

End Quiet.

(* ================================================================== *)
(** * Reading parsed values *)

Section Reading.

Lemma eqb_eq (a b : jsstring) : JsString.eqb a b = true <-> a = b.
Proof.
  revert b. induction a as [|x a IH]; intros [|y b]; simpl; split;
    try discriminate; try reflexivity.
  - intros H. apply andb_true_iff in H. destruct H as [Hxy Hab].
    apply N.eqb_eq in Hxy. apply IH in Hab. subst. reflexivity.
  - intros H. inversion H; subst. rewrite N.eqb_refl. simpl. apply IH. reflexivity.
Qed.

(** A read throws exactly on [null] and [undefined]. *)
Lemma get_defined (v : value) (k : jsstring) :
  is_nullish v = false -> exists x, get v k = Ok x.
Proof.
  destruct v; simpl; intros H; try discriminate; eexists; reflexivity.
Qed.

Lemma get_nullish (v : value) (k : jsstring) :
  is_nullish v = true -> get v k = Throw TypeError.
Proof. destruct v; simpl; intros H; try discriminate; reflexivity. Qed.

Lemma get_ok_defined (v : value) (k : jsstring) (x : value) :
  get v k = Ok x -> is_nullish v = false.
Proof. destruct v; simpl; intros H; try discriminate; reflexivity. Qed.

Lemma get_throws (v : value) (k : jsstring) (e : error) :
  get v k = Throw e -> e = TypeError.
Proof. destruct v; simpl; intros H; inversion H; reflexivity. Qed.

Lemma field_get (v : value) (k : String.string) :
  is_nullish v = false -> get v (lit k) = Ok (field v k).
Proof.
  intros H. unfold field. destruct (get_defined v (lit k) H) as [x ->]. reflexivity.
Qed.

Lemma is_obj_defined (v : value) : is_obj v = true -> is_nullish v = false.
Proof. destruct v; simpl; intros H; try discriminate; reflexivity. Qed.

(** The four tags exclude one another. *)
Lemma literal_cases (t : value) :
  let tags := (is_literal t (lit "TEXT"), is_literal t (lit "CODE"),
               is_literal t (lit "MATH"), is_literal t (lit "GRAPH")) in
  tags = (true, false, false, false) \/ tags = (false, true, false, false)
  \/ tags = (false, false, true, false) \/ tags = (false, false, false, true)
  \/ tags = (false, false, false, false).
Proof.
  destruct t as [| |b|x|s|l|p]; try (simpl; tauto).
  cbn [is_literal].
  destruct (JsString.eqb s (lit "TEXT")) eqn:E1.
  { apply eqb_eq in E1. subst s. left. reflexivity. }
  destruct (JsString.eqb s (lit "CODE")) eqn:E2.
  { apply eqb_eq in E2. subst s. right. left. reflexivity. }
  destruct (JsString.eqb s (lit "MATH")) eqn:E3.
  { apply eqb_eq in E3. subst s. right. right. left. reflexivity. }
  destruct (JsString.eqb s (lit "GRAPH")) eqn:E4.
  { apply eqb_eq in E4. subst s. right. right. right. left. reflexivity. }
  right. right. right. right. reflexivity.
Qed.

(** What the construction of a content block yields, field by field. *)
Lemma make_contentBlock_fields (id : jsstring) (block : value) (cb : ContentBlock) :
  make_contentBlock id block = Ok cb ->
  exists order t content,
    get block (lit "order") = Ok order
    /\ get block (lit "type") = Ok t
    /\ get block (lit "content") = Ok content
    /\ cb = {| cb_id := id;
               cb_order := nullish_or order (VNum zero);
               cb_type := t;
               cb_text := if is_literal t (lit "TEXT") then content else VUndefined;
               cb_code := if is_literal t (lit "CODE") then content else VUndefined;
               cb_math := if is_literal t (lit "MATH") then content else VUndefined;
               cb_graph := if is_literal t (lit "GRAPH") then content else VUndefined |}.
Proof.
  unfold make_contentBlock, payload_if. intros H.
  destruct (get block (lit "order")) as [order|e] eqn:Eo; [|discriminate].
  pose proof (get_ok_defined _ _ _ Eo) as Hdef.
  destruct (get_defined block (lit "type") Hdef) as [t Et].
  destruct (get_defined block (lit "content") Hdef) as [content Ec].
  rewrite Et, Ec in H. cbn [obind] in H.
  exists order, t, content.
  split; [reflexivity|]. split; [exact Et|]. split; [exact Ec|].
  destruct (is_literal t (lit "TEXT")), (is_literal t (lit "CODE")),
    (is_literal t (lit "MATH")), (is_literal t (lit "GRAPH"));
    cbn [obind] in H; inversion H; reflexivity.
Qed.

Lemma make_contentBlock_defined (id : jsstring) (block : value) :
  is_nullish block = false -> exists cb, make_contentBlock id block = Ok cb.
Proof.
  intros Hdef. unfold make_contentBlock, payload_if.
  destruct (get_defined block (lit "order") Hdef) as [order ->].
  destruct (get_defined block (lit "type") Hdef) as [t ->].
  destruct (get_defined block (lit "content") Hdef) as [content ->].
  cbn [obind].
  destruct (is_literal t (lit "TEXT")), (is_literal t (lit "CODE")),
    (is_literal t (lit "MATH")), (is_literal t (lit "GRAPH"));
    cbn [obind]; eexists; reflexivity.
Qed.

(** How many payload fields a constructed block populates. *)
Lemma count_populated_selected (id : jsstring) (order t content : value) :
  count_populated
    {| cb_id := id; cb_order := order; cb_type := t;
       cb_text := if is_literal t (lit "TEXT") then content else VUndefined;
       cb_code := if is_literal t (lit "CODE") then content else VUndefined;
       cb_math := if is_literal t (lit "MATH") then content else VUndefined;
       cb_graph := if is_literal t (lit "GRAPH") then content else VUndefined |}
  = if selects t && populated content then 1 else 0.
Proof.
  unfold count_populated, selects.
  cbn [cb_text cb_code cb_math cb_graph].
  pose proof (literal_cases t) as Hcases. cbv zeta in Hcases.
  destruct Hcases as [E|[E|[E|[E|E]]]]; injection E as E1 E2 E3 E4;
    rewrite E1, E2, E3, E4; cbn [filter orb andb];
    change (populated VUndefined) with false; cbn iota;
    destruct (populated content); reflexivity.
Qed.

End Reading.

(** ** C4, as the code has it *)

(** C4, counterexample: a block of type ['IMAGE'] gets none of the four
    payload fields, so it is false that every block has exactly one. *)
Lemma C4_no_payload_for_unknown_type :
  ~ (forall (id : jsstring) (block : value) (cb : ContentBlock),
       make_contentBlock id block = Ok cb -> count_populated cb = 1).
Proof.
  intros H.
  specialize (H [] Demo.image_block
                {| cb_id := []; cb_order := VNum zero; cb_type := VStr (lit "IMAGE");
                   cb_text := VUndefined; cb_code := VUndefined;
                   cb_math := VUndefined; cb_graph := VUndefined |} eq_refl).
  vm_compute in H. discriminate H.
Qed.

(** C4, amended: the constructed block keeps [block.type] as it is; each of
    the four payload fields holds [block.content] when [block.type] is its
    tag and is absent otherwise, so at most one is populated; exactly one
    is populated if and only if the type is one of ['TEXT'], ['CODE'],
    ['MATH'], ['GRAPH'] and [block.content] is neither missing nor [null]. *)
Theorem C4_payload_selected_by_type (id : jsstring) (block : value) (cb : ContentBlock)
    (Hmade : make_contentBlock id block = Ok cb) :
  exists t content,
    get block (lit "type") = Ok t
    /\ get block (lit "content") = Ok content
    /\ cb_type cb = t
    /\ cb_text cb = (if is_literal t (lit "TEXT") then content else VUndefined)
    /\ cb_code cb = (if is_literal t (lit "CODE") then content else VUndefined)
    /\ cb_math cb = (if is_literal t (lit "MATH") then content else VUndefined)
    /\ cb_graph cb = (if is_literal t (lit "GRAPH") then content else VUndefined)
    /\ count_populated cb <= 1
    /\ (count_populated cb = 1 <-> selects t = true /\ populated content = true).
Proof.
  destruct (make_contentBlock_fields id block cb Hmade)
    as (order & t & content & _ & Ht & Hc & ->).
  exists t, content.
  split; [exact Ht|]. split; [exact Hc|].
  do 5 (split; [reflexivity|]).
  rewrite count_populated_selected.
  destruct (selects t), (populated content); cbn [andb]; split;
    try (apply le_n); try (apply Nat.le_0_1);
    (split; [intros H; try discriminate H; split; reflexivity
            | intros [H1 H2]; try discriminate H1; try discriminate H2; reflexivity]).
Qed.

(** C4, witness: a ['CODE'] block. *)
Lemma C4_payload_selected_by_type_witness :
  exists t content,
    get (VObj [(lit "type", VStr (lit "CODE")); (lit "content", VStr (lit "x = 1"))])
        (lit "type") = Ok t
    /\ get (VObj [(lit "type", VStr (lit "CODE")); (lit "content", VStr (lit "x = 1"))])
           (lit "content") = Ok content
    /\ VStr (lit "CODE") = t
    /\ VUndefined = (if is_literal t (lit "TEXT") then content else VUndefined)
    /\ VStr (lit "x = 1") = (if is_literal t (lit "CODE") then content else VUndefined)
    /\ VUndefined = (if is_literal t (lit "MATH") then content else VUndefined)
    /\ VUndefined = (if is_literal t (lit "GRAPH") then content else VUndefined)
    /\ 1 <= 1
    /\ (1 = 1 <-> selects t = true /\ populated content = true).
Proof.
  exact (C4_payload_selected_by_type (lit "id-1")
           (VObj [(lit "type", VStr (lit "CODE")); (lit "content", VStr (lit "x = 1"))])
           {| cb_id := lit "id-1"; cb_order := VNum zero; cb_type := VStr (lit "CODE");
              cb_text := VUndefined; cb_code := VStr (lit "x = 1");
              cb_math := VUndefined; cb_graph := VUndefined |}
           eq_refl).
Defined.

(* ================================================================== *)
(** * The flattening loop *)

Section Flattening.

Variable R : Runtime.

Lemma make_contentBlock_id (id : jsstring) (block : value) (cb : ContentBlock) :
  make_contentBlock id block = Ok cb -> cb_id cb = id.
Proof.
  intros H. destruct (make_contentBlock_fields id block cb H)
    as (order & t & content & _ & _ & _ & ->). reflexivity.
Qed.

Lemma blocks_loop_inv (lessonTitle section : value) (blocks : list value) :
  forall (acc out : list ContentBlock) (w w' : World),
    blocks_loop R lessonTitle section blocks acc w = (Ok out, w') ->
    exists made,
      out = acc ++ made
      /\ Forall2 made_from blocks made
      /\ map cb_id made = map (randomUUID R) (seq (uuids_drawn w) (length blocks))
      /\ uuids_drawn w' = uuids_drawn w + length blocks.
Proof.
  induction blocks as [|block rest IH]; intros acc out w w' H.
  - cbn [blocks_loop] in H. inversion H; subst.
    exists []. rewrite app_nil_r, Nat.add_0_r. repeat split. constructor.
  - cbn [blocks_loop] in H.
    apply bind_inv_ok in H. destruct H as (id & w1 & Hid & H).
    unfold draw_uuid in Hid. inversion Hid; subst id w1. clear Hid.
    apply lift_inv_ok in H. destruct H as (cb & Hcb & H).
    apply lift_inv_ok in H. destruct H as (sectionTitle & _ & H).
    apply bind_inv_ok in H. destruct H as ([] & w2 & Hsend & H).
    unfold sendData, update in Hsend. inversion Hsend; subst w2. clear Hsend.
    apply IH in H. destruct H as (made & -> & Hmade & Hids & Hdrawn).
    cbn [uuids_drawn log_sent count_uuid] in Hids, Hdrawn.
    pose proof (make_contentBlock_id _ _ _ Hcb) as Hcbid.
    exists (cb :: made). split; [rewrite <- app_assoc; reflexivity|].
    split; [constructor; [unfold made_from; rewrite Hcbid; exact Hcb | exact Hmade]|].
    split.
    + cbn [map length seq]. rewrite Hcbid, Hids. reflexivity.
    + rewrite Hdrawn. cbn [length]. lia.
Qed.

Lemma sections_loop_inv (lessonTitle : value) (sections : list value) :
  forall (acc out : list ContentBlock) (w w' : World),
    sections_loop R lessonTitle sections acc w = (Ok out, w') ->
    exists raws made,
      raw_blocks sections = Ok raws
      /\ out = acc ++ made
      /\ Forall2 made_from raws made
      /\ map cb_id made = map (randomUUID R) (seq (uuids_drawn w) (length raws))
      /\ uuids_drawn w' = uuids_drawn w + length raws.
Proof.
  induction sections as [|section rest IH]; intros acc out w w' H.
  - cbn [sections_loop] in H. inversion H; subst.
    exists [], []. rewrite app_nil_r, Nat.add_0_r. repeat split. constructor.
  - cbn [sections_loop] in H.
    apply lift_inv_ok in H. destruct H as (contentBlocks & Hget & H).
    apply lift_inv_ok in H. destruct H as (blocks & Hiter & H).
    apply bind_inv_ok in H. destruct H as (acc1 & w1 & Hblocks & H).
    apply blocks_loop_inv in Hblocks.
    destruct Hblocks as (made1 & -> & Hmade1 & Hids1 & Hdrawn1).
    apply IH in H. destruct H as (raws & made2 & Hraw & -> & Hmade2 & Hids2 & Hdrawn2).
    exists (blocks ++ raws), (made1 ++ made2).
    split; [cbn [raw_blocks]; rewrite Hget; cbn [obind]; rewrite Hiter; cbn [obind];
            rewrite Hraw; reflexivity|].
    split; [rewrite app_assoc; reflexivity|].
    split; [apply Forall2_app; assumption|].
    split.
    + rewrite length_app, seq_app, !map_app, Hids1, Hids2, Hdrawn1. reflexivity.
    + rewrite Hdrawn2, Hdrawn1, length_app. lia.
Qed.

Lemma NoDup_map_injective {A B} (f : A -> B) (l : list A) :
  (forall x y, f x = f y -> x = y) -> NoDup l -> NoDup (map f l).
Proof.
  intros Hinj. induction 1 as [|x r Hx Hr IH]; cbn [map]; constructor.
  - intros Hin. apply in_map_iff in Hin. destruct Hin as (y & Hy & Hin).
    apply Hinj in Hy. subst y. contradiction.
  - exact IH.
Qed.

Lemma mapi_from_length {A B} (f : nat -> A -> B) (l : list A) :
  forall idx, length (mapi_from f idx l) = length l.
Proof.
  induction l as [|x r IH]; intros idx; simpl; [reflexivity|].
  rewrite IH. reflexivity.
Qed.

(** The persisted order is the position plus one, whatever the block. *)
Lemma block_create_orders (blocks : list ContentBlock) :
  forall idx, map b_order (mapi_from block_create idx blocks)
              = seq (idx + 1) (length blocks).
Proof.
  induction blocks as [|cb rest IH]; intros idx; [reflexivity|].
  cbn [mapi_from map length seq block_create b_order].
  rewrite IH. reflexivity.
Qed.

Lemma block_create_payloads (blocks : list ContentBlock) :
  forall idx, Forall2 persisted_from blocks (mapi_from block_create idx blocks).
Proof.
  induction blocks as [|cb rest IH]; intros idx; cbn [mapi_from]; constructor.
  - repeat split.
  - apply IH.
Qed.

Lemma lesson_create_blocks (idx : nat) (l : LessonRecord) (lc : LessonCreate) :
  lesson_create R idx l = Ok lc ->
  l_contentBlocks lc = mapi_from block_create 0 (allContentBlocks l)
  /\ l_order lc = idx /\ l_duration lc = lessonDuration l.
Proof.
  unfold lesson_create. intros H.
  destruct (get (context l) (lit "title")); [|discriminate].
  destruct (get (context l) (lit "objective")); [|discriminate].
  destruct (quiz_create R l); [|discriminate].
  cbn [obind] in H. inversion H. repeat split.
Qed.

End Flattening.

Section DemoFacts.

Lemma lit_injective (a b : String.string) : lit a = lit b -> a = b.
Proof.
  unfold lit. intros H.
  assert (Hl : String.list_ascii_of_string a = String.list_ascii_of_string b).
  { revert H. generalize (String.list_ascii_of_string a) (String.list_ascii_of_string b).
    intros l. induction l as [|x l IH]; intros [|y l'] H; try discriminate; [reflexivity|].
    cbn [map] in H. inversion H as [[Hxy Hll]].
    rewrite <- (Ascii.ascii_N_embedding x), <- (Ascii.ascii_N_embedding y), Hxy.
    f_equal. apply IH. exact Hll. }
  rewrite <- (String.string_of_list_ascii_of_string a),
          <- (String.string_of_list_ascii_of_string b), Hl.
  reflexivity.
Qed.

Lemma decimal_injective (i j : nat) : decimal i = decimal j -> i = j.
Proof.
  unfold decimal. intros H. apply lit_injective in H.
  assert (Hu : Nat.to_uint i = Nat.to_uint j).
  { pose proof (DecimalString.NilEmpty.usu (Nat.to_uint i)) as Hi.
    pose proof (DecimalString.NilEmpty.usu (Nat.to_uint j)) as Hj.
    rewrite H in Hi. rewrite Hi in Hj. inversion Hj. reflexivity. }
  rewrite <- (DecimalNat.Unsigned.of_to i), <- (DecimalNat.Unsigned.of_to j), Hu.
  reflexivity.
Qed.

Lemma uuid_injective (i j : nat) : Demo.uuid i = Demo.uuid j -> i = j.
Proof.
  unfold Demo.uuid. intros H. apply app_inv_head in H.
  apply decimal_injective. exact H.
Qed.

End DemoFacts.

(* ================================================================== *)
(** * What is handed to the store *)

Section Persisted.

Variable R : Runtime.

Lemma mapi_outcome_from_inv {A B} (f : nat -> A -> outcome B) (l : list A) :
  forall (idx : nat) (ys : list B),
    mapi_outcome_from f idx l = Ok ys ->
    length ys = length l
    /\ forall i x, nth_error l i = Some x ->
                   exists y, nth_error ys i = Some y /\ f (idx + i) x = Ok y.
Proof.
  induction l as [|a r IH]; intros idx ys H; cbn [mapi_outcome_from] in H.
  - inversion H; subst. split; [reflexivity|]. intros [|i] x Hx; discriminate Hx.
  - destruct (f idx a) as [y|e] eqn:Ey; [|discriminate]. cbn [obind] in H.
    destruct (mapi_outcome_from f (S idx) r) as [ys'|e] eqn:Er; [|discriminate].
    cbn [obind] in H. inversion H; subst ys. clear H.
    destruct (IH (S idx) ys' Er) as (Hlen & Hnth).
    split; [cbn [length]; rewrite Hlen; reflexivity|].
    intros [|i] x Hx; cbn [nth_error] in *.
    + inversion Hx; subst x. exists y. rewrite Nat.add_0_r. split; [reflexivity | exact Ey].
    + destruct (Hnth i x Hx) as (y' & Hy' & Hf). exists y'.
      replace (idx + S i) with (S idx + i) by lia. split; assumption.
Qed.

Lemma mapi_outcome_from_Forall2 {A B} (f : nat -> A -> outcome B) (l : list A) :
  forall (idx : nat) (ys : list B),
    mapi_outcome_from f idx l = Ok ys ->
    Forall2 (fun x y => exists i, f i x = Ok y) l ys.
Proof.
  induction l as [|a r IH]; intros idx ys H; cbn [mapi_outcome_from] in H.
  - inversion H. constructor.
  - destruct (f idx a) as [y|e] eqn:Ey; [|discriminate]. cbn [obind] in H.
    destruct (mapi_outcome_from f (S idx) r) as [ys'|e] eqn:Er; [|discriminate].
    cbn [obind] in H. inversion H; subst ys.
    constructor; [exists idx; exact Ey | apply (IH (S idx)); exact Er].
Qed.

Lemma mapi_outcome_from_defined {A B} (f : nat -> A -> outcome B) (l : list A) :
  (forall i x, In x l -> exists y, f i x = Ok y) ->
  forall idx, exists ys, mapi_outcome_from f idx l = Ok ys /\ length ys = length l.
Proof.
  induction l as [|a r IH]; intros Hf idx; cbn [mapi_outcome_from].
  - exists []. split; reflexivity.
  - destruct (Hf idx a (or_introl eq_refl)) as [y ->]. cbn [obind].
    destruct (IH (fun i x Hx => Hf i x (or_intror Hx)) (S idx)) as (ys & -> & Hlen).
    cbn [obind]. exists (y :: ys). split; [reflexivity|].
    cbn [length]. rewrite Hlen. reflexivity.
Qed.

Lemma question_create_defined (q : value) :
  is_nullish q = false ->
  exists qc, question_create q = Ok qc /\ defaults_applied q qc.
Proof.
  intros Hq. unfold question_create.
  rewrite !(field_get q _ Hq). cbn [obind].
  eexists. split; [reflexivity|]. repeat split.
Qed.

Lemma question_create_inv (q : value) (qc : QuestionCreate) :
  question_create q = Ok qc -> defaults_applied q qc.
Proof.
  intros H. destruct (is_nullish q) eqn:Hq.
  - unfold question_create in H. rewrite (get_nullish q _ Hq) in H. discriminate H.
  - destruct (question_create_defined q Hq) as (qc' & Hqc' & Hd).
    rewrite H in Hqc'. inversion Hqc'; subst. exact Hd.
Qed.

Lemma quiz_create_inv (l : LessonRecord) (quiz : QuizCreate) :
  quiz_create R l = Ok quiz -> quiz_of R l quiz.
Proof.
  unfold quiz_create. intros H.
  destruct (get (context l) (lit "title")) as [contextTitle|] eqn:Et; [|discriminate].
  cbn [obind] in H.
  destruct (concat_literal (Number_toString R) contextTitle (lit " Quiz"))
    as [title|] eqn:Ec; [|discriminate].
  cbn [obind] in H.
  destruct (get (quizJson l) (lit "duration")); [|discriminate].
  destruct (get (quizJson l) (lit "totalMarks")); [|discriminate].
  destruct (get (quizJson l) (lit "passingMarks")); [|discriminate].
  destruct (get (quizJson l) (lit "questions")) as [questions|] eqn:Eq; [|discriminate].
  cbn [obind] in H.
  destruct questions as [| | | | |qs|]; try discriminate. cbn [array_elements obind] in H.
  destruct (mapi_outcome_from (fun _ q => question_create q) 0 qs) as [created|] eqn:Em;
    [|discriminate].
  cbn [obind] in H. inversion H; subst quiz. clear H.
  unfold quiz_of.
  cbn [quiz_isCompleted quiz_gainedMarks quiz_timeTaken quiz_title quiz_questions].
  do 3 (split; [reflexivity|]).
  split; [exists contextTitle; split; [exact Et | exact Ec]|].
  exists qs. split; [exact Eq|].
  apply mapi_outcome_from_Forall2 in Em.
  eapply Forall2_impl; [|exact Em].
  intros q qc [_ Hq]. apply question_create_inv. exact Hq.
Qed.

Lemma lesson_create_inv (idx : nat) (l : LessonRecord) (lc : LessonCreate) :
  lesson_create R idx l = Ok lc -> lesson_of R idx l lc.
Proof.
  unfold lesson_create. intros H.
  destruct (get (context l) (lit "title")) as [title|] eqn:Et; [|discriminate].
  destruct (get (context l) (lit "objective")) as [objective|] eqn:Eo; [|discriminate].
  destruct (quiz_create R l) as [quiz|] eqn:Eq; [|discriminate].
  cbn [obind] in H. inversion H; subst lc. clear H.
  unfold lesson_of.
  cbn [l_order l_title l_description l_duration l_contentBlocks l_quizz].
  do 5 (split; [first [reflexivity | assumption]|]).
  apply quiz_create_inv. exact Eq.
Qed.

Lemma course_create_data_inv (syllabusJson userId : value)
    (lessons : list LessonRecord) (postCourse : value) (data : CourseCreate) :
  course_create_data R syllabusJson userId lessons postCourse = Ok data ->
  mapi_outcome_from (lesson_create R) 0 lessons = Ok (c_lessons data)
  /\ c_user data = userId
  /\ get syllabusJson (lit "title") = Ok (c_title data)
  /\ get syllabusJson (lit "description") = Ok (c_description data).
Proof.
  unfold course_create_data. intros H.
  destruct (get syllabusJson (lit "title")); [|discriminate].
  destruct (get syllabusJson (lit "description")); [|discriminate].
  destruct (mapi_outcome_from (lesson_create R) 0 lessons); [|discriminate].
  destruct (get postCourse (lit "summary")); [|discriminate].
  destruct (get postCourse (lit "keyPoints")); [|discriminate].
  destruct (get postCourse (lit "analytics")); [|discriminate].
  cbn [obind] in H. inversion H. repeat split.
Qed.

End Persisted.

(* ================================================================== *)
(** * The lesson loop, read backwards from its result *)

Section LessonLoop.

Variable R : Runtime.
Variable p : Personalization.
Variables lt qt : float.

Lemma lesson_body_inv (lessonObj : value) (w w' : World) (l : LessonRecord) :
  lesson_body R p lt qt lessonObj w = (Ok l, w') ->
  lesson_generated R p lt qt lessonObj l.
Proof.
  unfold lesson_body. intros H.
  apply lift_inv_ok in H. destruct H as (title & Htitle & H).
  apply lift_inv_ok in H. destruct H as (duration & Hduration & H).
  apply bind_inv_ok in H. destruct H as ([] & w1 & _ & H).
  apply lift_inv_ok in H. destruct H as (contextPrompt & Hcp & H).
  apply bind_inv_ok in H. destruct H as (ctx & w2 & Hctx & H).
  apply lift_inv_ok in H. destruct H as (sectionPrompt & Hsp & H).
  apply bind_inv_ok in H. destruct H as (sectionContent & w3 & Hsc & H).
  apply lift_inv_ok in H. destruct H as (sections & Hsections & H).
  apply bind_inv_ok in H. destruct H as (blocks & w4 & Hblocks & H).
  apply lift_inv_ok in H. destruct H as (quizPrompt & Hqp & H).
  apply bind_inv_ok in H. destruct H as (quiz & w5 & Hquiz & H).
  apply bind_inv_ok in H. destruct H as ([] & w6 & _ & H).
  unfold ret in H. inversion H; subst l w'. clear H.
  unfold lesson_generated. cbn [lessonTitle lessonDuration context allContentBlocks quizJson].
  split; [exact Htitle|]. split; [exact Hduration|].
  split; [exists contextPrompt; split; [exact Hcp | exists w1, w2; exact Hctx]|].
  split.
  - exists sectionPrompt, sectionContent, sections, w3, w4.
    split; [exact Hsp|]. split; [exists w2, w3; exact Hsc|].
    split; [exact Hsections | exact Hblocks].
  - exists quizPrompt. split; [exact Hqp | exists w4, w5; exact Hquiz].
Qed.

Lemma lesson_loop_inv (lessonObjs : list value) :
  forall (acc out : list LessonRecord) (w w' : World),
    lesson_loop R p lt qt lessonObjs acc w = (Ok out, w') ->
    exists made,
      out = acc ++ made /\ Forall2 (lesson_generated R p lt qt) lessonObjs made.
Proof.
  induction lessonObjs as [|lessonObj rest IH]; intros acc out w w' H;
    cbn [lesson_loop] in H.
  - inversion H; subst. exists []. rewrite app_nil_r. split; [reflexivity | constructor].
  - apply bind_inv_ok in H. destruct H as (l & w1 & Hl & H).
    apply lesson_body_inv in Hl.
    apply IH in H. destruct H as (made & -> & Hmade).
    exists (l :: made). split; [rewrite <- app_assoc; reflexivity|].
    constructor; assumption.
Qed.

End LessonLoop.

Section Positions.

Lemma Forall2_nth_error {A B} (P : A -> B -> Prop) (l : list A) (l' : list B) :
  Forall2 P l l' ->
  forall i y, nth_error l' i = Some y -> exists x, nth_error l i = Some x /\ P x y.
Proof.
  induction 1 as [|x y0 l l' Hxy Hll IH]; intros [|i] y Hy; cbn [nth_error] in *;
    try discriminate.
  - inversion Hy; subst. exists x. split; [reflexivity | exact Hxy].
  - apply IH. exact Hy.
Qed.

Lemma nth_error_defined {A} (l : list A) (i : nat) :
  i < length l -> exists x, nth_error l i = Some x.
Proof.
  intros Hi. destruct (nth_error l i) as [x|] eqn:E; [exists x; reflexivity|].
  apply nth_error_None in E. lia.
Qed.

End Positions.

(* ================================================================== *)
(** * A run in which every stage is answered at once *)

Section Answered.

Variable R : Runtime.

Lemma bind_lift {A B} (a : A) (k : A -> M B) (w : World) :
  bind (lift (Ok a)) k w = k a w.
Proof. reflexivity. Qed.

Lemma bind_update {B} (f : World -> World) (k : unit -> M B) (w : World) :
  bind (update f) k w = k tt (f w).
Proof. reflexivity. Qed.

Lemma bind_sendData {B} (m : message) (k : unit -> M B) (w : World) :
  bind (sendData m) k w = k tt (log_sent m w).
Proof. reflexivity. Qed.

Lemma bind_draw_uuid {B} (k : jsstring -> M B) (w : World) :
  bind (draw_uuid R) k w = k (randomUUID R (uuids_drawn w)) (count_uuid w).
Proof. reflexivity. Qed.

(** A stage whose prompt is answered returns the payload after one call. *)
Lemma stage_answered (prompt : outcome jsstring) (valid : value -> bool) (w : World) :
  answered R prompt valid ->
  exists text v,
    prompt = Ok text
    /\ generateValidJsonWithRetries R text MAX_RETRIES w
       = (Ok v, log_backend_call text w)
    /\ valid v = true
    /\ try_parse R (length (backend_calls w)) text = Some v.
Proof.
  intros H. destruct (H (length (backend_calls w))) as (text & v & Hp & Ht & Hv).
  exists text, v. split; [exact Hp|]. split; [|split; [exact Hv | exact Ht]].
  apply generate_first_try; [unfold MAX_RETRIES; lia | exact Ht].
Qed.

Lemma blocks_loop_defined (lessonTitle section : value) (blocks : list value) :
  is_nullish section = false -> forallb is_obj blocks = true ->
  forall acc w,
    exists out w',
      blocks_loop R lessonTitle section blocks acc w = (Ok out, w')
      /\ backend_calls w' = backend_calls w.
Proof.
  intros Hsection. induction blocks as [|block rest IH]; intros Hblocks acc w;
    cbn [blocks_loop].
  - exists acc, w. split; reflexivity.
  - cbn [forallb] in Hblocks. apply andb_true_iff in Hblocks.
    destruct Hblocks as [Hblock Hrest].
    rewrite bind_draw_uuid.
    destruct (make_contentBlock_defined (randomUUID R (uuids_drawn w)) block
                (is_obj_defined _ Hblock)) as [cb ->].
    rewrite bind_lift.
    destruct (get_defined section (lit "title") Hsection) as [sectionTitle ->].
    rewrite bind_lift, bind_sendData.
    destruct (IH Hrest (acc ++ [cb])
                (log_sent (ContentBlockProduced lessonTitle sectionTitle cb)
                   (count_uuid w))) as (out & w' & Hrun & Hcalls).
    exists out, w'. split; [exact Hrun | exact Hcalls].
Qed.

Lemma valid_section_blocks (section : value) :
  valid_section section = true ->
  is_nullish section = false
  /\ exists blocks,
       get section (lit "contentBlocks") = Ok (VArr blocks)
       /\ forallb is_obj blocks = true.
Proof.
  unfold valid_section. intros H. apply andb_true_iff in H. destruct H as [Hobj H].
  pose proof (is_obj_defined _ Hobj) as Hdef. split; [exact Hdef|].
  rewrite (field_get section "contentBlocks" Hdef).
  destruct (field section "contentBlocks"); try discriminate.
  eexists. split; [reflexivity | exact H].
Qed.

Lemma sections_loop_defined (lessonTitle : value) (sections : list value) :
  forallb valid_section sections = true ->
  forall acc w,
    exists out w',
      sections_loop R lessonTitle sections acc w = (Ok out, w')
      /\ backend_calls w' = backend_calls w.
Proof.
  induction sections as [|section rest IH]; intros Hsections acc w;
    cbn [sections_loop].
  - exists acc, w. split; reflexivity.
  - cbn [forallb] in Hsections. apply andb_true_iff in Hsections.
    destruct Hsections as [Hsection Hrest].
    destruct (valid_section_blocks section Hsection) as (Hdef & blocks & -> & Hblocks).
    rewrite bind_lift. cbn [iterate]. rewrite bind_lift.
    destruct (blocks_loop_defined lessonTitle section blocks Hdef Hblocks acc w)
      as (acc1 & w1 & Hrun1 & Hcalls1).
    rewrite (bind_ok _ _ _ _ _ Hrun1).
    destruct (IH Hrest acc1 w1) as (out & w' & Hrun & Hcalls).
    exists out, w'. split; [exact Hrun | congruence].
Qed.

Hypothesis Hresponsive : responsive R.

Variable p : Personalization.
Hypothesis Hp : str_personalization p = true.
Variables lt qt : float.

Lemma with_timeCommitment_str (x : float) :
  str_personalization (with_timeCommitment p (number_text R x)) = true.
Proof.
  unfold str_personalization in *. cbn.
  repeat (apply andb_true_iff in Hp; destruct Hp as [Hp ?]).
  repeat (apply andb_true_iff; split); assumption || reflexivity.
Qed.

Lemma lesson_body_defined (lessonObj : value) (w : World) :
  valid_lessonObj lessonObj = true ->
  exists l w',
    lesson_body R p lt qt lessonObj w = (Ok l, w')
    /\ valid_record l = true
    /\ length (backend_calls w') = length (backend_calls w) + 3.
Proof.
  unfold valid_lessonObj. intros H. apply andb_true_iff in H. destruct H as [Hobj Htitle].
  pose proof (is_obj_defined _ Hobj) as Hdef.
  unfold lesson_body.
  rewrite (field_get lessonObj "title" Hdef), bind_lift.
  rewrite (field_get lessonObj "duration" Hdef), bind_lift.
  rewrite bind_sendData.
  set (w1 := log_sent (LessonStarted (field lessonObj "title")) w).
  destruct (stage_answered _ _ w1
              (context_answered R Hresponsive _ _ Htitle (with_timeCommitment_str lt)))
    as (cp & ctx & -> & Hctx & Hvctx & _).
  rewrite bind_lift, (bind_ok _ _ _ _ _ Hctx).
  set (w2 := log_backend_call cp w1).
  destruct (stage_answered _ _ w2
              (sections_answered R Hresponsive _ _ Hvctx (with_timeCommitment_str lt)))
    as (sp & sc & -> & Hsc & Hvsc & _).
  rewrite bind_lift, (bind_ok _ _ _ _ _ Hsc).
  set (w3 := log_backend_call sp w2).
  unfold valid_sectionContent in Hvsc. apply andb_true_iff in Hvsc.
  destruct Hvsc as [Hscobj Hsections].
  rewrite (field_get sc "sections" (is_obj_defined _ Hscobj)).
  destruct (field sc "sections") as [| | | | |sections|]; try discriminate.
  cbn [obind iterate]. rewrite bind_lift.
  destruct (sections_loop_defined (field lessonObj "title") sections Hsections [] w3)
    as (blocks & w4 & Hblocks & Hcalls4).
  rewrite (bind_ok _ _ _ _ _ Hblocks).
  destruct (stage_answered _ _ w4
              (quiz_answered R Hresponsive _ blocks _ Htitle (with_timeCommitment_str qt)))
    as (qp & quiz & -> & Hquiz & Hvquiz & _).
  rewrite bind_lift, (bind_ok _ _ _ _ _ Hquiz), bind_sendData.
  eexists. eexists. split; [reflexivity|]. split.
  - unfold valid_record. cbn [context quizJson]. rewrite Hvctx, Hvquiz. reflexivity.
  - cbn [backend_calls log_sent log_backend_call]. rewrite length_app, Hcalls4.
    subst w3 w2 w1. cbn [backend_calls log_sent log_backend_call length].
    rewrite !length_app. cbn [length]. lia.
Qed.

Lemma lesson_loop_defined (lessonObjs : list value) :
  forallb valid_lessonObj lessonObjs = true ->
  forall acc w,
    exists made w',
      lesson_loop R p lt qt lessonObjs acc w = (Ok (acc ++ made), w')
      /\ length made = length lessonObjs
      /\ forallb valid_record made = true
      /\ length (backend_calls w') = length (backend_calls w) + 3 * length lessonObjs.
Proof.
  induction lessonObjs as [|lessonObj rest IH]; intros Hobjs acc w; cbn [lesson_loop].
  - exists [], w. rewrite app_nil_r. repeat split. cbn [length]. lia.
  - cbn [forallb] in Hobjs. apply andb_true_iff in Hobjs. destruct Hobjs as [Hobj Hrest].
    destruct (lesson_body_defined lessonObj w Hobj) as (l & w1 & Hl & Hvl & Hcalls1).
    rewrite (bind_ok _ _ _ _ _ Hl).
    destruct (IH Hrest (acc ++ [l]) w1) as (made & w' & Hrun & Hlen & Hvalid & Hcalls).
    exists (l :: made), w'.
    split; [rewrite Hrun, <- app_assoc; reflexivity|].
    split; [cbn [length]; rewrite Hlen; reflexivity|].
    split; [cbn [forallb]; rewrite Hvl, Hvalid; reflexivity|].
    rewrite Hcalls, Hcalls1. cbn [length]. lia.
Qed.

End Answered.

Section FullRun.

Variable R : Runtime.

Lemma concat_literal_str (s suffix : jsstring) :
  concat_literal (Number_toString R) (VStr s) suffix = Ok (VStr (s ++ suffix)).
Proof. reflexivity. Qed.

Lemma lesson_create_defined (idx : nat) (l : LessonRecord) :
  valid_record l = true -> exists lc, lesson_create R idx l = Ok lc.
Proof.
  unfold valid_record, valid_context, valid_quiz. intros H.
  apply andb_true_iff in H. destruct H as [Hc Hq].
  apply andb_true_iff in Hc. destruct Hc as [Hc Hobjective].
  apply andb_true_iff in Hc. destruct Hc as [Hcobj Htitle].
  apply andb_true_iff in Hq. destruct Hq as [Hqobj Hquestions].
  pose proof (is_obj_defined _ Hcobj) as Hcdef.
  pose proof (is_obj_defined _ Hqobj) as Hqdef.
  unfold lesson_create, quiz_create.
  rewrite (field_get (context l) "title" Hcdef).
  rewrite (field_get (context l) "objective" Hcdef).
  destruct (field (context l) "title") as [| | | |title| |]; try discriminate.
  cbn [obind]. rewrite concat_literal_str.
  rewrite !(field_get (quizJson l) _ Hqdef).
  destruct (field (quizJson l) "questions") as [| | | | |qs|]; try discriminate.
  cbn [obind array_elements].
  destruct (mapi_outcome_from_defined (fun _ q => question_create q) qs) with (idx := 0)
    as (created & -> & _).
  { intros _ q Hq. rewrite forallb_forall in Hquestions.
    destruct (question_create_defined q (is_obj_defined _ (Hquestions q Hq)))
      as (qc & Hqc & _).
    exists qc. exact Hqc. }
  cbn [obind]. eexists. reflexivity.
Qed.

Lemma course_create_data_defined (syllabusJson userId : value)
    (lessons : list LessonRecord) (postCourse : value) :
  is_obj syllabusJson = true -> forallb valid_record lessons = true ->
  is_obj postCourse = true ->
  exists data,
    course_create_data R syllabusJson userId lessons postCourse = Ok data
    /\ length (c_lessons data) = length lessons.
Proof.
  intros Hs Hl Hp. unfold course_create_data.
  rewrite !(field_get syllabusJson _ (is_obj_defined _ Hs)). cbn [obind].
  destruct (mapi_outcome_from_defined (lesson_create R) lessons) with (idx := 0)
    as (created & -> & Hlen).
  { intros i l Hin. rewrite forallb_forall in Hl.
    apply lesson_create_defined. apply Hl. exact Hin. }
  cbn [obind]. rewrite !(field_get postCourse _ (is_obj_defined _ Hp)). cbn [obind].
  eexists. split; [reflexivity | exact Hlen].
Qed.

Lemma time_budgets_defined (s : jsstring) (syllabusJson : value) (lessonObjs : list value) :
  get syllabusJson (lit "lessons") = Ok (VArr lessonObjs) ->
  time_budgets R (VStr s) syllabusJson =
    Ok (let total := (StringToNumber s * sixty)%float in
        let n := float_of_Z (Z.of_nat (length lessonObjs)) in
        {| totalTimeMinutes := total;
           numberOfLessons := VNum n;
           lessonTimePerLesson := (total * eight_tenths / n)%float;
           quizTimePerLesson := (total * two_tenths / n)%float |}).
Proof. intros H. unfold time_budgets. cbn [ToNumber obind]. rewrite H. reflexivity. Qed.

Lemma on_message_throw (message : jsstring) (w w1 : World) (e : error) :
  try_block R message w = (Throw e, w1) ->
  on_message R message w = (Ok tt, failed e w1).
Proof. intros H. unfold on_message, try_catch. rewrite H. reflexivity. Qed.

Lemma on_message_ok (message : jsstring) (w w1 : World) :
  try_block R message w = (Ok tt, w1) ->
  on_message R message w = (Ok tt, w1).
Proof. intros H. unfold on_message, try_catch. rewrite H. reflexivity. Qed.

Lemma persist_accepted (g : Generated) (w : World) (data : CourseCreate)
    (created courseId : value) :
  course_create_data R (g_syllabusJson g) (g_userId g) (g_lessons g) (g_postCourse g)
    = Ok data ->
  db_course_create R data = Some created ->
  get created (lit "id") = Ok courseId ->
  persist R g w = (Ok tt, completed data courseId w).
Proof.
  intros Hdata Hdb Hid. unfold persist.
  rewrite bind_sendData, Hdata, bind_lift.
  unfold bind at 1. unfold db_create. rewrite Hdb.
  rewrite Hid, bind_lift. reflexivity.
Qed.

Hypothesis Hresponsive : responsive R.

(** With a valid request, a credential and every stage answered at
    once, the generation stages run through. *)
Lemma generate_course_defined (message : jsstring) (w : World) (req : Request)
    (key : jsstring) :
  destructure_request R message = Ok req ->
  valid_request req = true ->
  getRandomApiKey R = Ok key ->
  exists g w1 lessonObjs,
    generate_course R message w = (Ok g, w1)
    /\ is_obj (g_syllabusJson g) = true
    /\ get (g_syllabusJson g) (lit "lessons") = Ok (VArr lessonObjs)
    /\ length (g_lessons g) = length lessonObjs
    /\ forallb valid_record (g_lessons g) = true
    /\ is_obj (g_postCourse g) = true
    /\ (exists ms, sent w1 = sent w ++ ms
                    /\ In (SyllabusCompleted (g_syllabusJson g)) ms)
    /\ length (backend_calls w1) = length (backend_calls w) + 2 + 3 * length lessonObjs
    /\ (exists text n,
          getSyllabusPrompt R (topic req) (personalization req) = Ok text
          /\ try_parse R n text = Some (g_syllabusJson g)).
Proof.
  intros Hreq Hvalid Hkey. unfold valid_request in Hvalid.
  apply andb_true_iff in Hvalid. destruct Hvalid as [Hvalid Hpers].
  apply andb_true_iff in Hvalid. destruct Hvalid as [Hvalid Huser].
  apply andb_true_iff in Hvalid. destruct Hvalid as [Htopic Htruthy].
  unfold generate_course. rewrite Hreq, bind_lift, Htruthy, Huser. cbn [negb orb].
  rewrite Hkey, bind_lift, !bind_sendData.
  set (w0 := log_sent (Notice GeneratingSyllabus) (log_sent SyllabusStarted w)).
  destruct (stage_answered R _ _ w0
              (syllabus_answered R Hresponsive _ _ Htopic Hpers))
    as (sp & syl & Hsp & Hsyl & Hvsyl & Hparsed). rewrite Hsp.
  rewrite bind_lift, (bind_ok _ _ _ _ _ Hsyl).
  unfold valid_syllabus in Hvsyl. apply andb_true_iff in Hvsyl.
  destruct Hvsyl as [Hsylobj Hlessons].
  pose proof (field_get syl "lessons" (is_obj_defined _ Hsylobj)) as Hget.
  destruct (field syl "lessons") as [| | | | |lessonObjs|] eqn:Efield; try discriminate.
  assert (Htc : exists s, timeCommitment (personalization req) = VStr s).
  { unfold str_personalization in Hpers.
    repeat (apply andb_true_iff in Hpers; destruct Hpers as [Hpers ?]).
    destruct (timeCommitment (personalization req)); try discriminate.
    eexists; reflexivity. }
  destruct Htc as [s Hs]. rewrite Hs.
  rewrite (time_budgets_defined s syl lessonObjs Hget), bind_lift, bind_sendData.
  rewrite Hget. cbn [obind iterate]. rewrite bind_lift.
  set (w2 := log_sent (SyllabusCompleted syl) (log_backend_call sp w0)).
  match goal with
  | |- context [lesson_loop R ?pp ?a ?b lessonObjs []] =>
      destruct (lesson_loop_defined R Hresponsive pp Hpers a b lessonObjs Hlessons [] w2)
        as (lessons & w3 & Hloop & Hlen & Hrecords & Hcalls3);
      pose proof (stays_lesson_loop R pp a b lessonObjs [] w2) as Hquiet
  end.
  rewrite Hloop in Hquiet. cbn [snd] in Hquiet.
  rewrite (bind_ok _ _ _ _ _ Hloop), bind_sendData.
  set (w4 := log_sent (Notice GeneratingPostCourse) w3).
  destruct (stage_answered R _ _ w4
              (postCourse_answered R Hresponsive _ _ Htopic Hpers))
    as (pp & post & -> & Hpost & Hvpost & _).
  rewrite bind_lift, (bind_ok _ _ _ _ _ Hpost).
  eexists. eexists. exists lessonObjs. split; [reflexivity|].
  cbn [g_syllabusJson g_lessons g_postCourse app].
  split; [exact Hsylobj|]. split; [exact Hget|]. split; [exact Hlen|].
  split; [exact Hrecords|]. split; [exact Hvpost|]. split.
  - destruct Hquiet as (_ & _ & _ & ms & Hsent & _).
    exists ([SyllabusStarted; Notice GeneratingSyllabus; SyllabusCompleted syl]
            ++ ms ++ [Notice GeneratingPostCourse]).
    split.
    + cbn [sent log_backend_call]. subst w4. cbn [sent log_sent].
      rewrite Hsent. subst w2 w0. cbn [sent log_sent log_backend_call].
      rewrite <- !app_assoc. reflexivity.
    + right. right. left. reflexivity.
  - split.
    + cbn [backend_calls log_backend_call]. rewrite length_app. subst w4.
      cbn [backend_calls log_sent]. rewrite Hcalls3. subst w2 w0.
      cbn [backend_calls log_sent log_backend_call length]. rewrite length_app.
      cbn [length]. lia.
    + exists sp, (length (backend_calls w0)). split; [reflexivity | exact Hparsed].
Qed.

Hypothesis Hstore : store_accepts R.

(** Such a run writes once and ends with the completed event. *)
Lemma full_run (message : jsstring) (w : World) (req : Request) (key : jsstring) :
  destructure_request R message = Ok req ->
  valid_request req = true ->
  getRandomApiKey R = Ok key ->
  exists g w1 lessonObjs data courseId,
    generate_course R message w = (Ok g, w1)
    /\ on_message R message w = (Ok tt, completed data courseId w1)
    /\ get (g_syllabusJson g) (lit "lessons") = Ok (VArr lessonObjs)
    /\ (exists ms, sent w1 = sent w ++ ms
                    /\ In (SyllabusCompleted (g_syllabusJson g)) ms)
    /\ length (c_lessons data) = length lessonObjs
    /\ length (backend_calls w1) = length (backend_calls w) + 2 + 3 * length lessonObjs
    /\ (exists text n,
          getSyllabusPrompt R (topic req) (personalization req) = Ok text
          /\ try_parse R n text = Some (g_syllabusJson g)).
Proof.
  intros Hreq Hvalid Hkey.
  destruct (generate_course_defined message w req key Hreq Hvalid Hkey)
    as (g & w1 & lessonObjs & Hgen & Hsyl & Hlessons & Hlen & Hrecords & Hpost
        & Hsent & Hcalls & Hstage).
  destruct (course_create_data_defined (g_syllabusJson g) (g_userId g)
              (g_lessons g) (g_postCourse g) Hsyl Hrecords Hpost)
    as (data & Hdata & Hdatalen).
  destruct (Hstore data) as (created & courseId & Hdb & Hid).
  exists g, w1, lessonObjs, data, courseId.
  split; [exact Hgen|]. split.
  - apply on_message_ok. unfold try_block. rewrite (bind_ok _ _ _ _ _ Hgen).
    apply (persist_accepted g w1 data created courseId Hdata Hdb Hid).
  - split; [exact Hlessons|]. split; [exact Hsent|].
    split; [congruence|]. split; [exact Hcalls | exact Hstage].
Qed.

End FullRun.

Section Terminal.

Lemma generation_not_terminal (ms : list message) :
  Forall (fun m => during_generation m = true) ms -> filter is_terminal ms = [].
Proof.
  induction 1 as [|m ms Hm Hms IH]; [reflexivity|].
  cbn [filter]. rewrite IH. destruct m as [|n| | | | | |]; try reflexivity;
    try discriminate Hm.
Qed.

Lemma generation_not_saving (ms : list message) :
  Forall (fun m => during_generation m = true) ms ->
  ~ In (Notice SavingToDatabase) ms.
Proof.
  intros H Hin. rewrite Forall_forall in H. specialize (H _ Hin). discriminate H.
Qed.

End Terminal.

(** ** C7, as the code has it *)


(* ================================================================== *)
(** * The example runtime answers every stage *)

Section DemoAnswers.

Lemma template_text (stage : String.string) (subject : value) (p : Personalization) :
  is_str subject = true -> str_personalization p = true ->
  exists rest, Demo.template stage subject p = Ok (lit stage ++ rest).
Proof.
  intros Hs Hp. destruct subject as [| | | |s| |]; try discriminate.
  unfold str_personalization in Hp.
  repeat (apply andb_true_iff in Hp; destruct Hp as [Hp ?]).
  unfold Demo.template, Demo.or_else, Demo.interpolate.
  destruct (timeCommitment p) as [| | | |t| |]; try discriminate.
  destruct t as [|c t]; cbn [truthy ToString obind]; eexists; reflexivity.
Qed.

Variable syllabus_text : jsstring.
Variable syllabus : value.
Hypothesis Hparse : Reference.JSON_parse (normalize syllabus_text) = Some syllabus.
Hypothesis Hshape : valid_syllabus syllabus = true.

Lemma answer_responsive (store : CourseCreate -> option value) :
  responsive (Demo.runtime (fun _ prompt => Demo.answer syllabus_text prompt) store).
Proof.
  constructor.
  - intros topic p Ht Hp n.
    destruct (template_text "syllabus|" topic p Ht Hp) as [rest Hrest].
    exists (lit "syllabus|" ++ rest), syllabus.
    split; [exact Hrest|]. split; [exact Hparse | exact Hshape].
  - intros title p Ht Hp n.
    destruct (template_text "context|" title p Ht Hp) as [rest Hrest].
    eexists. eexists. split; [exact Hrest|]. split; vm_compute; reflexivity.
  - intros ctx p Hctx Hp n.
    unfold valid_context in Hctx.
    apply andb_true_iff in Hctx. destruct Hctx as [Hctx _].
    apply andb_true_iff in Hctx. destruct Hctx as [Hobj Htitle].
    destruct (template_text "sections|" (field ctx "title") p Htitle Hp) as [rest Hrest].
    eexists. eexists. split.
    + cbn [getAllSectionsContentPrompt Demo.runtime].
      rewrite (field_get ctx "title" (is_obj_defined _ Hobj)). exact Hrest.
    + split; vm_compute; reflexivity.
  - intros title blocks p Ht Hp n.
    destruct (template_text "quiz|" title p Ht Hp) as [rest Hrest].
    eexists. eexists. split; [exact Hrest|]. split; vm_compute; reflexivity.
  - intros topic p Ht Hp n.
    destruct (template_text "postcourse|" topic p Ht Hp) as [rest Hrest].
    eexists. eexists. split; [exact Hrest|]. split; vm_compute; reflexivity.
Qed.

Lemma steady_responsive : responsive (Demo.steady syllabus_text).
Proof. apply answer_responsive. Qed.

Lemma steady_store_accepts : store_accepts (Demo.steady syllabus_text).
Proof. intros data. eexists. eexists. split; reflexivity. Qed.

End DemoAnswers.



(** ** C6, as the code has it *)




(* ================================================================== *)
(** * The time budgets *)

Section Budgets.

Variable R : Runtime.

Lemma time_budgets_inv (timeCommitment syllabusJson : value) (b : Budgets) :
  time_budgets R timeCommitment syllabusJson = Ok b ->
  exists hours lessons n,
    ToNumber (Number_toString R) timeCommitment = Ok hours
    /\ get syllabusJson (lit "lessons") = Ok lessons
    /\ get lessons (lit "length") = Ok (numberOfLessons b)
    /\ ToNumber (Number_toString R) (numberOfLessons b) = Ok n
    /\ totalTimeMinutes b = (hours * sixty)%float
    /\ lessonTimePerLesson b = (totalTimeMinutes b * eight_tenths / n)%float
    /\ quizTimePerLesson b = (totalTimeMinutes b * two_tenths / n)%float.
Proof.
  unfold time_budgets. intros H.
  destruct (ToNumber (Number_toString R) timeCommitment) as [hours|] eqn:Eh; [|discriminate].
  cbn [obind] in H.
  destruct (get syllabusJson (lit "lessons")) as [lessons|] eqn:El; [|discriminate].
  cbn [obind] in H.
  destruct (get lessons (lit "length")) as [count|] eqn:Ec; [|discriminate].
  cbn [obind] in H.
  destruct (ToNumber (Number_toString R) count) as [n|] eqn:En; [|discriminate].
  cbn [obind] in H. inversion H; subst b. clear H.
  exists hours, lessons, n.
  cbn [totalTimeMinutes numberOfLessons lessonTimePerLesson quizTimePerLesson].
  repeat split; assumption.
Qed.

(** A destructuring default applies to a property that is not there. *)
Lemma timeCommitment_default (v : value) (p : Personalization) :
  destructure_personalization v = Ok p ->
  get v (lit "timeCommitment") = Ok VUndefined ->
  timeCommitment p = VStr [].
Proof.
  unfold destructure_personalization. intros H Hmissing.
  destruct (get v (lit "level")); [|discriminate].
  destruct (get v (lit "preferredTopics")); [|discriminate].
  destruct (get v (lit "dislikedTopics")); [|discriminate].
  destruct (get v (lit "goal")); [|discriminate].
  rewrite Hmissing in H.
  destruct (get v (lit "learningStyle")); [|discriminate].
  cbn [obind default_to] in H. inversion H. reflexivity.
Qed.

(** What the generation stages did when they ran through. *)
Lemma generate_course_inv (message : jsstring) (w w' : World) (g : Generated) :
  generate_course R message w = (Ok g, w') ->
  exists req b lessonObjs,
    destructure_request R message = Ok req
    /\ time_budgets R (timeCommitment (personalization req)) (g_syllabusJson g) = Ok b
    /\ obind (get (g_syllabusJson g) (lit "lessons")) iterate = Ok lessonObjs
    /\ Forall2 (lesson_generated R (personalization req)
                  (lessonTimePerLesson b) (quizTimePerLesson b))
         lessonObjs (g_lessons g).
Proof.
  unfold generate_course. intros H.
  apply lift_inv_ok in H. destruct H as (req & Hreq & H).
  destruct (negb (truthy (topic req)) || negb (truthy (userId req)));
    [discriminate H|].
  apply lift_inv_ok in H. destruct H as (key & _ & H).
  apply bind_inv_ok in H. destruct H as ([] & w1 & _ & H).
  apply bind_inv_ok in H. destruct H as ([] & w2 & _ & H).
  apply lift_inv_ok in H. destruct H as (sp & _ & H).
  apply bind_inv_ok in H. destruct H as (syl & w3 & _ & H).
  apply lift_inv_ok in H. destruct H as (b & Hb & H).
  apply bind_inv_ok in H. destruct H as ([] & w4 & _ & H).
  apply lift_inv_ok in H. destruct H as (lessonObjs & Hobjs & H).
  apply bind_inv_ok in H. destruct H as (lessons & w5 & Hloop & H).
  apply bind_inv_ok in H. destruct H as ([] & w6 & _ & H).
  apply lift_inv_ok in H. destruct H as (pp & _ & H).
  apply bind_inv_ok in H. destruct H as (post & w7 & _ & H).
  unfold ret in H. inversion H; subst g w'. clear H.
  cbn [g_syllabusJson g_lessons].
  apply lesson_loop_inv in Hloop. destruct Hloop as (made & Hout & Hmade).
  cbn [app] in Hout. subst made.
  exists req, b, lessonObjs. repeat split; assumption.
Qed.

End Budgets.

(** ** C2, as the code has it *)

(** C2, counterexample: for a time commitment that does not read as a
    number, [totalTimeMinutes] is [NaN], not 0. *)
Lemma C2_unparseable_is_not_zero :
  ~ (forall (R : Runtime) (s : jsstring) (syllabusJson : value) (b : Budgets),
       StringToNumber s = nan ->
       time_budgets R (VStr s) syllabusJson = Ok b ->
       totalTimeMinutes b = zero).
Proof.
  intros H.
  specialize (H (Demo.steady Demo.lessons5) (lit "a few hours")
                (Demo.parsed Demo.lessons5)
                {| totalTimeMinutes := nan; numberOfLessons := VNum 5%float;
                   lessonTimePerLesson := nan; quizTimePerLesson := nan |}).
  assert (Hnan : nan = zero).
  { apply H; vm_compute; reflexivity. }
  discriminate Hnan.
Qed.

(** C2, amended: whenever the stages run through, [totalTimeMinutes] is
    [Number(timeCommitment) * 60], [lessonTimePerLesson] is
    [totalTimeMinutes * 0.8] divided by the syllabus lesson count and
    [quizTimePerLesson] is [totalTimeMinutes * 0.2] divided by it, and every
    lesson's context and section prompts are built with the first and its
    quiz prompt with the second.  [totalTimeMinutes] is 0 when
    [timeCommitment] is unset, the default being the empty text, and it is
    [NaN], not 0, when the text does not read as a number.  For ["10"] and
    five lessons the budgets are 96 and 24. *)
Theorem C2_time_budgets (R : Runtime) (message : jsstring) (w w' : World) (g : Generated)
    (Hrun : generate_course R message w = (Ok g, w')) :
  (exists req b hours lessons n lessonObjs,
      destructure_request R message = Ok req
      /\ ToNumber (Number_toString R) (timeCommitment (personalization req)) = Ok hours
      /\ get (g_syllabusJson g) (lit "lessons") = Ok lessons
      /\ get lessons (lit "length") = Ok (numberOfLessons b)
      /\ ToNumber (Number_toString R) (numberOfLessons b) = Ok n
      /\ totalTimeMinutes b = (hours * sixty)%float
      /\ lessonTimePerLesson b = (totalTimeMinutes b * eight_tenths / n)%float
      /\ quizTimePerLesson b = (totalTimeMinutes b * two_tenths / n)%float
      /\ iterate lessons = Ok lessonObjs
      /\ Forall2 (lesson_generated R (personalization req)
                    (lessonTimePerLesson b) (quizTimePerLesson b))
           lessonObjs (g_lessons g)
      /\ (timeCommitment (personalization req) = VStr [] -> totalTimeMinutes b = zero)
      /\ (forall s, timeCommitment (personalization req) = VStr s ->
                    StringToNumber s = nan -> totalTimeMinutes b = nan))
  /\ (forall v p, destructure_personalization v = Ok p ->
                  get v (lit "timeCommitment") = Ok VUndefined ->
                  timeCommitment p = VStr [])
  /\ (forall syllabusJson lessonObjs,
        get syllabusJson (lit "lessons") = Ok (VArr lessonObjs) ->
        length lessonObjs = 5 ->
        time_budgets R (VStr (lit "10")) syllabusJson
        = Ok {| totalTimeMinutes := 600%float; numberOfLessons := VNum 5%float;
                lessonTimePerLesson := 96%float; quizTimePerLesson := 24%float |}).
Proof.
  split; [|split].
  - destruct (generate_course_inv R message w w' g Hrun)
      as (req & b & lessonObjs & Hreq & Hb & Hobjs & Hlessons).
    destruct (time_budgets_inv R _ _ b Hb)
      as (hours & lessons & n & Hhours & Hget & Hcount & Hn & Htotal & Hlt & Hqt).
    rewrite Hget in Hobjs. cbn [obind] in Hobjs.
    exists req, b, hours, lessons, n, lessonObjs.
    do 10 (split; [assumption|]).
    split.
    + intros Hunset. rewrite Hunset in Hhours. cbn [ToNumber] in Hhours.
      inversion Hhours; subst hours. rewrite Htotal. reflexivity.
    + intros s Hs Hnan. rewrite Hs in Hhours. cbn [ToNumber] in Hhours.
      inversion Hhours; subst hours. rewrite Htotal, Hnan. reflexivity.
  - apply timeCommitment_default.
  - intros syllabusJson lessonObjs Hget Hlen.
    rewrite (time_budgets_defined R (lit "10") syllabusJson lessonObjs Hget), Hlen.
    vm_compute. reflexivity.
Qed.

(** C2, witness: the example request, ten hours, and a syllabus of five
    lessons. *)
Lemma C2_time_budgets_witness :
  let R := Demo.steady Demo.lessons5 in
  exists b lessonObjs,
    totalTimeMinutes b = 600%float
    /\ lessonTimePerLesson b = 96%float
    /\ quizTimePerLesson b = 24%float
    /\ length lessonObjs = 5
    /\ Forall2 (lesson_generated R (personalization Demo.destructured)
                  (lessonTimePerLesson b) (quizTimePerLesson b))
         lessonObjs (g_lessons (Demo.generated R Demo.request)).
Proof.
  intros R.
  assert (Hrun : generate_course R Demo.request fresh
                 = (Ok (Demo.generated R Demo.request),
                    snd (generate_course R Demo.request fresh)))
    by (vm_compute; reflexivity).
  destruct (C2_time_budgets R Demo.request fresh _ _ Hrun)
    as ((req & b & hours & lessons & n & lessonObjs & Hreq & Hhours & Hget & Hcount
         & Hn & Htotal & Hlt & Hqt & Hobjs & Hlessons & _) & _ & _).
  vm_compute in Hreq. inversion Hreq; subst req. clear Hreq.
  vm_compute in Hhours. inversion Hhours; subst hours. clear Hhours.
  vm_compute in Hget. inversion Hget; subst lessons. clear Hget.
  cbn [iterate] in Hobjs. inversion Hobjs; subst lessonObjs. clear Hobjs.
  match type of Hcount with
  | ?read = _ =>
      assert (Hfive : read = Ok (VNum 5%float)) by (vm_compute; reflexivity)
  end.
  rewrite Hfive in Hcount. inversion Hcount as [Hcount']. clear Hcount Hfive.
  rewrite <- Hcount' in Hn. cbn [ToNumber] in Hn. inversion Hn; subst n. clear Hn.
  exists b. eexists.
  split; [rewrite Htotal; vm_compute; reflexivity|].
  split; [rewrite Hlt, Htotal; vm_compute; reflexivity|].
  split; [rewrite Hqt, Htotal; vm_compute; reflexivity|].
  split; [|exact Hlessons]. reflexivity.
Defined.

(* ================================================================== *)
(** * Further properties of the code *)

(** ** The normalisation chain *)

Local Abbreviation all_blank g := (Forall (fun c : N => is_ws c = true) g).
Local Abbreviation all_prose x :=
  (Forall (fun c : N => is_opening c = false /\ not_backtick c = true) x).

Section ChainFacts.

Lemma trimStart_fixed (s : jsstring) : opens s -> trimStart s = s.
Proof.
  destruct s as [|c r]; [reflexivity|]. cbn [opens trimStart]. intros H.
  rewrite (opening_not_ws _ H). reflexivity.
Qed.

Lemma trimEnd_blank (g : jsstring) : all_blank g -> trimEnd g = [].
Proof.
  induction 1 as [|c r Hc Hr IH]; [reflexivity|].
  cbn [trimEnd]. rewrite IH, Hc. reflexivity.
Qed.

Lemma trimEnd_app_blank (b g : jsstring) : all_blank g -> trimEnd (b ++ g) = trimEnd b.
Proof.
  intros Hg. induction b as [|c r IH]; cbn [app].
  - apply trimEnd_blank. exact Hg.
  - cbn [trimEnd]. rewrite IH. reflexivity.
Qed.

Lemma trimStart_blank_app (g s : jsstring) : all_blank g -> trimStart (g ++ s) = trimStart s.
Proof.
  induction 1 as [|c r Hc Hr IH]; [reflexivity|].
  cbn [app trimStart]. rewrite Hc. exact IH.
Qed.

Lemma trimEnd_trimStart (z : jsstring) : trimEnd (trimStart z) = trimStart (trimEnd z).
Proof.
  induction z as [|c r IH]; [reflexivity|].
  cbn [trimStart]. destruct (is_ws c) eqn:Hc.
  - cbn [trimEnd]. destruct (trimEnd r) as [|d r'] eqn:E.
    + rewrite Hc, IH. reflexivity.
    + rewrite IH. cbn [trimStart]. rewrite Hc. reflexivity.
  - rewrite (trimEnd_cons _ _ Hc). cbn [trimStart]. rewrite Hc. reflexivity.
Qed.

Lemma trimStart_strip_control (x : jsstring) :
  trimStart (strip_control (trimStart x)) = trimStart (strip_control x).
Proof.
  unfold strip_control. induction x as [|c r IH]; [reflexivity|].
  cbn [trimStart]. destruct (is_ws c) eqn:Hc; [|reflexivity].
  rewrite IH. cbn [filter]. destruct (keeps c); [|reflexivity].
  cbn [trimStart]. rewrite Hc. reflexivity.
Qed.

Lemma trimEnd_strip_control (x : jsstring) :
  trimEnd (strip_control (trimEnd x)) = trimEnd (strip_control x).
Proof.
  unfold strip_control. induction x as [|c r IH]; [reflexivity|].
  cbn [trimEnd]. destruct (trimEnd r) as [|d r'] eqn:E.
  - cbn [filter] in IH. cbn [trimEnd] in IH.
    cbn [filter]. destruct (keeps c) eqn:Hk.
    + cbn [trimEnd]. rewrite <- IH.
      destruct (is_ws c) eqn:Hc; [reflexivity|].
      cbn [filter]. rewrite Hk. cbn [trimEnd]. rewrite Hc. reflexivity.
    + rewrite <- IH. destruct (is_ws c); [reflexivity|].
      cbn [filter]. rewrite Hk. reflexivity.
  - cbn [filter]. cbn [filter] in IH. destruct (keeps c) eqn:Hk.
    + cbn [trimEnd]. rewrite IH. reflexivity.
    + exact IH.
Qed.

Lemma trim_strip_control (x : jsstring) :
  trim (strip_control (trim x)) = trim (strip_control x).
Proof.
  unfold trim.
  rewrite (trimEnd_trimStart (strip_control _)), trimEnd_strip_control.
  rewrite <- trimEnd_trimStart, trimStart_strip_control. reflexivity.
Qed.

End ChainFacts.

Section FenceFacts.

Lemma Forall_filter_kept {A} (P : A -> Prop) (f : A -> bool) (l : list A) :
  Forall P l -> Forall P (filter f l).
Proof.
  induction 1 as [|x r Hx Hr IH]; cbn [filter]; [constructor|].
  destruct (f x); [constructor; assumption | assumption].
Qed.

Lemma fence_prefix_app (x r : jsstring) :
  is_prefix fence (x ++ r) = true ->
  is_prefix fence x = true \/ (x <> [] -> last x 0%N = 96%N).
Proof.
  change fence with [96; 96; 96]%N.
  destruct x as [|a [|b [|c x]]]; cbn [app]; intros H.
  - right. intros Hne. contradiction.
  - right. intros _. cbn [last]. cbn [is_prefix] in H.
    apply andb_true_iff in H. destruct H as [H _]. apply N.eqb_eq in H. auto.
  - right. intros _. cbn [last]. cbn [is_prefix] in H.
    apply andb_true_iff in H. destruct H as [_ H].
    apply andb_true_iff in H. destruct H as [H _]. apply N.eqb_eq in H. auto.
  - left. cbn [is_prefix] in *.
    destruct (96 =? a)%N; [|discriminate H].
    destruct (96 =? b)%N; [|discriminate H].
    destruct (96 =? c)%N; [|discriminate H]. reflexivity.
Qed.

(** The scan leaves alone a stretch that holds no fence marker and does
    not end with a backtick, whatever follows it. *)
Lemma strip_fences_app (b r : jsstring) :
  has_fence b = false -> last b 0%N <> 96%N ->
  strip_fences_from 0 (b ++ r) = b ++ strip_fences_from 0 r.
Proof.
  induction b as [|c b' IH]; intros Hf Hl; [reflexivity|].
  cbn [has_fence] in Hf. apply orb_false_iff in Hf. destruct Hf as [Hp Hr].
  assert (Hno : is_prefix fence ((c :: b') ++ r) = false).
  { destruct (is_prefix fence ((c :: b') ++ r)) eqn:E; [|reflexivity].
    destruct (fence_prefix_app _ _ E) as [H|H]; [congruence|].
    exfalso. apply Hl, H. discriminate. }
  cbn [app] in *. cbn [strip_fences_from].
  destruct (is_prefix fence_json (c :: b' ++ r)) eqn:Ej.
  - apply is_prefix_fence_json in Ej. congruence.
  - rewrite Hno. f_equal. apply IH; [exact Hr|].
    destruct b' as [|d b'']; [cbn [last]; discriminate|exact Hl].
Qed.

Lemma no_backtick_no_fence (x : jsstring) :
  Forall (fun c => not_backtick c = true) x ->
  has_fence x = false /\ last x 0%N <> 96%N.
Proof.
  induction 1 as [|c r Hc Hr [IHf IHl]]; [split; [reflexivity | discriminate]|].
  assert (Hne : c <> 96%N).
  { intros ->. discriminate Hc. }
  split.
  - cbn [has_fence]. rewrite IHf.
    change fence with [96; 96; 96]%N. cbn [is_prefix].
    destruct (N.eqb_spec 96 c) as [E|E]; [congruence | reflexivity].
  - destruct r as [|d r']; [exact Hne | exact IHl].
Qed.

Lemma strip_fences_fence_json (r : jsstring) :
  strip_fences_from 0 (fence_json ++ r) = strip_fences_from 0 r.
Proof. reflexivity. Qed.

Lemma strip_fences_fence (r : jsstring) :
  is_prefix (lit "json") r = false ->
  strip_fences_from 0 (fence ++ r) = strip_fences_from 0 r.
Proof.
  intros H.
  change (fence ++ r) with (96 :: 96 :: 96 :: r)%N.
  cbn [strip_fences_from].
  assert (Ej : is_prefix fence_json (96 :: 96 :: 96 :: r)%N = false).
  { change fence_json with ([96; 96; 96]%N ++ lit "json").
    cbn [app is_prefix]. rewrite !N.eqb_refl. cbn [andb]. exact H. }
  rewrite Ej. reflexivity.
Qed.

Lemma strip_preamble_app (x s : jsstring) :
  Forall (fun c => is_opening c = false) x ->
  strip_preamble (x ++ s) = strip_preamble s.
Proof.
  induction 1 as [|c r Hc Hr IH]; [reflexivity|].
  cbn [app strip_preamble]. rewrite Hc. exact IH.
Qed.

Lemma ws_not_opening (c : N) : is_ws c = true -> is_opening c = false.
Proof.
  intros H. destruct (is_opening c) eqn:E; [|reflexivity].
  rewrite (opening_not_ws _ E) in H. discriminate H.
Qed.

Lemma ws_not_backtick (c : N) : is_ws c = true -> not_backtick c = true.
Proof.
  intros H. unfold not_backtick.
  destruct (N.eqb_spec c 96) as [->|]; [discriminate H | reflexivity].
Qed.

Lemma closing_not_ws (c : N) : is_closing c = true -> is_ws c = false.
Proof.
  unfold is_closing. intros H.
  apply orb_true_iff in H. destruct H as [H|H]; apply N.eqb_eq in H; subst; reflexivity.
Qed.

Lemma closing_not_backtick (c : N) : is_closing c = true -> c <> 96%N.
Proof. intros H ->. discriminate H. Qed.

Lemma trimEnd_snoc (r : jsstring) (c : N) :
  is_ws c = false -> trimEnd (r ++ [c]) = r ++ [c].
Proof.
  intros Hc. induction r as [|d r IH]; cbn [app].
  - cbn [trimEnd]. rewrite Hc. reflexivity.
  - cbn [trimEnd]. rewrite IH. destruct (r ++ [c]) eqn:E; [|reflexivity].
    destruct r; discriminate E.
Qed.

Lemma last_snoc (r : jsstring) (c : N) : last (r ++ [c]) 0%N = c.
Proof. apply last_last. Qed.

End FenceFacts.

Section ParserFacts.

(** Closes a goal whose hypothesis matches a code unit against literals
    none of which it is. *)
Ltac other_unit H :=
  repeat first
    [ discriminate H
    | congruence
    | match goal with p : positive |- _ => destruct p end ].

Lemma members_obj (parse_one : jsstring -> option (value * jsstring)) (fuel : nat) :
  forall s acc v r,
    Reference.members parse_one fuel s acc = Some (v, r) -> is_obj v = true.
Proof.
  induction fuel as [|fuel IH]; intros s acc v r H; [discriminate H|].
  cbn [Reference.members] in H.
  destruct (Reference.skip_ws s) as [|c s1]; [discriminate H|].
  destruct (N.eqb_spec c 34) as [->|Hc];
    [|exfalso; destruct c; other_unit H].
  destruct (Reference.string_body (length s1) s1) as [[k r1]|]; [|discriminate H].
  destruct (Reference.skip_ws r1) as [|c1 r2]; [discriminate H|].
  destruct (N.eqb_spec c1 58) as [->|Hc1];
    [|exfalso; destruct c1; other_unit H].
  destruct (parse_one r2) as [[v1 r3]|]; [|discriminate H].
  destruct (Reference.skip_ws r3) as [|c3 r4]; [discriminate H|].
  destruct (N.eqb_spec c3 44) as [->|H44]; [exact (IH _ _ _ _ H)|].
  destruct (N.eqb_spec c3 125) as [->|H125]; [inversion H; reflexivity|].
  exfalso; destruct c3; other_unit H.
Qed.

Lemma elements_arr (parse_one : jsstring -> option (value * jsstring)) (fuel : nat) :
  forall s acc v r,
    Reference.elements parse_one fuel s acc = Some (v, r) -> exists elems, v = VArr elems.
Proof.
  induction fuel as [|fuel IH]; intros s acc v r H; [discriminate H|].
  cbn [Reference.elements] in H.
  destruct (parse_one s) as [[v1 r1]|]; [|discriminate H].
  destruct (Reference.skip_ws r1) as [|c r2]; [discriminate H|].
  destruct (N.eqb_spec c 44) as [->|H44]; [exact (IH _ _ _ _ H)|].
  destruct (N.eqb_spec c 93) as [->|H93]; [inversion H; eexists; reflexivity|].
  exfalso; destruct c; other_unit H.
Qed.

(** What [JSON.parse] makes of a text that starts with an opening brace
    or bracket is an object or an array. *)
Lemma parse_opening (c : N) (r : jsstring) (v : value) :
  is_opening c = true ->
  Reference.JSON_parse (c :: r) = Some v ->
  is_obj v = true \/ exists elems, v = VArr elems.
Proof.
  intros Hc H. unfold Reference.JSON_parse in H.
  destruct (Reference.parse_value (S (length (c :: r))) (c :: r)) as [[v0 rest]|] eqn:E;
    [|discriminate H].
  destruct (Reference.skip_ws rest); [|discriminate H].
  inversion H; subst v0. clear H.
  cbn [Reference.parse_value] in E.
  unfold is_opening in Hc. apply orb_true_iff in Hc.
  destruct Hc as [Hc|Hc]; apply N.eqb_eq in Hc; subst c.
  - left. change (Reference.skip_ws (123%N :: r)) with (123%N :: r) in E.
    cbv iota in E.
    destruct (Reference.skip_ws r) as [|d r1].
    + exact (members_obj _ _ _ _ _ _ E).
    + destruct d;
        repeat first
          [ exact (members_obj _ _ _ _ _ _ E)
          | match goal with p : positive |- _ => destruct p end
          | (inversion E; reflexivity) ].
  - right. change (Reference.skip_ws (91%N :: r)) with (91%N :: r) in E.
    cbv iota in E.
    destruct (Reference.skip_ws r) as [|d r1].
    + exact (elements_arr _ _ _ _ _ _ E).
    + destruct d;
        repeat first
          [ exact (elements_arr _ _ _ _ _ _ E)
          | match goal with p : positive |- _ => destruct p end
          | (inversion E; eexists; reflexivity) ].
Qed.

End ParserFacts.

(** X4: what [JSON.parse] makes of a normalised text is an object or an
    array: an answer that is a bare string, number, boolean or [null] never
    parses, because the chain drops everything before the first opening
    brace or bracket. *)
Theorem X4_only_objects_and_arrays_parse (raw : jsstring) (v : value)
    (Hparse : Reference.JSON_parse (normalize raw) = Some v) :
  (exists props, v = VObj props) \/ (exists elems, v = VArr elems).
Proof.
  destruct (normalize_shape raw) as (Ho & _ & _).
  destruct (normalize raw) as [|c r]; [discriminate Hparse|].
  destruct (parse_opening c r v Ho Hparse) as [H|H]; [left | right; exact H].
  destruct v; try discriminate H. eexists; reflexivity.
Qed.

(** X4, witness: a syllabus introduced by a sentence. *)
Lemma X4_only_objects_and_arrays_parse_witness :
  (exists props, Demo.parsed Demo.lessons5 = VObj props)
  \/ (exists elems, Demo.parsed Demo.lessons5 = VArr elems).
Proof.
  apply (X4_only_objects_and_arrays_parse Demo.lessons5). vm_compute. reflexivity.
Defined.

(** X1: whatever the backend returned, the normalised text is empty or
    starts with an opening brace or bracket, holds no control character
    other than the line feed and the tab (so no carriage return and no
    null), and has no whitespace at either end. *)
Theorem X1_normalized_text_shape (raw : jsstring) :
  opens (normalize raw)
  /\ Forall (fun c => is_control c = false \/ c = 10%N \/ c = 9%N) (normalize raw)
  /\ trim (normalize raw) = normalize raw.
Proof.
  destruct (normalize_shape raw) as (Ho & Hk & Ht).
  split; [exact Ho|]. split.
  - eapply Forall_impl; [|exact Hk].
    intros c H. unfold keeps in H.
    destruct (is_control c); [|left; reflexivity].
    right. cbn [negb orb] in H. apply orb_true_iff in H.
    destruct H as [H|H]; apply N.eqb_eq in H; auto.
  - unfold trim. rewrite (trimStart_fixed _ Ho). exact Ht.
Qed.

(** X2: the chain leaves a text as it is exactly when the text is empty
    or starts with an opening brace or bracket, holds only code units the
    control-character filter keeps, does not end with whitespace and holds
    no run of three backticks. *)
Theorem X2_normalize_fixed_points (s : jsstring) :
  normalize s = s
  <-> opens s /\ Forall (fun c => keeps c = true) s /\ trimEnd s = s
      /\ has_fence s = false.
Proof.
  split.
  - intros Heq. destruct (normalize_shape s) as (Ho & Hk & Ht).
    rewrite Heq in Ho, Hk, Ht. repeat split; try assumption.
    destruct (has_fence s) eqn:Hf; [|reflexivity]. exfalso.
    pose proof (strip_fences_shrinks _ Hf) as Hlt.
    pose proof (normalize_length s) as Hle.
    rewrite Heq in Hle. lia.
  - intros (Ho & Hk & Ht & Hf). apply normalize_fixed; assumption.
Qed.

Section Unwrapping.

Lemma prose_Forall (x : jsstring) : prose x = true -> all_prose x.
Proof.
  unfold prose. intros H. apply Forall_forall. intros c Hc.
  pose proof (proj1 (forallb_forall _ _) H c Hc) as Hx.
  apply andb_true_iff in Hx. destruct Hx as [Ho Hb].
  split; [|exact Hb]. apply negb_true_iff in Ho. exact Ho.
Qed.

Lemma blank_Forall (g : jsstring) : blank g = true -> all_blank g.
Proof.
  unfold blank. intros H. apply Forall_forall. intros c Hc.
  exact (proj1 (forallb_forall _ _) H c Hc).
Qed.

Lemma last_decompose (s : jsstring) : s <> [] -> s = removelast s ++ [last s 0%N].
Proof. intros H. apply app_removelast_last. exact H. Qed.

Lemma bare_parts (s : jsstring) :
  bare s = true ->
  (exists c r, s = c :: r /\ is_opening c = true)
  /\ (exists r c, s = r ++ [c] /\ is_closing c = true)
  /\ Forall (fun c => keeps c = true) s
  /\ has_fence s = false.
Proof.
  unfold bare. intros H.
  apply andb_true_iff in H. destruct H as [H Hf].
  apply andb_true_iff in H. destruct H as [H Hk].
  apply andb_true_iff in H. destruct H as [Ho Hc].
  split; [|split; [|split]].
  - destruct s as [|c r]; [discriminate Ho|]. exists c, r. split; [reflexivity | exact Ho].
  - exists (removelast s), (last s 0%N). split; [|exact Hc].
    apply last_decompose. intros ->. discriminate Ho.
  - apply Forall_forall. intros c Hin. exact (proj1 (forallb_forall _ _) Hk c Hin).
  - destruct (has_fence s); [discriminate Hf | reflexivity].
Qed.

Lemma blank_prose (g : jsstring) : all_blank g -> all_prose g.
Proof.
  intros H. eapply Forall_impl; [|exact H].
  intros c Hc. split; [apply ws_not_opening | apply ws_not_backtick]; exact Hc.
Qed.

Lemma prose_scan (x r : jsstring) :
  all_prose x -> strip_fences_from 0 (x ++ r) = x ++ strip_fences_from 0 r.
Proof.
  intros H.
  assert (Hb : Forall (fun c => not_backtick c = true) x).
  { eapply Forall_impl; [|exact H]. intros c [_ Hc]. exact Hc. }
  destruct (no_backtick_no_fence x Hb) as [Hf Hl].
  apply strip_fences_app; assumption.
Qed.

Lemma not_json_after (g r : jsstring) :
  all_blank g -> opens r -> is_prefix (lit "json") (g ++ r) = false.
Proof.
  intros Hg Hr. destruct Hg as [|c g' Hc _].
  - destruct r as [|c r']; [reflexivity|]. cbn [opens] in Hr. cbn [app].
    change (lit "json") with [106; 115; 111; 110]%N. cbn [is_prefix].
    destruct (N.eqb_spec 106 c) as [<-|]; [discriminate Hr | reflexivity].
  - cbn [app]. change (lit "json") with [106; 115; 111; 110]%N. cbn [is_prefix].
    destruct (N.eqb_spec 106 c) as [<-|]; [discriminate Hc | reflexivity].
Qed.

Variables pre gap1 body gap2 gap3 : jsstring.
Hypothesis Hpre : all_prose pre.
Hypothesis Hgap1 : all_blank gap1.
Hypothesis Hgap2 : all_blank gap2.
Hypothesis Hgap3 : all_blank gap3.
Hypothesis Hbody : bare body = true.

Lemma body_scan (r : jsstring) :
  strip_fences_from 0 (body ++ r) = body ++ strip_fences_from 0 r.
Proof.
  destruct (bare_parts _ Hbody) as (_ & (r0 & c & Hlast & Hc) & _ & Hf).
  apply strip_fences_app; [exact Hf|].
  rewrite Hlast, last_snoc. apply closing_not_backtick. exact Hc.
Qed.

(** Without markers the chain drops what stands around the payload. *)
Lemma unfenced :
  strip_fences (pre ++ gap1 ++ body ++ gap2 ++ gap3)
  = pre ++ gap1 ++ body ++ gap2 ++ gap3
  /\ normalize (pre ++ gap1 ++ body ++ gap2 ++ gap3) = body.
Proof.
  assert (Hscan : strip_fences (pre ++ gap1 ++ body ++ gap2 ++ gap3)
                  = pre ++ gap1 ++ body ++ gap2 ++ gap3).
  { unfold strip_fences.
    rewrite (prose_scan pre _ Hpre), (prose_scan gap1 _ (blank_prose _ Hgap1)).
    rewrite body_scan.
    rewrite (prose_scan gap2 _ (blank_prose _ Hgap2)).
    rewrite <- (app_nil_r gap3) at 1.
    rewrite (prose_scan gap3 _ (blank_prose _ Hgap3)). cbn [strip_fences_from].
    rewrite app_nil_r. reflexivity. }
  split; [exact Hscan|].
  unfold normalize. rewrite Hscan.
  destruct (bare_parts _ Hbody)
    as ((c & r & Hfirst & Hc) & (r0 & d & Hlast & Hd) & Hk & Hf).
  unfold strip_cr, strip_nul, strip_control. rewrite !filter_app.
  assert (Hcr : filter (fun c => negb (c =? 13)%N) body = body).
  { apply filter_all. eapply Forall_impl; [|exact Hk]. apply kept_not_cr. }
  assert (Hnul : filter (fun c => negb (c =? 0)%N) body = body).
  { apply filter_all. eapply Forall_impl; [|exact Hk]. apply kept_not_nul. }
  rewrite Hcr, Hnul.
  set (f := fun c => negb (c =? 13)%N). set (g := fun c => negb (c =? 0)%N).
  assert (Hopen : forall x, all_prose x ->
            Forall (fun c => is_opening c = false) (filter g (filter f x))).
  { intros x Hx. do 2 apply Forall_filter_kept.
    eapply Forall_impl; [|exact Hx]. intros a [Ha _]. exact Ha. }
  rewrite (strip_preamble_app _ _ (Hopen pre Hpre)).
  rewrite (strip_preamble_app _ _ (Hopen gap1 (blank_prose _ Hgap1))).
  assert (Hob : opens (body ++ filter g (filter f gap2) ++ filter g (filter f gap3))).
  { rewrite Hfirst. exact Hc. }
  rewrite (strip_preamble_fixed _ Hob).
  rewrite !filter_app. rewrite (filter_all _ _ Hk).
  rewrite <- filter_app.
  set (tail := filter keeps _).
  assert (Htail : all_blank tail).
  { unfold tail. apply Forall_filter_kept. apply Forall_app. split;
      do 2 apply Forall_filter_kept; assumption. }
  unfold trim. rewrite trimStart_fixed.
  - rewrite (trimEnd_app_blank _ _ Htail). rewrite Hlast.
    apply trimEnd_snoc, closing_not_ws, Hd.
  - rewrite Hfirst. exact Hc.
Qed.

(** The scan drops the markers around the payload and nothing else. *)
Lemma fenced_scan (f1 f2 : jsstring) :
  opening_marker f1 = true -> closing_marker f2 = true ->
  strip_fences (pre ++ f1 ++ gap1 ++ body ++ gap2 ++ f2 ++ gap3)
  = pre ++ gap1 ++ body ++ gap2 ++ gap3.
Proof.
  intros H1 H2. unfold strip_fences.
  assert (Hclose : strip_fences_from 0 (f2 ++ gap3) = gap3).
  { assert (Hg : strip_fences_from 0 gap3 = gap3).
    { rewrite <- (app_nil_r gap3) at 1.
      rewrite (prose_scan gap3 _ (blank_prose _ Hgap3)). apply app_nil_r. }
    unfold closing_marker in H2. apply orb_true_iff in H2.
    destruct H2 as [H2|H2]; apply eqb_eq in H2; subst f2; [exact Hg|].
    rewrite strip_fences_fence; [exact Hg|].
    rewrite <- (app_nil_r gap3). apply not_json_after; [exact Hgap3 | exact I]. }
  assert (Hinner : strip_fences_from 0 (gap1 ++ body ++ gap2 ++ f2 ++ gap3)
                   = gap1 ++ body ++ gap2 ++ gap3).
  { rewrite (prose_scan gap1 _ (blank_prose _ Hgap1)), body_scan.
    rewrite (prose_scan gap2 _ (blank_prose _ Hgap2)), Hclose. reflexivity. }
  rewrite (prose_scan pre _ Hpre). f_equal.
  unfold opening_marker in H1. apply orb_true_iff in H1.
  destruct H1 as [H1|H1]; [apply orb_true_iff in H1; destruct H1 as [H1|H1]|];
    apply eqb_eq in H1; subst f1.
  - exact Hinner.
  - rewrite strip_fences_fence; [exact Hinner|].
    apply not_json_after; [exact Hgap1|].
    destruct (bare_parts _ Hbody) as ((c & r & -> & Hc) & _). exact Hc.
  - rewrite strip_fences_fence_json. exact Hinner.
Qed.

End Unwrapping.

(** X3: the repair the chain is there for.  A bare JSON text that is
    wrapped in prose without braces, brackets or backticks, in whitespace,
    and in a code fence (or in none) normalises to the bare text. *)
Theorem X3_fenced_payload_unwrapped (pre f1 gap1 body gap2 f2 gap3 : jsstring)
    (Hpre : prose pre = true)
    (Hf1 : opening_marker f1 = true)
    (Hgap1 : blank gap1 = true)
    (Hbody : bare body = true)
    (Hgap2 : blank gap2 = true)
    (Hf2 : closing_marker f2 = true)
    (Hgap3 : blank gap3 = true) :
  normalize (pre ++ f1 ++ gap1 ++ body ++ gap2 ++ f2 ++ gap3) = body.
Proof.
  pose proof (prose_Forall _ Hpre) as Ppre.
  pose proof (blank_Forall _ Hgap1) as P1.
  pose proof (blank_Forall _ Hgap2) as P2.
  pose proof (blank_Forall _ Hgap3) as P3.
  destruct (unfenced pre gap1 body gap2 gap3 Ppre P1 P2 P3 Hbody) as [Hscan Hnorm].
  rewrite <- Hnorm at 2. unfold normalize.
  rewrite (fenced_scan pre gap1 body gap2 gap3 Ppre P1 P2 P3 Hbody f1 f2 Hf1 Hf2).
  rewrite Hscan. reflexivity.
Qed.

(** X3, witness: the answer of the context stage of the example runs, in a
    [json] fence. *)
Lemma X3_fenced_payload_unwrapped_witness :
  normalize Demo.context_text
  = Demo.json "{'title':'From the context stage','objective':'Understand it','sections':[{'title':'Intro','description':'d'}]}".
Proof.
  apply (X3_fenced_payload_unwrapped [] fence_json [10%N] _ [10%N] fence []);
    vm_compute; reflexivity.
Defined.

(** X5: the chain of [src/index.ts] is that of the earlier copies
    followed by a second trim; some answers parse with the first and not
    with the second, a no-break space followed by a control character at
    the end being left in place by the earlier copies. *)
Theorem X5_chains_of_the_copies :
  (forall raw, normalize raw = trim (normalize_earlier raw))
  /\ exists raw,
       Reference.JSON_parse (normalize raw) = Some (VObj [])
       /\ Reference.JSON_parse (normalize_earlier raw) = None.
Proof.
  split.
  - intros raw. unfold normalize, normalize_earlier. symmetry. apply trim_strip_control.
  - exists (lit "{}" ++ [160; 1]%N). split; vm_compute; reflexivity.
Qed.

(** ** The retry loop *)

Section Trace.

Variable chain : jsstring -> jsstring.
Variable R : Runtime.
Variable prompt : jsstring.
Variable maxRetries : nat.

Lemma same_channel_refl (w : World) : same_channel w w.
Proof. repeat split. Qed.

Lemma same_channel_trans (w1 w2 w3 : World) :
  same_channel w1 w2 -> same_channel w2 w3 -> same_channel w1 w3.
Proof.
  intros (A1 & A2 & A3 & A4 & A5) (B1 & B2 & B3 & B4 & B5).
  repeat split; congruence.
Qed.

(** One run of the loop from [attempt] on, with [fuel] attempts allowed
    after it: the calls made, the warnings, the waits and the result. *)
Lemma attempts_trace (fuel : nat) :
  forall (attempt : nat) (w : World),
    attempt + fuel = maxRetries ->
    let run := attempts_from_with chain R prompt maxRetries (S fuel) attempt w in
    exists k,
      k <= fuel
      /\ backend_calls (snd run) = backend_calls w ++ repeat prompt (S k)
      /\ (forall i, i < k ->
            try_parse_with chain R (length (backend_calls w) + i) prompt = None)
      /\ timeouts (snd run) = timeouts w ++ backoff attempt k
      /\ same_channel w (snd run)
      /\ match fst run with
         | Ok v =>
             try_parse_with chain R (length (backend_calls w) + k) prompt = Some v
             /\ warnings (snd run) = warnings w ++ seq attempt k
         | Throw e =>
             e = FailedAfterAttempts maxRetries /\ k = fuel
             /\ try_parse_with chain R (length (backend_calls w) + k) prompt = None
             /\ warnings (snd run) = warnings w ++ seq attempt (S k)
         end.
Proof.
  induction fuel as [|fuel IH]; intros attempt w Hsum run.
  - destruct (try_parse_with chain R (length (backend_calls w)) prompt) as [v|] eqn:E.
    + exists 0. subst run.
      rewrite (attempts_step_ok chain R prompt maxRetries 0 attempt w v); [|lia|exact E].
      cbn [fst snd]. rewrite Nat.add_0_r, !app_nil_r.
      repeat split; try reflexivity; try lia. exact E.
    + exists 0. subst run.
      rewrite (attempts_step_fail chain R prompt maxRetries 0 attempt w); [|lia|exact E].
      replace (attempt =? maxRetries) with true by (symmetry; apply Nat.eqb_eq; lia).
      cbn [fst snd]. rewrite Nat.add_0_r, !app_nil_r.
      repeat split; try reflexivity; try lia. exact E.
  - destruct (try_parse_with chain R (length (backend_calls w)) prompt) as [v|] eqn:E.
    + exists 0. subst run.
      rewrite (attempts_step_ok chain R prompt maxRetries (S fuel) attempt w v);
        [|lia|exact E].
      cbn [fst snd]. rewrite Nat.add_0_r, !app_nil_r.
      repeat split; try reflexivity; try lia. exact E.
    + subst run.
      rewrite (attempts_step_fail chain R prompt maxRetries (S fuel) attempt w);
        [|lia|exact E].
      replace (attempt =? maxRetries) with false by (symmetry; apply Nat.eqb_neq; lia).
      destruct (IH (S attempt) (after_failure prompt attempt w)) as
        (k & Hk & Hcalls & Hnone & Hwait & Hsame & Hres); [lia|].
      set (run := attempts_from_with chain R prompt maxRetries (S fuel) (S attempt)
                    (after_failure prompt attempt w)) in *.
      exists (S k).
      assert (Hlen : length (backend_calls (after_failure prompt attempt w))
                     = S (length (backend_calls w))).
      { cbn [after_failure log_timeout log_warning log_backend_call backend_calls].
        rewrite length_app. cbn [length]. lia. }
      split; [lia|]. split.
      { rewrite Hcalls. cbn [after_failure log_timeout log_warning log_backend_call
                               backend_calls].
        rewrite <- app_assoc. reflexivity. }
      split.
      { intros i Hi. destruct i as [|i]; [rewrite Nat.add_0_r; exact E|].
        specialize (Hnone i ltac:(lia)). rewrite Hlen in Hnone.
        replace (length (backend_calls w) + S i) with (S (length (backend_calls w)) + i)
          by lia. exact Hnone. }
      split.
      { rewrite Hwait. unfold backoff. cbn [after_failure log_timeout timeouts seq map].
        rewrite <- app_assoc. reflexivity. }
      split.
      { eapply same_channel_trans; [|exact Hsame]. repeat split. }
      rewrite Hlen in Hres.
      replace (length (backend_calls w) + S k) with (S (length (backend_calls w)) + k)
        by lia.
      destruct (fst run) as [v|e].
      * destruct Hres as [Hv Hw]. split; [exact Hv|].
        rewrite Hw. cbn [after_failure log_timeout log_warning warnings seq].
        rewrite <- app_assoc. reflexivity.
      * destruct Hres as (He & Hkf & Hv & Hw).
        split; [exact He|]. split; [lia|]. split; [exact Hv|].
        rewrite Hw. cbn [after_failure log_timeout log_warning warnings seq].
        rewrite <- app_assoc. reflexivity.
Qed.

End Trace.

Lemma backoff_sum_from (n : nat) :
  forall from, list_sum (backoff from n) = 1000 * n * from + 500 * n * (n - 1).
Proof.
  unfold backoff. induction n as [|n IH]; intros from; [reflexivity|].
  change (seq from (S n)) with (from :: seq (S from) n).
  change (list_sum (map (fun a => 1000 * a) (from :: seq (S from) n)))
    with (1000 * from + list_sum (map (fun a => 1000 * a) (seq (S from) n))).
  rewrite IH. destruct n as [|n]; [lia|].
  replace (S n - 1) with n by lia. replace (S (S n) - 1) with (S n) by lia. nia.
Qed.

Lemma backoff_sum (n : nat) : list_sum (backoff 1 n) = 500 * n * (n + 1).
Proof.
  rewrite backoff_sum_from. destruct n as [|n]; [reflexivity|].
  replace (S n - 1) with n by lia. nia.
Qed.

(** X7: what a call of the structured generator can come to, whatever
    the backend does.  With [maxRetries = 0] it returns [undefined] without
    a call.  Otherwise it makes [k] calls with the same prompt,
    [1 <= k <= maxRetries], the first [k - 1] of which fail, and either
    returns what the [k]-th parses to, or [k = maxRetries], the last call
    fails too, and the error thrown is the one that carries [maxRetries]:
    the error of the backend or of the parser is never rethrown. *)
Theorem X7_generator_outcomes (R : Runtime) (prompt : jsstring) (maxRetries : nat)
    (w : World) :
  let run := generateValidJsonWithRetries R prompt maxRetries w in
  (maxRetries = 0 /\ run = (Ok VUndefined, w))
  \/ exists k,
       1 <= k <= maxRetries
       /\ backend_calls (snd run) = backend_calls w ++ repeat prompt k
       /\ (forall i, i < k - 1 ->
             try_parse R (length (backend_calls w) + i) prompt = None)
       /\ ((exists v, fst run = Ok v
                      /\ try_parse R (length (backend_calls w) + (k - 1)) prompt = Some v)
           \/ (fst run = Throw (FailedAfterAttempts maxRetries)
               /\ k = maxRetries
               /\ try_parse R (length (backend_calls w) + (k - 1)) prompt = None)).
Proof.
  intros run. destruct maxRetries as [|m]; [left; split; reflexivity|].
  right. subst run. unfold generateValidJsonWithRetries, generate_with, try_parse.
  destruct (attempts_trace normalize R prompt (S m) m 1 w ltac:(lia))
    as (k & Hk & Hcalls & Hnone & _ & _ & Hres).
  set (run := attempts_from_with normalize R prompt (S m) (S m) 1 w) in *.
  exists (S k). replace (S k - 1) with k by lia.
  split; [lia|]. split; [exact Hcalls|]. split; [exact Hnone|].
  destruct (fst run) as [v|e].
  - left. exists v. destruct Hres as [Hv _]. split; [reflexivity | exact Hv].
  - right. destruct Hres as (-> & -> & Hv & _). repeat split. exact Hv.
Qed.

(** X8: every failed attempt is warned about with its number, starting
    at 1.  A wait of 1000 ms times the attempt number follows each failed
    attempt but the one after which the generator throws, so the waits of a
    call add up to [500 * waits * (waits + 1)] ms. *)
Theorem X8_backoff_schedule (R : Runtime) (prompt : jsstring) (maxRetries : nat)
    (w : World) :
  let run := generateValidJsonWithRetries R prompt maxRetries w in
  exists failures waits,
    warnings (snd run) = warnings w ++ seq 1 failures
    /\ timeouts (snd run) = timeouts w ++ backoff 1 waits
    /\ list_sum (backoff 1 waits) = 500 * waits * (waits + 1)
    /\ match fst run with
       | Ok _ => waits = failures /\ (failures < maxRetries \/ maxRetries = 0)
       | Throw _ => failures = maxRetries /\ waits = maxRetries - 1
       end.
Proof.
  intros run. destruct maxRetries as [|m].
  - exists 0, 0. subst run. cbn. rewrite !app_nil_r. repeat split. right. reflexivity.
  - subst run. unfold generateValidJsonWithRetries, generate_with.
    destruct (attempts_trace normalize R prompt (S m) m 1 w ltac:(lia))
      as (k & Hk & _ & _ & Hwait & _ & Hres).
    set (run := attempts_from_with normalize R prompt (S m) (S m) 1 w) in *.
    destruct (fst run) as [v|e].
    + destruct Hres as [_ Hw]. exists k, k.
      split; [exact Hw|]. split; [exact Hwait|]. split; [apply backoff_sum|].
      split; [reflexivity | left; lia].
    + destruct Hres as (_ & -> & _ & Hw). exists (S m), m.
      split; [exact Hw|]. split; [exact Hwait|]. split; [apply backoff_sum|].
      split; [reflexivity | lia].
Qed.

Section Silence.

Variable R : Runtime.

Lemma generate_same_channel (prompt : jsstring) (maxRetries : nat) (w : World) :
  same_channel w (snd (generateValidJsonWithRetries R prompt maxRetries w)).
Proof.
  destruct maxRetries as [|m]; [apply same_channel_refl|].
  unfold generateValidJsonWithRetries, generate_with.
  destruct (attempts_trace normalize R prompt (S m) m 1 w ltac:(lia))
    as (k & _ & _ & _ & _ & Hsame & _).
  exact Hsame.
Qed.

Lemma generate_sent (prompt : jsstring) (maxRetries : nat) (w w' : World) (v : value) :
  generateValidJsonWithRetries R prompt maxRetries w = (Ok v, w') -> sent w' = sent w.
Proof.
  intros H. pose proof (generate_same_channel prompt maxRetries w) as Hs.
  rewrite H in Hs. destruct Hs as [Hs _]. exact Hs.
Qed.

End Silence.

(** X9: the structured generator sends nothing to the client, does not
    call the store, does not close the connection, logs no error and draws
    no identifier. *)
Theorem X9_generator_is_silent (R : Runtime) (prompt : jsstring) (maxRetries : nat)
    (w : World) :
  same_channel w (snd (generateValidJsonWithRetries R prompt maxRetries w)).
Proof. exact (generate_same_channel R prompt maxRetries w). Qed.

Section ProseFacts.

Lemma strip_fences_from_Forall (P : N -> Prop) (s : jsstring) :
  Forall P s -> forall skip, Forall P (strip_fences_from skip s).
Proof.
  induction 1 as [|c r Hc Hr IH]; intros skip; [constructor|].
  cbn [strip_fences_from]. destruct skip as [|k]; [|apply IH].
  destruct (is_prefix fence_json (c :: r)); [apply IH|].
  destruct (is_prefix fence (c :: r)); [apply IH|].
  constructor; [exact Hc | apply IH].
Qed.

Lemma strip_preamble_none (s : jsstring) :
  Forall (fun c => is_opening c = false) s -> strip_preamble s = [].
Proof.
  induction 1 as [|c r Hc Hr IH]; [reflexivity|].
  cbn [strip_preamble]. rewrite Hc. exact IH.
Qed.

(** A text without an opening brace or bracket normalises to nothing. *)
Lemma normalize_no_opening (raw : jsstring) :
  forallb (fun c => negb (is_opening c)) raw = true -> normalize raw = [].
Proof.
  intros H.
  assert (HF : Forall (fun c => is_opening c = false) raw).
  { apply Forall_forall. intros c Hc.
    pose proof (proj1 (forallb_forall _ _) H c Hc) as Hx.
    apply negb_true_iff in Hx. exact Hx. }
  unfold normalize, strip_nul, strip_cr, strip_fences.
  rewrite strip_preamble_none; [reflexivity|].
  do 2 apply Forall_filter_kept. apply strip_fences_from_Forall. exact HF.
Qed.

End ProseFacts.

(** X6: when the backend answers a prompt only with texts that hold no
    opening brace or bracket, and [JSON.parse] rejects the empty text, the
    structured generator makes [maxRetries] calls and throws: such a text
    normalises to the empty text. *)
Theorem X6_prose_is_never_accepted (R : Runtime) (prompt : jsstring) (maxRetries : nat)
    (w : World)
    (Hmax : 1 <= maxRetries)
    (Hempty : JSON_parse R [] = None)
    (Hprose : forall n text, generateContent R n prompt = Some text ->
                forallb (fun c => negb (is_opening c)) text = true) :
  exists w',
    generateValidJsonWithRetries R prompt maxRetries w
    = (Throw (FailedAfterAttempts maxRetries), w')
    /\ backend_calls w' = backend_calls w ++ repeat prompt maxRetries.
Proof.
  destruct (retry_bound normalize R prompt maxRetries w Hmax) as [Hall _].
  apply Hall. intros i _. unfold try_parse_with.
  destruct (generateContent R (length (backend_calls w) + i) prompt) as [text|] eqn:E;
    [|reflexivity].
  rewrite (normalize_no_opening _ (Hprose _ _ E)). exact Hempty.
Qed.

(** X6, witness: a backend that refuses in prose. *)
Lemma X6_prose_is_never_accepted_witness :
  exists w',
    generateValidJsonWithRetries Cases.refusing Demo.syllabus_prompt 5 fresh
    = (Throw (FailedAfterAttempts 5), w')
    /\ backend_calls w' = backend_calls fresh ++ repeat Demo.syllabus_prompt 5.
Proof.
  apply (X6_prose_is_never_accepted Cases.refusing Demo.syllabus_prompt 5 fresh).
  - lia.
  - reflexivity.
  - intros n text H. inversion H. reflexivity.
Defined.

(** ** The handler: requests, keys and terminal events *)

(** X10: when the random index is below [TOTAL_KEYS], the variable read
    is [GEMINI_API_KEY_k] for some [k] from 1 to 24; the key returned is
    the non-empty value of that variable, and the error thrown names that
    variable, which is then unset or empty. *)
Theorem X10_api_key_choice (R : Runtime)
    (Hdraw : random_below R TOTAL_KEYS < TOTAL_KEYS) :
  exists keyIndex,
    1 <= keyIndex <= 24
    /\ match getRandomApiKey R with
       | Ok key => process_env R (key_name keyIndex) = Some key /\ key <> []
       | Throw e =>
           e = MissingApiKey (key_name keyIndex)
           /\ (process_env R (key_name keyIndex) = None
               \/ process_env R (key_name keyIndex) = Some [])
       end.
Proof.
  exists (random_below R TOTAL_KEYS + 1). unfold TOTAL_KEYS in *.
  split; [lia|]. unfold getRandomApiKey, key_name, TOTAL_KEYS.
  destruct (process_env R _) as [[|c key]|]; cbn [truthy].
  - split; [reflexivity | right; reflexivity].
  - split; [reflexivity | discriminate].
  - split; [reflexivity | left; reflexivity].
Qed.

(** X10, witness: the example runtime draws index 6. *)
Lemma X10_api_key_choice_witness :
  exists keyIndex,
    1 <= keyIndex <= 24
    /\ match getRandomApiKey (Demo.steady Demo.lessons3) with
       | Ok key =>
           process_env (Demo.steady Demo.lessons3) (key_name keyIndex) = Some key
           /\ key <> []
       | Throw e =>
           e = MissingApiKey (key_name keyIndex)
           /\ (process_env (Demo.steady Demo.lessons3) (key_name keyIndex) = None
               \/ process_env (Demo.steady Demo.lessons3) (key_name keyIndex) = Some [])
       end.
Proof.
  apply (X10_api_key_choice (Demo.steady Demo.lessons3)). vm_compute. lia.
Defined.

Section Rejections.

Variable R : Runtime.

Lemma generate_course_throw (message : jsstring) (w : World) (e : error) :
  generate_course R message w = (Throw e, w) ->
  on_message R message w = (Ok tt, failed e w).
Proof.
  intros H. apply on_message_throw. unfold try_block. apply bind_throw. exact H.
Qed.

End Rejections.

(** X11: a request that cannot be destructured, or whose topic or user
    identifier is falsy, is answered with the error event and nothing
    else: the error is logged, the event sent and the connection closed,
    and no key is read, no backend call made and nothing written. *)
Theorem X11_rejected_request (R : Runtime) (message : jsstring) (w : World) (e : error)
    (Hrejected :
       destructure_request R message = Throw e
       \/ exists req,
            destructure_request R message = Ok req
            /\ truthy (topic req) && truthy (userId req) = false
            /\ e = MissingTopicOrUserId) :
  on_message R message w = (Ok tt, failed e w).
Proof.
  apply generate_course_throw. unfold generate_course.
  destruct Hrejected as [H|(req & H & Hmissing & ->)]; rewrite H; [reflexivity|].
  rewrite bind_lift.
  apply andb_false_iff in Hmissing.
  destruct Hmissing as [Hm|Hm]; rewrite Hm; cbn [negb orb]; [reflexivity|].
  rewrite orb_true_r. reflexivity.
Qed.

(** X11, witness: a request without a user identifier. *)
Lemma X11_rejected_request_witness :
  on_message (Demo.steady Demo.lessons3) Demo.request_without_userId fresh
  = (Ok tt, failed MissingTopicOrUserId fresh).
Proof.
  apply (X11_rejected_request (Demo.steady Demo.lessons3) Demo.request_without_userId).
  right. eexists. split; [vm_compute; reflexivity|]. split; reflexivity.
Defined.

(** X12: destructuring the request throws exactly when the message is
    no JSON (a SyntaxError), or parses to [null], or has a personalization
    that is [null] (a TypeError): the default [{}] stands in for a missing
    personalization only. *)
Theorem X12_unreadable_request (R : Runtime) (message : jsstring) (e : error) :
  destructure_request R message = Throw e
  <-> (JSON_parse R message = None /\ e = SyntaxError)
      \/ exists parsed,
           JSON_parse R message = Some parsed
           /\ e = TypeError
           /\ (is_nullish parsed = true
               \/ get parsed (lit "personalization") = Ok VNull).
Proof.
  unfold destructure_request.
  destruct (JSON_parse R message) as [parsed|].
  2:{ split.
      - intros H. inversion H. left. split; reflexivity.
      - intros [[_ ->]|(parsed & H & _)]; [reflexivity | discriminate H]. }
  assert (Hread : forall v k,
            v <> VNull -> v <> VUndefined ->
            exists x, obind (get v (lit k)) (fun y => Ok (default_to y (VStr []))) = Ok x).
  { intros v k Hn Hu. destruct v; try congruence; cbn [get obind]; eexists; reflexivity. }
  assert (Hpers : forall v, v <> VNull -> v <> VUndefined ->
            exists p, destructure_personalization v = Ok p).
  { intros v Hn Hu. unfold destructure_personalization.
    destruct (Hread v "level" Hn Hu) as [x1 ->].
    destruct (Hread v "preferredTopics" Hn Hu) as [x2 ->].
    destruct (Hread v "dislikedTopics" Hn Hu) as [x3 ->].
    destruct (Hread v "goal" Hn Hu) as [x4 ->].
    destruct (Hread v "timeCommitment" Hn Hu) as [x5 ->].
    destruct (Hread v "learningStyle" Hn Hu) as [x6 ->].
    cbn [obind]. eexists; reflexivity. }
  destruct (is_nullish parsed) eqn:Enull.
  - rewrite (get_nullish _ _ Enull). cbn [obind]. split.
    + intros H. inversion H. right. exists parsed. auto.
    + intros [[H _]|(parsed' & H & -> & _)]; [discriminate H | reflexivity].
  - destruct (get_defined parsed (lit "topic") Enull) as [t ->].
    destruct (get_defined parsed (lit "userId") Enull) as [u ->].
    destruct (get_defined parsed (lit "personalization") Enull) as [p Hp].
    rewrite Hp. cbn [obind].
    destruct p as [| | | | | |].
    + cbn [default_to]. destruct (Hpers (VObj [])) as [pp ->]; try discriminate.
      cbn [obind]. split; [discriminate|].
      intros [[H _]|(parsed' & H & _ & [Hn|Hn])]; [discriminate H| |].
      * inversion H; subst parsed'. congruence.
      * inversion H; subst parsed'. congruence.
    + cbn [default_to destructure_personalization get obind]. split.
      * intros H. inversion H. right. exists parsed. auto.
      * intros [[H _]|(parsed' & H & -> & _)]; [discriminate H | reflexivity].
    + cbn [default_to]. destruct (Hpers (VBool b)) as [pp ->]; try discriminate.
      cbn [obind]. split; [discriminate|].
      intros [[H _]|(parsed' & H & _ & [Hn|Hn])]; [discriminate H| |];
        inversion H; subst parsed'; congruence.
    + cbn [default_to]. destruct (Hpers (VNum x)) as [pp ->]; try discriminate.
      cbn [obind]. split; [discriminate|].
      intros [[H _]|(parsed' & H & _ & [Hn|Hn])]; [discriminate H| |];
        inversion H; subst parsed'; congruence.
    + cbn [default_to]. destruct (Hpers (VStr s)) as [pp ->]; try discriminate.
      cbn [obind]. split; [discriminate|].
      intros [[H _]|(parsed' & H & _ & [Hn|Hn])]; [discriminate H| |];
        inversion H; subst parsed'; congruence.
    + cbn [default_to]. destruct (Hpers (VArr elems)) as [pp ->]; try discriminate.
      cbn [obind]. split; [discriminate|].
      intros [[H _]|(parsed' & H & _ & [Hn|Hn])]; [discriminate H| |];
        inversion H; subst parsed'; congruence.
    + cbn [default_to]. destruct (Hpers (VObj props)) as [pp ->]; try discriminate.
      cbn [obind]. split; [discriminate|].
      intros [[H _]|(parsed' & H & _ & [Hn|Hn])]; [discriminate H| |];
        inversion H; subst parsed'; congruence.
Qed.

(** X13: with a topic and a user identifier but no key for the index
    drawn, the run ends as a rejected request does: the key is picked
    before the first event is sent, so nothing is streamed and the backend
    is not called. *)
Theorem X13_missing_api_key (R : Runtime) (message : jsstring) (w : World) (req : Request)
    (e : error)
    (Hreq : destructure_request R message = Ok req)
    (Hpresent : truthy (topic req) && truthy (userId req) = true)
    (Hkey : getRandomApiKey R = Throw e) :
  on_message R message w = (Ok tt, failed e w)
  /\ e = MissingApiKey (key_name (random_below R TOTAL_KEYS + 1)).
Proof.
  split.
  - apply generate_course_throw. unfold generate_course.
    rewrite Hreq, bind_lift.
    apply andb_true_iff in Hpresent. destruct Hpresent as [-> ->]. cbn [negb orb].
    rewrite Hkey. reflexivity.
  - unfold getRandomApiKey in Hkey. fold (key_name (random_below R TOTAL_KEYS + 1)) in Hkey.
    destruct (process_env R _) as [key|]; [|inversion Hkey; reflexivity].
    destruct (truthy (VStr key)); inversion Hkey; reflexivity.
Qed.

(** X13, witness: the example request with no key configured. *)
Lemma X13_missing_api_key_witness :
  on_message Cases.keyless Demo.request fresh
  = (Ok tt, failed (MissingApiKey (lit "GEMINI_API_KEY_7")) fresh)
  /\ MissingApiKey (lit "GEMINI_API_KEY_7")
     = MissingApiKey (key_name (random_below Cases.keyless TOTAL_KEYS + 1)).
Proof.
  apply (X13_missing_api_key Cases.keyless Demo.request fresh Demo.destructured);
    vm_compute; reflexivity.
Defined.

Section EveryRun.

Variable R : Runtime.

(** The persisting step either completes, the store having returned a
    record with an [id], or throws after the notice, with at most one
    write. *)
Lemma persist_cases (g : Generated) (w : World) :
  (exists data created courseId,
     db_course_create R data = Some created
     /\ get created (lit "id") = Ok courseId
     /\ persist R g w = (Ok tt, completed data courseId w))
  \/ exists e w1,
       persist R g w = (Throw e, w1)
       /\ sent w1 = sent w ++ [Notice SavingToDatabase]
       /\ closes w1 = closes w
       /\ errors_logged w1 = errors_logged w
       /\ backend_calls w1 = backend_calls w
       /\ timeouts w1 = timeouts w
       /\ (db_calls w1 = db_calls w \/ exists data, db_calls w1 = db_calls w ++ [data]).
Proof.
  unfold persist. rewrite bind_sendData.
  destruct (course_create_data R (g_syllabusJson g) (g_userId g) (g_lessons g)
              (g_postCourse g)) as [data|e] eqn:Edata.
  2:{ right. eexists. eexists. split; [reflexivity|].
      cbn. repeat split. left. reflexivity. }
  rewrite bind_lift.
  assert (Hdb : forall (k : value -> M unit) w0,
            bind (db_create R data) k w0
            = match db_course_create R data with
              | Some created => k created (log_db_call data w0)
              | None => (Throw PersistenceError, log_db_call data w0)
              end).
  { intros k w0. unfold bind, db_create.
    destruct (db_course_create R data); reflexivity. }
  rewrite Hdb. clear Hdb.
  destruct (db_course_create R data) as [created|] eqn:Edb.
  2:{ right. eexists. eexists. split; [reflexivity|].
      cbn. repeat split. right. eexists; reflexivity. }
  destruct (get created (lit "id")) as [courseId|e] eqn:Eid.
  - left. exists data, created, courseId. rewrite bind_lift.
    split; [exact Edb|]. split; [exact Eid | reflexivity].
  - right. eexists. eexists. split; [reflexivity|].
    cbn. repeat split. right. eexists; reflexivity.
Qed.

End EveryRun.

(** X14: every run, whatever the message and the collaborators, returns
    normally, closes the connection once and sends exactly one terminal
    event.  It is the error event, last, with one error logged and at most
    one call of the store; or it is the completed event, followed by the
    closing notice only, with no error logged, exactly one call of the
    store, and for course identifier the [id] of the record the store
    returned. *)
Theorem X14_one_terminal_event (R : Runtime) (message : jsstring) (w : World) :
  let run := on_message R message w in
  fst run = Ok tt
  /\ closes (snd run) = S (closes w)
  /\ exists ms,
       filter is_terminal ms = []
       /\ ((exists e,
              sent (snd run) = sent w ++ ms ++ [ErrorMessage]
              /\ errors_logged (snd run) = errors_logged w ++ [e]
              /\ (db_calls (snd run) = db_calls w
                  \/ exists data, db_calls (snd run) = db_calls w ++ [data]))
           \/ (exists data created courseId,
                 sent (snd run)
                 = sent w ++ ms ++ [Completed courseId; Notice GenerationComplete]
                 /\ errors_logged (snd run) = errors_logged w
                 /\ db_calls (snd run) = db_calls w ++ [data]
                 /\ db_course_create R data = Some created
                 /\ get created (lit "id") = Ok courseId)).
Proof.
  intros run. subst run.
  pose proof (stays_generate_course R message w) as Hquiet.
  destruct (generate_course R message w) as [[g|e] w1] eqn:Egen; cbn [snd] in Hquiet;
    destruct Hquiet as (Hdb & Hcl & Herr & ms & Hsent & Hms).
  - destruct (persist_cases R g w1)
      as [(data & created & courseId & Hstore & Hid & Hp)
         |(e & w2 & Hp & Hs & Hc & He & _ & _ & Hd)].
    + rewrite (on_message_ok R message w (completed data courseId w1)).
      2:{ unfold try_block. rewrite (bind_ok _ _ _ _ _ Egen). exact Hp. }
      cbn [fst snd]. split; [reflexivity|]. split; [cbn; congruence|].
      exists (ms ++ [Notice SavingToDatabase]). split.
      { rewrite filter_app, (generation_not_terminal _ Hms). reflexivity. }
      right. exists data, created, courseId. cbn.
      rewrite Hsent, Herr, Hdb, <- !app_assoc. repeat split; assumption.
    + rewrite (on_message_throw R message w w2 e).
      2:{ unfold try_block. rewrite (bind_ok _ _ _ _ _ Egen). exact Hp. }
      cbn [fst snd]. split; [reflexivity|]. split; [cbn; congruence|].
      exists (ms ++ [Notice SavingToDatabase]). split.
      { rewrite filter_app, (generation_not_terminal _ Hms). reflexivity. }
      left. exists e. cbn. rewrite Hs, Hsent, He, Herr, <- !app_assoc.
      split; [reflexivity|]. split; [reflexivity|].
      destruct Hd as [->|[data ->]]; [left; exact Hdb | right; exists data; congruence].
  - rewrite (on_message_throw R message w w1 e).
    2:{ unfold try_block. apply bind_throw. exact Egen. }
    cbn [fst snd]. split; [reflexivity|]. split; [cbn; congruence|].
    exists ms. split; [apply generation_not_terminal; exact Hms|].
    left. exists e. cbn. rewrite Hsent, Herr, <- !app_assoc.
    split; [reflexivity|]. split; [reflexivity|]. left. exact Hdb.
Qed.

(** X15: a syllabus payload without a lesson list, such as the empty
    object the prompts ask for when the model cannot comply, is accepted by
    the structured generator at once and then aborts the run with a
    TypeError: one backend call, no retry, no completed syllabus event. *)
Theorem X15_syllabus_without_lessons (R : Runtime) (message : jsstring) (w : World)
    (req : Request) (key text : jsstring) (v : value)
    (Hreq : destructure_request R message = Ok req)
    (Hvalid : valid_request req = true)
    (Hkey : getRandomApiKey R = Ok key)
    (Hprompt : getSyllabusPrompt R (topic req) (personalization req) = Ok text)
    (Hanswer : try_parse R (length (backend_calls w)) text = Some v)
    (Hlessons : is_nullish (field v "lessons") = true) :
  on_message R message w
  = (Ok tt,
     failed TypeError
       (log_backend_call text
          (log_sent (Notice GeneratingSyllabus) (log_sent SyllabusStarted w)))).
Proof.
  unfold valid_request in Hvalid.
  apply andb_true_iff in Hvalid. destruct Hvalid as [Hvalid Hpers].
  apply andb_true_iff in Hvalid. destruct Hvalid as [Hvalid Huser].
  apply andb_true_iff in Hvalid. destruct Hvalid as [Htopic Htruthy].
  apply on_message_throw. unfold try_block. apply bind_throw.
  unfold generate_course. rewrite Hreq, bind_lift, Htruthy, Huser. cbn [negb orb].
  rewrite Hkey, bind_lift, !bind_sendData, Hprompt, bind_lift.
  set (w0 := log_sent (Notice GeneratingSyllabus) (log_sent SyllabusStarted w)).
  assert (Hgen : generateValidJsonWithRetries R text MAX_RETRIES w0
                 = (Ok v, log_backend_call text w0)).
  { apply (generate_first_try normalize R text MAX_RETRIES w0 v).
    - unfold MAX_RETRIES. lia.
    - exact Hanswer. }
  rewrite (bind_ok _ _ _ _ _ Hgen).
  assert (Htc : exists s, timeCommitment (personalization req) = VStr s).
  { unfold str_personalization in Hpers.
    repeat (apply andb_true_iff in Hpers; destruct Hpers as [Hpers ?]).
    destruct (timeCommitment (personalization req)); try discriminate.
    eexists; reflexivity. }
  destruct Htc as [s Hs]. rewrite Hs.
  assert (Hb : time_budgets R (VStr s) v = Throw TypeError).
  { unfold time_budgets. cbn [ToNumber obind]. unfold field in Hlessons.
    destruct (get v (lit "lessons")) as [lessons|e] eqn:Eget.
    - cbn [obind]. rewrite (get_nullish _ _ Hlessons). reflexivity.
    - rewrite (get_throws _ _ _ Eget). reflexivity. }
  rewrite Hb. reflexivity.
Qed.

(** X15, witness: the syllabus stage answered with the empty object. *)
Lemma X15_syllabus_without_lessons_witness :
  on_message Cases.giving_up Demo.request fresh
  = (Ok tt,
     failed TypeError
       (log_backend_call Demo.syllabus_prompt
          (log_sent (Notice GeneratingSyllabus) (log_sent SyllabusStarted fresh)))).
Proof.
  apply (X15_syllabus_without_lessons Cases.giving_up Demo.request fresh Demo.destructured
           (lit "secret") Demo.syllabus_prompt (VObj []));
    vm_compute; reflexivity.
Defined.

(** ** The handler: what is streamed *)

Section Streaming.

Variable R : Runtime.

Lemma combine_append {A B} (l1 l2 : list A) (m1 m2 : list B) :
  length l1 = length m1 ->
  combine (l1 ++ l2) (m1 ++ m2) = combine l1 m1 ++ combine l2 m2.
Proof.
  revert m1. induction l1 as [|x l1 IH]; intros [|y m1] H; try discriminate H.
  - reflexivity.
  - cbn [app combine]. rewrite IH; [reflexivity|]. cbn [length] in H. lia.
Qed.

Lemma blocks_loop_sent (lessonTitle section : value) (blocks : list value) :
  forall (acc out : list ContentBlock) (w w' : World),
    blocks_loop R lessonTitle section blocks acc w = (Ok out, w') ->
    exists made titles,
      out = acc ++ made
      /\ length titles = length made
      /\ Forall (fun t => get section (lit "title") = Ok t) titles
      /\ sent w' = sent w ++ map (block_event lessonTitle) (combine titles made).
Proof.
  induction blocks as [|block rest IH]; intros acc out w w' H.
  - cbn [blocks_loop] in H. inversion H; subst.
    exists [], []. rewrite !app_nil_r. repeat split. constructor.
  - cbn [blocks_loop] in H.
    apply bind_inv_ok in H. destruct H as (id & w1 & Hid & H).
    unfold draw_uuid in Hid. inversion Hid; subst id w1. clear Hid.
    apply lift_inv_ok in H. destruct H as (cb & Hcb & H).
    apply lift_inv_ok in H. destruct H as (sectionTitle & Htitle & H).
    apply bind_inv_ok in H. destruct H as ([] & w2 & Hsend & H).
    unfold sendData, update in Hsend. inversion Hsend; subst w2. clear Hsend.
    apply IH in H. destruct H as (made & titles & -> & Hlen & Htitles & Hsent).
    exists (cb :: made), (sectionTitle :: titles).
    split; [rewrite <- app_assoc; reflexivity|].
    split; [cbn [length]; rewrite Hlen; reflexivity|].
    split; [constructor; assumption|].
    rewrite Hsent. cbn [sent log_sent count_uuid combine map].
    rewrite <- app_assoc. reflexivity.
Qed.

Lemma sections_loop_sent (lessonTitle : value) (sections : list value) :
  forall (acc out : list ContentBlock) (w w' : World),
    sections_loop R lessonTitle sections acc w = (Ok out, w') ->
    exists made titles,
      out = acc ++ made
      /\ length titles = length made
      /\ Forall (fun t => exists section,
                   In section sections /\ get section (lit "title") = Ok t) titles
      /\ sent w' = sent w ++ map (block_event lessonTitle) (combine titles made).
Proof.
  induction sections as [|section rest IH]; intros acc out w w' H.
  - cbn [sections_loop] in H. inversion H; subst.
    exists [], []. rewrite !app_nil_r. repeat split. constructor.
  - cbn [sections_loop] in H.
    apply lift_inv_ok in H. destruct H as (contentBlocks & Hget & H).
    apply lift_inv_ok in H. destruct H as (blocks & Hiter & H).
    apply bind_inv_ok in H. destruct H as (acc1 & w1 & Hblocks & H).
    apply blocks_loop_sent in Hblocks.
    destruct Hblocks as (made1 & titles1 & -> & Hlen1 & Ht1 & Hsent1).
    apply IH in H. destruct H as (made2 & titles2 & -> & Hlen2 & Ht2 & Hsent2).
    exists (made1 ++ made2), (titles1 ++ titles2).
    split; [rewrite app_assoc; reflexivity|].
    split; [rewrite !length_app; lia|].
    split.
    + apply Forall_app. split.
      * eapply Forall_impl; [|exact Ht1]. intros t Ht. exists section.
        split; [left; reflexivity | exact Ht].
      * eapply Forall_impl; [|exact Ht2]. intros t (s & Hin & Ht). exists s.
        split; [right; exact Hin | exact Ht].
    + rewrite Hsent2, Hsent1, (combine_append _ _ _ _ Hlen1), map_app, <- app_assoc.
      reflexivity.
Qed.

Lemma lesson_body_sent (p : Personalization) (lt qt : float) (lessonObj : value)
    (w w' : World) (l : LessonRecord) :
  lesson_body R p lt qt lessonObj w = (Ok l, w') ->
  exists titles,
    length titles = length (allContentBlocks l)
    /\ sent w' = sent w ++ lesson_events (l, titles).
Proof.
  unfold lesson_body. intros H.
  apply lift_inv_ok in H. destruct H as (title & Htitle & H).
  apply lift_inv_ok in H. destruct H as (duration & Hduration & H).
  apply bind_inv_ok in H. destruct H as ([] & w1 & Hsend1 & H).
  unfold sendData, update in Hsend1. inversion Hsend1; subst w1. clear Hsend1.
  apply lift_inv_ok in H. destruct H as (contextPrompt & Hcp & H).
  apply bind_inv_ok in H. destruct H as (ctx & w2 & Hctx & H).
  apply lift_inv_ok in H. destruct H as (sectionPrompt & Hsp & H).
  apply bind_inv_ok in H. destruct H as (sectionContent & w3 & Hsc & H).
  apply lift_inv_ok in H. destruct H as (sections & Hsections & H).
  apply bind_inv_ok in H. destruct H as (blocks & w4 & Hblocks & H).
  apply lift_inv_ok in H. destruct H as (quizPrompt & Hqp & H).
  apply bind_inv_ok in H. destruct H as (quiz & w5 & Hquiz & H).
  apply bind_inv_ok in H. destruct H as ([] & w6 & Hsend2 & H).
  unfold sendData, update in Hsend2. inversion Hsend2; subst w6. clear Hsend2.
  unfold ret in H. inversion H; subst l w'. clear H.
  apply generate_sent in Hctx, Hsc, Hquiz.
  apply sections_loop_sent in Hblocks.
  destruct Hblocks as (made & titles & Hmade & Hlen & _ & Hsent).
  cbn [app] in Hmade. subst made.
  exists titles. split; [exact Hlen|].
  unfold lesson_events. cbn [fst snd lessonTitle allContentBlocks quizJson sent log_sent].
  rewrite Hquiz, Hsent, Hsc, Hctx. cbn [sent log_sent].
  rewrite <- !app_assoc. reflexivity.
Qed.

Lemma lesson_loop_sent (p : Personalization) (lt qt : float) (lessonObjs : list value) :
  forall (acc out : list LessonRecord) (w w' : World),
    lesson_loop R p lt qt lessonObjs acc w = (Ok out, w') ->
    exists made titless,
      out = acc ++ made
      /\ Forall2 (fun l titles => length titles = length (allContentBlocks l))
           made titless
      /\ sent w' = sent w ++ concat (map lesson_events (combine made titless)).
Proof.
  induction lessonObjs as [|lessonObj rest IH]; intros acc out w w' H;
    cbn [lesson_loop] in H.
  - inversion H; subst. exists [], []. rewrite !app_nil_r.
    split; [reflexivity|]. split; [constructor | reflexivity].
  - apply bind_inv_ok in H. destruct H as (l & w1 & Hl & H).
    apply lesson_body_sent in Hl. destruct Hl as (titles & Hlen & Hsent1).
    apply IH in H. destruct H as (made & titless & -> & Hall & Hsent).
    exists (l :: made), (titles :: titless).
    split; [rewrite <- app_assoc; reflexivity|].
    split; [constructor; assumption|].
    rewrite Hsent, Hsent1. cbn [combine map concat].
    rewrite <- !app_assoc. reflexivity.
Qed.

Lemma generate_course_sent (message : jsstring) (w w1 : World) (g : Generated) :
  generate_course R message w = (Ok g, w1) ->
  exists sectionTitles,
    Forall2 (fun l titles => length titles = length (allContentBlocks l))
      (g_lessons g) sectionTitles
    /\ sent w1 = sent w ++ generation_events g sectionTitles.
Proof.
  unfold generate_course. intros H.
  apply lift_inv_ok in H. destruct H as (req & Hreq & H).
  destruct (negb (truthy (topic req)) || negb (truthy (userId req)));
    [discriminate H|].
  apply lift_inv_ok in H. destruct H as (key & Hkey & H).
  rewrite !bind_sendData in H.
  apply lift_inv_ok in H. destruct H as (syllabusPrompt & Hsp & H).
  apply bind_inv_ok in H. destruct H as (syl & w2 & Hsyl & H).
  apply lift_inv_ok in H. destruct H as (b & Hb & H).
  rewrite bind_sendData in H.
  apply lift_inv_ok in H. destruct H as (lessonObjs & Hobjs & H).
  apply bind_inv_ok in H. destruct H as (lessons & w3 & Hloop & H).
  rewrite bind_sendData in H.
  apply lift_inv_ok in H. destruct H as (postPrompt & Hpp & H).
  apply bind_inv_ok in H. destruct H as (post & w4 & Hpost & H).
  unfold ret in H. inversion H; subst g w1. clear H.
  apply generate_sent in Hsyl, Hpost.
  apply lesson_loop_sent in Hloop.
  destruct Hloop as (made & titless & Hmade & Hall & Hsent).
  cbn [app] in Hmade. subst made.
  exists titless. split; [exact Hall|].
  unfold generation_events. cbn [g_syllabusJson g_lessons].
  rewrite Hpost. cbn [sent log_sent]. rewrite Hsent. cbn [sent log_sent].
  rewrite Hsyl. cbn [sent log_sent]. rewrite <- !app_assoc. reflexivity.
Qed.

End Streaming.

(** X17: what a run that completes has sent, in order: the start of the
    syllabus stage, its notice and the syllabus; for each lesson in turn
    its start, one event per content block in the order of the blocks, and
    its quiz; the notice of the post-course stage, the saving notice, the
    completed event and the closing notice. *)
Theorem X17_event_sequence (R : Runtime) (message : jsstring) (w w' : World)
    (Hrun : try_block R message w = (Ok tt, w')) :
  on_message R message w = (Ok tt, w')
  /\ exists g w1 sectionTitles courseId,
       generate_course R message w = (Ok g, w1)
       /\ Forall2 (fun l titles => length titles = length (allContentBlocks l))
            (g_lessons g) sectionTitles
       /\ sent w'
          = sent w ++ generation_events g sectionTitles ++ closing_events courseId.
Proof.
  split; [apply on_message_ok; exact Hrun|].
  unfold try_block in Hrun.
  apply bind_inv_ok in Hrun. destruct Hrun as (g & w1 & Hgen & Hp).
  destruct (generate_course_sent R message w w1 g Hgen) as (titless & Hall & Hsent).
  destruct (persist_cases R g w1)
    as [(data & created & courseId & _ & _ & Hq)|(e & w2 & Hq & _)];
    [|rewrite Hq in Hp; discriminate Hp].
  rewrite Hq in Hp. inversion Hp; subst w'.
  exists g, w1, titless, courseId. split; [exact Hgen|]. split; [exact Hall|].
  unfold closing_events, completed. cbn [sent count_close log_sent log_db_call].
  rewrite Hsent, <- !app_assoc. reflexivity.
Qed.

(** X17, witness: the example run, three lessons. *)
Lemma X17_event_sequence_witness :
  let R := Demo.steady Demo.lessons3 in
  let w' := snd (try_block R Demo.request fresh) in
  on_message R Demo.request fresh = (Ok tt, w')
  /\ exists g w1 sectionTitles courseId,
       generate_course R Demo.request fresh = (Ok g, w1)
       /\ Forall2 (fun l titles => length titles = length (allContentBlocks l))
            (g_lessons g) sectionTitles
       /\ sent w'
          = sent fresh ++ generation_events g sectionTitles ++ closing_events courseId.
Proof.
  apply (X17_event_sequence (Demo.steady Demo.lessons3) Demo.request fresh).
  vm_compute. reflexivity.
Defined.

Section LateFailure.

Variable R : Runtime.

Lemma mapi_outcome_from_throws {A B} (f : nat -> A -> outcome B) (l : list A) (x : A) :
  In x l -> (forall i, exists e, f i x = Throw e) ->
  forall idx, exists e, mapi_outcome_from f idx l = Throw e.
Proof.
  intros Hin Hx. induction l as [|y r IH]; intros idx; [contradiction Hin|].
  cbn [mapi_outcome_from].
  destruct (f idx y) as [b|e] eqn:E; [|exists e; reflexivity].
  destruct Hin as [->|Hin].
  - destruct (Hx idx) as [e He]. congruence.
  - cbn [obind]. destruct (IH Hin (S idx)) as [e ->]. exists e. reflexivity.
Qed.

Lemma quiz_create_throws (l : LessonRecord) :
  (forall qs, get (quizJson l) (lit "questions") <> Ok (VArr qs)) ->
  exists e, quiz_create R l = Throw e.
Proof.
  intros Hbad. unfold quiz_create.
  destruct (get (context l) (lit "title")) as [t|e]; [|exists e; reflexivity].
  cbn [obind].
  destruct (concat_literal (Number_toString R) t (lit " Quiz")) as [qt|e];
    [|exists e; reflexivity].
  cbn [obind].
  destruct (get (quizJson l) (lit "duration")) as [d|e]; [|exists e; reflexivity].
  cbn [obind].
  destruct (get (quizJson l) (lit "totalMarks")) as [tm|e]; [|exists e; reflexivity].
  cbn [obind].
  destruct (get (quizJson l) (lit "passingMarks")) as [pm|e]; [|exists e; reflexivity].
  cbn [obind].
  destruct (get (quizJson l) (lit "questions")) as [q|e] eqn:Eq; [|exists e; reflexivity].
  cbn [obind].
  destruct q; try (eexists; reflexivity).
  exfalso. exact (Hbad _ eq_refl).
Qed.

Lemma lesson_create_throws (l : LessonRecord) :
  (forall qs, get (quizJson l) (lit "questions") <> Ok (VArr qs)) ->
  forall idx, exists e, lesson_create R idx l = Throw e.
Proof.
  intros Hbad idx. unfold lesson_create.
  destruct (get (context l) (lit "title")) as [t|e]; [|exists e; reflexivity].
  cbn [obind].
  destruct (get (context l) (lit "objective")) as [o|e]; [|exists e; reflexivity].
  cbn [obind].
  destruct (quiz_create_throws l Hbad) as [e ->]. exists e. reflexivity.
Qed.

Lemma course_create_data_throws (syllabusJson userId postCourse : value)
    (lessons : list LessonRecord) (l : LessonRecord) :
  In l lessons ->
  (forall qs, get (quizJson l) (lit "questions") <> Ok (VArr qs)) ->
  exists e, course_create_data R syllabusJson userId lessons postCourse = Throw e.
Proof.
  intros Hin Hbad. unfold course_create_data.
  destruct (get syllabusJson (lit "title")) as [t|e]; [|exists e; reflexivity].
  cbn [obind].
  destruct (get syllabusJson (lit "description")) as [d|e]; [|exists e; reflexivity].
  cbn [obind].
  destruct (mapi_outcome_from_throws (lesson_create R) lessons l Hin
              (lesson_create_throws l Hbad) 0) as [e ->].
  exists e. reflexivity.
Qed.

Lemma Forall2_In_combine {A B} (P : A -> B -> Prop) (l1 : list A) (l2 : list B) (x : A) :
  Forall2 P l1 l2 -> In x l1 -> exists y, In (x, y) (combine l1 l2).
Proof.
  induction 1 as [|a b l1 l2 Hab Hrest IH]; intros Hin; [contradiction Hin|].
  destruct Hin as [->|Hin].
  - exists b. left. reflexivity.
  - destruct (IH Hin) as [y Hy]. exists y. right. exact Hy.
Qed.

Lemma quiz_event_sent (g : Generated) (sectionTitles : list (list value))
    (l : LessonRecord) :
  Forall2 (fun l titles => length titles = length (allContentBlocks l))
    (g_lessons g) sectionTitles ->
  In l (g_lessons g) ->
  In (QuizCompleted (quizJson l)) (generation_events g sectionTitles).
Proof.
  intros Hall Hin. destruct (Forall2_In_combine _ _ _ _ Hall Hin) as [ts Hts].
  unfold generation_events. apply in_or_app. right. apply in_or_app. left.
  apply in_concat. exists (lesson_events (l, ts)). split.
  - apply in_map. exact Hts.
  - unfold lesson_events. cbn [fst snd]. right. apply in_or_app. right. left. reflexivity.
Qed.

End LateFailure.

(** X16: a quiz payload whose [questions] is no array passes the
    generation stages, its quiz event is streamed, and the run fails only
    when the argument of the store is assembled, after the saving notice
    and without a call of the store. *)
Theorem X16_quiz_without_questions (R : Runtime) (message : jsstring) (w w1 : World)
    (g : Generated) (l : LessonRecord)
    (Hgen : generate_course R message w = (Ok g, w1))
    (Hin : In l (g_lessons g))
    (Hbad : forall qs, get (quizJson l) (lit "questions") <> Ok (VArr qs)) :
  exists e,
    on_message R message w
    = (Ok tt, failed e (log_sent (Notice SavingToDatabase) w1))
    /\ In (QuizCompleted (quizJson l)) (sent w1)
    /\ db_calls w1 = db_calls w.
Proof.
  destruct (course_create_data_throws R (g_syllabusJson g) (g_userId g) (g_postCourse g)
              (g_lessons g) l Hin Hbad) as [e He].
  exists e. split; [|split].
  - apply on_message_throw. unfold try_block. rewrite (bind_ok _ _ _ _ _ Hgen).
    unfold persist. rewrite bind_sendData, He. reflexivity.
  - destruct (generate_course_sent R message w w1 g Hgen) as (titless & Hall & Hsent).
    rewrite Hsent. apply in_or_app. right. apply quiz_event_sent; assumption.
  - pose proof (stays_generate_course R message w) as Hq. rewrite Hgen in Hq.
    destruct Hq as [Hdb _]. exact Hdb.
Qed.

(** X16, witness: every quiz stage answered with the empty object. *)
Lemma X16_quiz_without_questions_witness :
  let g := Demo.generated Cases.quizless Demo.request in
  let w1 := snd (generate_course Cases.quizless Demo.request fresh) in
  exists e,
    on_message Cases.quizless Demo.request fresh
    = (Ok tt, failed e (log_sent (Notice SavingToDatabase) w1))
    /\ In (QuizCompleted (VObj [])) (sent w1)
    /\ db_calls w1 = db_calls fresh.
Proof.
  intros g w1.
  assert (Hl : exists l, nth_error (g_lessons g) 0 = Some l /\ quizJson l = VObj []).
  { eexists. split; vm_compute; reflexivity. }
  destruct Hl as (l & Hnth & Hquiz). rewrite <- Hquiz.
  apply (X16_quiz_without_questions Cases.quizless Demo.request fresh w1 g l).
  - vm_compute. reflexivity.
  - apply (nth_error_In _ 0). exact Hnth.
  - intros qs. rewrite Hquiz. discriminate.
Defined.

(** ** The handler: what a run costs *)

Section Calls.

Variable R : Runtime.

(** A stage that returns has made between one and [MAX_RETRIES] calls,
    all with the same prompt, and has waited two and a half seconds per
    retry at most. *)
Lemma stage_returns (prompt : jsstring) (w w' : World) (v : value) :
  generateValidJsonWithRetries R prompt MAX_RETRIES w = (Ok v, w') ->
  exists k,
    1 <= k <= MAX_RETRIES
    /\ backend_calls w' = backend_calls w ++ stage_calls (prompt, k)
    /\ waited w <= waited w' <= waited w + 2500 * (k - 1).
Proof.
  intros H. unfold generateValidJsonWithRetries, generate_with, MAX_RETRIES in *.
  destruct (attempts_trace normalize R prompt 5 4 1 w ltac:(lia))
    as (k & Hk & Hcalls & _ & Hwait & _ & _).
  rewrite H in Hcalls, Hwait. cbn [snd] in Hcalls, Hwait.
  exists (S k). split; [lia|]. split; [exact Hcalls|].
  unfold waited. rewrite Hwait, list_sum_app, backoff_sum.
  replace (S k - 1) with k by lia. split; [lia|]. nia.
Qed.

Lemma blocks_loop_calls (lessonTitle section : value) (blocks : list value) :
  forall (acc out : list ContentBlock) (w w' : World),
    blocks_loop R lessonTitle section blocks acc w = (Ok out, w') ->
    backend_calls w' = backend_calls w /\ timeouts w' = timeouts w.
Proof.
  induction blocks as [|block rest IH]; intros acc out w w' H.
  - cbn [blocks_loop] in H. inversion H; subst. split; reflexivity.
  - cbn [blocks_loop] in H.
    apply bind_inv_ok in H. destruct H as (id & w1 & Hid & H).
    unfold draw_uuid in Hid. inversion Hid; subst id w1. clear Hid.
    apply lift_inv_ok in H. destruct H as (cb & Hcb & H).
    apply lift_inv_ok in H. destruct H as (sectionTitle & Htitle & H).
    apply bind_inv_ok in H. destruct H as ([] & w2 & Hsend & H).
    unfold sendData, update in Hsend. inversion Hsend; subst w2. clear Hsend.
    apply IH in H. exact H.
Qed.

Lemma sections_loop_calls (lessonTitle : value) (sections : list value) :
  forall (acc out : list ContentBlock) (w w' : World),
    sections_loop R lessonTitle sections acc w = (Ok out, w') ->
    backend_calls w' = backend_calls w /\ timeouts w' = timeouts w.
Proof.
  induction sections as [|section rest IH]; intros acc out w w' H.
  - cbn [sections_loop] in H. inversion H; subst. split; reflexivity.
  - cbn [sections_loop] in H.
    apply lift_inv_ok in H. destruct H as (contentBlocks & Hget & H).
    apply lift_inv_ok in H. destruct H as (blocks & Hiter & H).
    apply bind_inv_ok in H. destruct H as (acc1 & w1 & Hblocks & H).
    apply blocks_loop_calls in Hblocks. destruct Hblocks as [Hb1 Ht1].
    apply IH in H. destruct H as [Hb2 Ht2]. split; congruence.
Qed.

(** The calls of one lesson: its three stages in order, each prompt
    built from what the stages before it returned. *)
Lemma lesson_body_calls (p : Personalization) (lt qt : float) (lessonObj : value)
    (w w' : World) (l : LessonRecord) :
  lesson_body R p lt qt lessonObj w = (Ok l, w') ->
  exists contextPrompt sectionPrompt quizPrompt k1 k2 k3,
    getLessonContextPrompt R (lessonTitle l)
      (with_timeCommitment p (number_text R lt)) = Ok contextPrompt
    /\ getAllSectionsContentPrompt R (context l)
         (with_timeCommitment p (number_text R lt)) = Ok sectionPrompt
    /\ getQuizPrompt R (lessonTitle l) (allContentBlocks l)
         (with_timeCommitment p (number_text R qt)) = Ok quizPrompt
    /\ 1 <= k1 <= MAX_RETRIES /\ 1 <= k2 <= MAX_RETRIES /\ 1 <= k3 <= MAX_RETRIES
    /\ backend_calls w'
       = backend_calls w
         ++ concat (map stage_calls
                      [(contextPrompt, k1); (sectionPrompt, k2); (quizPrompt, k3)])
    /\ waited w <= waited w' <= waited w + 2500 * (k1 + k2 + k3 - 3).
Proof.
  unfold lesson_body. intros H.
  apply lift_inv_ok in H. destruct H as (title & Htitle & H).
  apply lift_inv_ok in H. destruct H as (duration & Hduration & H).
  apply bind_inv_ok in H. destruct H as ([] & w1 & Hsend1 & H).
  unfold sendData, update in Hsend1. inversion Hsend1; subst w1. clear Hsend1.
  apply lift_inv_ok in H. destruct H as (contextPrompt & Hcp & H).
  apply bind_inv_ok in H. destruct H as (ctx & w2 & Hctx & H).
  apply lift_inv_ok in H. destruct H as (sectionPrompt & Hsp & H).
  apply bind_inv_ok in H. destruct H as (sectionContent & w3 & Hsc & H).
  apply lift_inv_ok in H. destruct H as (sections & Hsections & H).
  apply bind_inv_ok in H. destruct H as (blocks & w4 & Hblocks & H).
  apply lift_inv_ok in H. destruct H as (quizPrompt & Hqp & H).
  apply bind_inv_ok in H. destruct H as (quiz & w5 & Hquiz & H).
  apply bind_inv_ok in H. destruct H as ([] & w6 & Hsend2 & H).
  unfold sendData, update in Hsend2. inversion Hsend2; subst w6. clear Hsend2.
  unfold ret in H. inversion H; subst l w'. clear H.
  apply stage_returns in Hctx, Hsc, Hquiz.
  destruct Hctx as (k1 & Hk1 & Hc1 & Hw1).
  destruct Hsc as (k2 & Hk2 & Hc2 & Hw2).
  destruct Hquiz as (k3 & Hk3 & Hc3 & Hw3).
  apply sections_loop_calls in Hblocks. destruct Hblocks as [Hb Ht].
  exists contextPrompt, sectionPrompt, quizPrompt, k1, k2, k3.
  cbn [lessonTitle context allContentBlocks].
  split; [exact Hcp|]. split; [exact Hsp|]. split; [exact Hqp|].
  split; [exact Hk1|]. split; [exact Hk2|]. split; [exact Hk3|].
  split.
  - cbn [backend_calls log_sent map concat]. rewrite Hc3, Hb, Hc2, Hc1.
    cbn [backend_calls log_sent]. rewrite app_nil_r, <- !app_assoc. reflexivity.
  - unfold waited in *. cbn [timeouts log_sent] in *. rewrite Ht in Hw3. lia.
Qed.

Lemma lesson_loop_calls (p : Personalization) (lt qt : float) (lessonObjs : list value) :
  forall (acc out : list LessonRecord) (w w' : World),
    lesson_loop R p lt qt lessonObjs acc w = (Ok out, w') ->
    exists retries,
      length out = length acc + length lessonObjs
      /\ length (backend_calls w')
         = length (backend_calls w) + 3 * length lessonObjs + retries
      /\ retries <= 12 * length lessonObjs
      /\ waited w <= waited w' <= waited w + 2500 * retries.
Proof.
  induction lessonObjs as [|lessonObj rest IH]; intros acc out w w' H;
    cbn [lesson_loop] in H.
  - inversion H; subst. exists 0. cbn [length]. lia.
  - apply bind_inv_ok in H. destruct H as (l & w1 & Hl & H).
    apply lesson_body_calls in Hl.
    destruct Hl as (cp & sp & qp & k1 & k2 & k3 & _ & _ & _ & Hk1 & Hk2 & Hk3 & Hc & Hw).
    apply IH in H. destruct H as (retries & Hlen & Hcalls & Hretries & Hwait).
    assert (Hn : length (backend_calls w1) = length (backend_calls w) + (k1 + k2 + k3)).
    { rewrite Hc. unfold stage_calls. cbn [map concat fst snd].
      rewrite !length_app, !repeat_length. cbn [length]. lia. }
    exists (retries + (k1 + k2 + k3 - 3)).
    unfold MAX_RETRIES in *. rewrite length_app in Hlen. cbn [length] in *. lia.
Qed.

(** The stages of a generation that runs through: two for the course
    and three for each lesson, and four retries for each at most. *)
Lemma generation_cost (message : jsstring) (w w1 : World) (g : Generated) :
  generate_course R message w = (Ok g, w1) ->
  exists retries,
    length (backend_calls w1)
    = length (backend_calls w) + (3 * length (g_lessons g) + 2) + retries
    /\ retries <= 4 * (3 * length (g_lessons g) + 2)
    /\ waited w <= waited w1 <= waited w + 2500 * retries.
Proof.
  unfold generate_course. intros H.
  apply lift_inv_ok in H. destruct H as (req & Hreq & H).
  destruct (negb (truthy (topic req)) || negb (truthy (userId req)));
    [discriminate H|].
  apply lift_inv_ok in H. destruct H as (key & Hkey & H).
  rewrite !bind_sendData in H.
  apply lift_inv_ok in H. destruct H as (syllabusPrompt & Hsp & H).
  apply bind_inv_ok in H. destruct H as (syl & w2 & Hsyl & H).
  apply lift_inv_ok in H. destruct H as (b & Hb & H).
  rewrite bind_sendData in H.
  apply lift_inv_ok in H. destruct H as (lessonObjs & Hobjs & H).
  apply bind_inv_ok in H. destruct H as (lessons & w3 & Hloop & H).
  rewrite bind_sendData in H.
  apply lift_inv_ok in H. destruct H as (postPrompt & Hpp & H).
  apply bind_inv_ok in H. destruct H as (post & w4 & Hpost & H).
  unfold ret in H. inversion H; subst g w1. clear H.
  apply stage_returns in Hsyl, Hpost.
  destruct Hsyl as (k1 & Hk1 & Hc1 & Hw1). destruct Hpost as (k2 & Hk2 & Hc2 & Hw2).
  apply lesson_loop_calls in Hloop.
  destruct Hloop as (retries & Hlen & Hcalls & Hretries & Hwait).
  cbn [g_lessons]. cbn [length] in Hlen.
  exists (retries + (k1 - 1) + (k2 - 1)).
  unfold stage_calls in *. cbn [fst snd] in *.
  rewrite Hc2. rewrite length_app, repeat_length.
  cbn [backend_calls log_sent] in *. rewrite Hc1 in Hcalls.
  rewrite length_app, repeat_length in Hcalls. cbn [backend_calls log_sent] in *.
  unfold waited in *. cbn [timeouts log_sent] in *.
  unfold MAX_RETRIES in *. rewrite Hlen. lia.
Qed.

End Calls.

(** X19: the backend calls of one lesson that runs through are those of
    its context stage, then of its sections stage, then of its quiz stage;
    each stage repeats one prompt between one and [MAX_RETRIES] times; the
    sections prompt is built from the context returned and the quiz prompt
    from the blocks flattened; each retry costs 2500 ms of waiting at
    most. *)
Theorem X19_lesson_call_trace (R : Runtime) (p : Personalization) (lt qt : float)
    (lessonObj : value) (w w' : World) (l : LessonRecord)
    (Hbody : lesson_body R p lt qt lessonObj w = (Ok l, w')) :
  exists contextPrompt sectionPrompt quizPrompt k1 k2 k3,
    getLessonContextPrompt R (lessonTitle l)
      (with_timeCommitment p (number_text R lt)) = Ok contextPrompt
    /\ getAllSectionsContentPrompt R (context l)
         (with_timeCommitment p (number_text R lt)) = Ok sectionPrompt
    /\ getQuizPrompt R (lessonTitle l) (allContentBlocks l)
         (with_timeCommitment p (number_text R qt)) = Ok quizPrompt
    /\ 1 <= k1 <= MAX_RETRIES /\ 1 <= k2 <= MAX_RETRIES /\ 1 <= k3 <= MAX_RETRIES
    /\ backend_calls w'
       = backend_calls w
         ++ concat (map stage_calls
                      [(contextPrompt, k1); (sectionPrompt, k2); (quizPrompt, k3)])
    /\ waited w <= waited w' <= waited w + 2500 * (k1 + k2 + k3 - 3).
Proof. exact (lesson_body_calls R p lt qt lessonObj w w' l Hbody). Qed.

(** X20: when the generation stages of a run go through, with [n]
    lessons, they have made [3 * n + 2] backend calls plus one per retry,
    at most four retries per stage, and have waited 2500 ms per retry at
    most. *)
Theorem X20_generation_cost (R : Runtime) (message : jsstring) (w w1 : World)
    (g : Generated)
    (Hgen : generate_course R message w = (Ok g, w1)) :
  let stages := 3 * length (g_lessons g) + 2 in
  exists retries,
    length (backend_calls w1) = length (backend_calls w) + stages + retries
    /\ retries <= (MAX_RETRIES - 1) * stages
    /\ waited w <= waited w1 <= waited w + 2500 * retries.
Proof. exact (generation_cost R message w w1 g Hgen). Qed.

(** X19, witness: a lesson against the backend that fails twice before
    each answer. *)
Lemma X19_lesson_call_trace_witness :
  let R := Demo.flaky in
  exists l w',
    lesson_body R (personalization Demo.destructured) 160%float 40%float
      (VObj [(lit "title", VStr (lit "Numbers"))]) fresh = (Ok l, w')
    /\ exists contextPrompt sectionPrompt quizPrompt k1 k2 k3,
         getLessonContextPrompt R (lessonTitle l)
           (with_timeCommitment (personalization Demo.destructured)
              (number_text R 160%float)) = Ok contextPrompt
         /\ getAllSectionsContentPrompt R (context l)
              (with_timeCommitment (personalization Demo.destructured)
                 (number_text R 160%float)) = Ok sectionPrompt
         /\ getQuizPrompt R (lessonTitle l) (allContentBlocks l)
              (with_timeCommitment (personalization Demo.destructured)
                 (number_text R 40%float)) = Ok quizPrompt
         /\ 1 <= k1 <= MAX_RETRIES /\ 1 <= k2 <= MAX_RETRIES /\ 1 <= k3 <= MAX_RETRIES
         /\ backend_calls w'
            = backend_calls fresh
              ++ concat (map stage_calls
                           [(contextPrompt, k1); (sectionPrompt, k2); (quizPrompt, k3)])
         /\ waited fresh <= waited w' <= waited fresh + 2500 * (k1 + k2 + k3 - 3).
Proof.
  intros R.
  destruct (lesson_body R (personalization Demo.destructured) 160%float 40%float
              (VObj [(lit "title", VStr (lit "Numbers"))]) fresh)
    as [[l|e] w'] eqn:Hbody.
  - exists l, w'. split; [reflexivity|].
    exact (X19_lesson_call_trace R _ _ _ _ fresh w' l Hbody).
  - vm_compute in Hbody. discriminate Hbody.
Defined.

(** X20, witness: the example request against the backend that fails
    twice before each answer. *)
Lemma X20_generation_cost_witness :
  let R := Demo.flaky in
  let g := Demo.generated R Demo.request in
  let w1 := snd (generate_course R Demo.request fresh) in
  let stages := 3 * length (g_lessons g) + 2 in
  exists retries,
    length (backend_calls w1) = length (backend_calls fresh) + stages + retries
    /\ retries <= (MAX_RETRIES - 1) * stages
    /\ waited fresh <= waited w1 <= waited fresh + 2500 * retries.
Proof.
  intros R g w1.
  assert (Hgen : generate_course R Demo.request fresh = (Ok g, w1))
    by (vm_compute; reflexivity).
  exact (X20_generation_cost R Demo.request fresh w1 g Hgen).
Defined.



(** ** The port *)

Section PortFacts.

Lemma count_up_In (count : nat) :
  forall from n, (from <= n < from + N.of_nat count)%N -> In n (count_up from count).
Proof.
  induction count as [|c IH]; intros from n H; [lia|].
  cbn [count_up]. destruct (N.eq_dec from n) as [->|Hne]; [left; reflexivity|].
  right. apply IH. lia.
Qed.

Lemma ports_read : forallb port_read ports = true.
Proof. vm_compute. reflexivity. Qed.

End PortFacts.

(** X21: the port is never 0 and never [NaN]; it is 3001 when [PORT] is
    unset, empty or blank; and for every number from 1 to 65535 written in
    decimal it is that number. *)
Theorem X21_port (env : jsstring -> option jsstring) :
  PrimFloat.is_zero (PORT env) = false
  /\ PrimFloat.is_nan (PORT env) = false
  /\ (env (lit "PORT") = None -> PORT env = 3001%float)
  /\ (forall s, env (lit "PORT") = Some s -> trim s = [] -> PORT env = 3001%float)
  /\ (forall n : N, (1 <= n <= 65535)%N ->
        PORT (with_port (numeral n)) = float_of_Z (Z.of_N n)).
Proof.
  split; [|split; [|split; [|split]]].
  - unfold PORT. cbv zeta.
    destruct (truthy (VNum _)) eqn:E; [|reflexivity].
    cbn [truthy] in E. apply negb_true_iff, orb_false_iff in E. exact (proj1 E).
  - unfold PORT. cbv zeta.
    destruct (truthy (VNum _)) eqn:E; [|reflexivity].
    cbn [truthy] in E. apply negb_true_iff, orb_false_iff in E. exact (proj2 E).
  - intros H. unfold PORT. rewrite H. reflexivity.
  - intros s H Ht. unfold PORT, StringToNumber. rewrite H, Ht. reflexivity.
  - intros n Hn.
    pose proof (proj1 (forallb_forall _ _) ports_read n) as H.
    apply Leibniz.eqb_spec. apply H.
    apply count_up_In. rewrite N2Nat.id. lia.
Qed.


(* ================================================================== *)
(** * The prompt builders *)

Section ValueInduction.

Variable P : value -> Prop.
Hypothesis HUndefined : P VUndefined.
Hypothesis HNull : P VNull.
Hypothesis HBool : forall b, P (VBool b).
Hypothesis HNum : forall x, P (VNum x).
Hypothesis HStr : forall s, P (VStr s).
Hypothesis HArr : forall elems, Forall P elems -> P (VArr elems).
Hypothesis HObj : forall props, P (VObj props).

(** Induction on a value, the elements of an array included. *)
Fixpoint value_elements_ind (v : value) : P v :=
  match v with
  | VUndefined => HUndefined
  | VNull => HNull
  | VBool b => HBool b
  | VNum x => HNum x
  | VStr s => HStr s
  | VArr elems =>
      HArr elems
        ((fix all (l : list value) : Forall P l :=
            match l with
            | [] => Forall_nil P
            | x :: r => Forall_cons x (value_elements_ind x) (all r)
            end) elems)
  | VObj props => HObj props
  end.

End ValueInduction.

Section Printing.

Variable nts : float -> jsstring.

Lemma settles_obind {A B} (o : outcome A) (k : A -> outcome B) (b c : bool) :
  settles o b -> (forall a, o = Ok a -> settles (k a) c) ->
  settles (obind o k) (b && c).
Proof.
  destruct o as [a|e]; cbn.
  - intros -> H. exact (H a eq_refl).
  - intros [-> ->] _. split; reflexivity.
Qed.

Lemma ToString_settles (v : value) : settles (ToString nts v) (convertible v).
Proof.
  induction v as [| |b|x|s|elems IH|props] using value_elements_ind;
    try reflexivity.
  - destruct b; reflexivity.
  - cbn [ToString convertible].
    match goal with
    | |- settles (?join true elems) _ =>
        assert (H : forall first, settles (join first elems) (forallb convertible elems));
        [|exact (H true)]
    end.
    induction IH as [|e r He _ IHr]; intros first; [reflexivity|].
    cbn [forallb]. apply settles_obind.
    + destruct e; try reflexivity; exact He.
    + intros part _.
      replace (forallb convertible r) with (forallb convertible r && true)
        by apply andb_true_r.
      apply settles_obind; [apply IHr | reflexivity].
  - cbn [ToString convertible]. destruct (has_key props _); cbn; auto.
Qed.

Lemma piece_settles (x : Prompts.part) (Hread : reads_typed x) :
  settles (Prompts.piece nts x) (prints x).
Proof.
  destruct x as [s|units|v|[v|e]]; cbn; try reflexivity.
  - apply ToString_settles.
  - apply ToString_settles.
  - split; [apply Hread|]; reflexivity.
Qed.

Lemma line_settles (l : list Prompts.part) :
  Forall reads_typed l -> settles (Prompts.line nts l) (forallb prints l).
Proof.
  induction 1 as [|x r Hx _ IH]; [reflexivity|].
  cbn [Prompts.line forallb]. apply settles_obind.
  - apply piece_settles. exact Hx.
  - intros a _.
    replace (forallb prints r) with (forallb prints r && true) by apply andb_true_r.
    apply settles_obind; [exact IH | reflexivity].
Qed.

Lemma render_settles (lines : list (list Prompts.part)) :
  Forall (Forall reads_typed) lines ->
  settles (Prompts.render nts lines) (forallb (forallb prints) lines).
Proof.
  induction 1 as [|l rest Hl Hrest IH]; [reflexivity|].
  cbn [Prompts.render forallb]. apply settles_obind.
  - apply line_settles. exact Hl.
  - intros a _. destruct rest as [|l' rest']; [reflexivity|].
    replace (forallb (forallb prints) (l' :: rest'))
      with (forallb (forallb prints) (l' :: rest') && true) by apply andb_true_r.
    apply settles_obind; [exact IH | reflexivity].
Qed.

Lemma convertible_or_label (v : value) (label : String.string) :
  convertible (Prompts.or_label (default_to v (VStr [])) label) = convertible v.
Proof.
  unfold Prompts.or_label.
  destruct v as [| |b|x|s|elems|props]; cbn [default_to truthy]; try reflexivity.
  - destruct b; reflexivity.
  - destruct (negb _); reflexivity.
  - destruct s; reflexivity.
Qed.

End Printing.

Section Reads.

Lemma reads_typed_get (v : value) (k : jsstring) : reads_typed (Prompts.E (get v k)).
Proof. intros e H. inversion H as [Hget]. exact (get_throws v k e Hget). Qed.

Lemma reads_typed_T (s : String.string) : reads_typed (Prompts.T s).
Proof. intros e H. discriminate H. Qed.

Lemma reads_typed_U (units : jsstring) : reads_typed (Prompts.U units).
Proof. intros e H. discriminate H. Qed.

Lemma reads_typed_V (v : value) : reads_typed (Prompts.V v).
Proof. intros e H. discriminate H. Qed.

Lemma reads_typed_Ok (v : value) : reads_typed (Prompts.E (Ok v)).
Proof. intros e H. discriminate H. Qed.

Lemma reads_typed_Throw : reads_typed (Prompts.E (Throw TypeError)).
Proof. intros e H. inversion H. reflexivity. Qed.

End Reads.

Create HintDb prompts.
#[local] Hint Resolve reads_typed_get reads_typed_T reads_typed_U reads_typed_V
  reads_typed_Ok reads_typed_Throw : prompts.

Lemma settles_as {A} (o : outcome A) (b c : bool) : settles o b -> b = c -> settles o c.
Proof. intros H <-. exact H. Qed.

(** The template of a builder settles by the substitutions it prints. *)
Ltac template_settles :=
  match goal with
  | |- settles (Prompts.render ?nts ?lines) _ =>
      let H := fresh "H" in
      assert (H : Forall (Forall reads_typed) lines)
        by (repeat first [apply Forall_nil | apply Forall_cons]; auto with prompts);
      apply (render_settles nts) in H;
      cbv beta iota delta [forallb prints andb] in H;
      cbn [Prompts.with_defaults level preferredTopics dislikedTopics goal
             timeCommitment learningStyle] in H;
      rewrite ?convertible_or_label in H;
      apply (settles_as _ _ _ H); clear H;
      unfold convertible_profile;
      repeat match goal with
             | |- context [convertible ?v] => destruct (convertible v)
             end;
      reflexivity
  end.

Section BuilderFacts.

Variable nts : float -> jsstring.
Variable stringify : list ContentBlock -> jsstring.

Lemma getSyllabusPrompt_settles (topic : value) (p : Personalization) :
  settles (Prompts.getSyllabusPrompt nts topic p)
    (convertible topic && convertible_profile p).
Proof. unfold Prompts.getSyllabusPrompt. cbv zeta. template_settles. Qed.

Lemma getLessonContextPrompt_settles (lessonTitle : value) (p : Personalization) :
  settles (Prompts.getLessonContextPrompt nts lessonTitle p)
    (convertible lessonTitle && convertible_profile p).
Proof. unfold Prompts.getLessonContextPrompt. cbv zeta. template_settles. Qed.

Lemma getQuizPrompt_settles (lessonTitle : value) (contentBlocks : list ContentBlock)
    (p : Personalization) :
  settles (Prompts.getQuizPrompt nts stringify lessonTitle contentBlocks p)
    (convertible lessonTitle && convertible_profile p).
Proof. unfold Prompts.getQuizPrompt. cbv zeta. template_settles. Qed.

Lemma getPostCourseDataPrompt_settles (topic : value) (p : Personalization) :
  settles (Prompts.getPostCourseDataPrompt nts topic p)
    (convertible topic && convertible_profile p).
Proof. unfold Prompts.getPostCourseDataPrompt. cbv zeta. template_settles. Qed.

Lemma getAllSectionsContentPrompt_settles (context : value) (p : Personalization) :
  settles (Prompts.getAllSectionsContentPrompt nts context p)
    (negb (is_nullish context)
     && convertible (field context "title")
     && convertible (field context "objective")
     && convertible_profile p).
Proof.
  unfold Prompts.getAllSectionsContentPrompt. cbv zeta.
  destruct (is_nullish context) eqn:Hcontext.
  - rewrite !(get_nullish context _ Hcontext). template_settles.
  - rewrite !(field_get context _ Hcontext). template_settles.
Qed.

End BuilderFacts.

(** X22: the builders of the syllabus, lesson-context, quiz and
    post-course prompts return a prompt exactly when the subject (the topic
    or the lesson title) and the six personalization fields can be printed:
    each is anything but an object with an own [toString] property or an
    array holding one.  Otherwise they throw, and what they throw is a
    TypeError. *)
Theorem X22_prompt_failures (nts : float -> jsstring)
    (stringify : list ContentBlock -> jsstring) (subject : value)
    (contentBlocks : list ContentBlock) (p : Personalization) :
  let printable := convertible subject && convertible_profile p in
  settles (Prompts.getSyllabusPrompt nts subject p) printable
  /\ settles (Prompts.getLessonContextPrompt nts subject p) printable
  /\ settles (Prompts.getQuizPrompt nts stringify subject contentBlocks p) printable
  /\ settles (Prompts.getPostCourseDataPrompt nts subject p) printable.
Proof.
  intros printable. subst printable. split; [|split; [|split]].
  - apply getSyllabusPrompt_settles.
  - apply getLessonContextPrompt_settles.
  - apply getQuizPrompt_settles.
  - apply getPostCourseDataPrompt_settles.
Qed.

(** X23: the builder of the sections prompt reads [context.title] and
    [context.objective]: it throws a TypeError when the lesson context is
    [null] or [undefined], or when the title, the objective or a
    personalization field cannot be printed, and returns a prompt in every
    other case, a context without title or objective included. *)
Theorem X23_sections_prompt_failures (nts : float -> jsstring) (context : value)
    (p : Personalization) :
  settles (Prompts.getAllSectionsContentPrompt nts context p)
    (negb (is_nullish context)
     && convertible (field context "title")
     && convertible (field context "objective")
     && convertible_profile p).
Proof. apply getAllSectionsContentPrompt_settles. Qed.

Section Defaults.

Lemma or_label_alike (v v' : value) (label : String.string) :
  alike v v' ->
  Prompts.or_label (default_to v (VStr [])) label
  = Prompts.or_label (default_to v' (VStr [])) label.
Proof.
  intros [->|[H H']]; [reflexivity|]. unfold Prompts.or_label.
  assert (Hd : forall x, truthy x = false -> truthy (default_to x (VStr [])) = false)
    by (intros x Hx; destruct x; try exact Hx; reflexivity).
  rewrite (Hd v H), (Hd v' H'). reflexivity.
Qed.

End Defaults.

(** Rewrites the substitutions of one profile into those of a profile
    alike. *)
Ltac same_substitutions H :=
  destruct H as (H1 & H2 & H3 & H4 & H5 & H6);
  cbv zeta;
  cbn [Prompts.with_defaults level preferredTopics dislikedTopics goal
         timeCommitment learningStyle];
  rewrite ?(fun label => or_label_alike _ _ label H1),
          ?(fun label => or_label_alike _ _ label H2),
          ?(fun label => or_label_alike _ _ label H3),
          ?(fun label => or_label_alike _ _ label H4),
          ?(fun label => or_label_alike _ _ label H5),
          ?(fun label => or_label_alike _ _ label H6);
  reflexivity.

(** X24: the builders do not tell one falsy value of a personalization
    field (missing, [null], [false], [0], [NaN], the empty string) from
    another: two profiles whose fields are pairwise equal or both falsy
    give the same five prompts. *)
Theorem X24_falsy_fields_are_alike (nts : float -> jsstring)
    (stringify : list ContentBlock -> jsstring) (p p' : Personalization)
    (Hsame : same_profile p p') :
  (forall topic,
     Prompts.getSyllabusPrompt nts topic p = Prompts.getSyllabusPrompt nts topic p')
  /\ (forall lessonTitle,
        Prompts.getLessonContextPrompt nts lessonTitle p
        = Prompts.getLessonContextPrompt nts lessonTitle p')
  /\ (forall context,
        Prompts.getAllSectionsContentPrompt nts context p
        = Prompts.getAllSectionsContentPrompt nts context p')
  /\ (forall lessonTitle contentBlocks,
        Prompts.getQuizPrompt nts stringify lessonTitle contentBlocks p
        = Prompts.getQuizPrompt nts stringify lessonTitle contentBlocks p')
  /\ (forall topic,
        Prompts.getPostCourseDataPrompt nts topic p
        = Prompts.getPostCourseDataPrompt nts topic p').
Proof.
  split; [|split; [|split; [|split]]]; intros.
  - unfold Prompts.getSyllabusPrompt. same_substitutions Hsame.
  - unfold Prompts.getLessonContextPrompt. same_substitutions Hsame.
  - unfold Prompts.getAllSectionsContentPrompt. same_substitutions Hsame.
  - unfold Prompts.getQuizPrompt. same_substitutions Hsame.
  - unfold Prompts.getPostCourseDataPrompt. same_substitutions Hsame.
Qed.

(* ================================================================== *)
(** * The errors of a run *)

Section Typed.

Lemma typed_Ok {A} (a : A) : typed (Ok a).
Proof. intros e H. discriminate H. Qed.

Lemma typed_Throw {A} : typed (@Throw A TypeError).
Proof. intros e H. inversion H. reflexivity. Qed.

Lemma typed_obind {A B} (o : outcome A) (k : A -> outcome B) :
  typed o -> (forall a, typed (k a)) -> typed (obind o k).
Proof.
  intros Ho Hk e. destruct o as [a|e']; cbn [obind].
  - apply Hk.
  - intros H. inversion H; subst. exact (Ho e eq_refl).
Qed.

Lemma typed_settles {A} (o : outcome A) (b : bool) : settles o b -> typed o.
Proof.
  intros H e He. rewrite He in H. destruct H as [H _]. exact H.
Qed.

Lemma typed_get (v : value) (k : jsstring) : typed (get v k).
Proof. intros e. apply get_throws. Qed.

Lemma typed_iterate (v : value) : typed (iterate v).
Proof. destruct v; first [apply typed_Ok | apply typed_Throw]. Qed.

Lemma typed_array_elements (v : value) : typed (array_elements v).
Proof. destruct v; first [apply typed_Ok | apply typed_Throw]. Qed.

Lemma typed_ToString (nts : float -> jsstring) (v : value) : typed (ToString nts v).
Proof. exact (typed_settles _ _ (ToString_settles nts v)). Qed.

Lemma typed_ToNumber (nts : float -> jsstring) (v : value) : typed (ToNumber nts v).
Proof.
  destruct v as [| |b|x|s|elems|props]; try apply typed_Ok.
  - destruct b; apply typed_Ok.
  - apply typed_obind; [apply typed_ToString | intros; apply typed_Ok].
  - apply typed_obind; [apply typed_ToString | intros; apply typed_Ok].
Qed.

Lemma typed_mapi_outcome_from {A B} (f : nat -> A -> outcome B) (l : list A) :
  (forall i x, typed (f i x)) -> forall idx, typed (mapi_outcome_from f idx l).
Proof.
  intros Hf. induction l as [|x r IH]; intros idx; [apply typed_Ok|].
  cbn [mapi_outcome_from]. apply typed_obind; [apply Hf|]. intros y.
  apply typed_obind; [apply IH | intros; apply typed_Ok].
Qed.

End Typed.

(** Reads and conversions thrown through a chain of [obind]. *)
Ltac typed_chain :=
  repeat first
    [ apply typed_Ok
    | apply typed_get
    | apply typed_iterate
    | apply typed_array_elements
    | apply typed_ToString
    | apply typed_ToNumber
    | apply typed_obind; [|intros] ].

Section TypedSteps.

Variable R : Runtime.

Lemma typed_payload_if (block : value) (tag : jsstring) : typed (payload_if block tag).
Proof.
  unfold payload_if. apply typed_obind; [apply typed_get|]. intros t.
  destruct (is_literal t tag); typed_chain.
Qed.

Lemma typed_make_contentBlock (id : jsstring) (block : value) :
  typed (make_contentBlock id block).
Proof.
  unfold make_contentBlock.
  repeat first [apply typed_Ok | apply typed_get | apply typed_payload_if
               | apply typed_obind; [|intros] ].
Qed.

Lemma typed_time_budgets (timeCommitment syllabusJson : value) :
  typed (time_budgets R timeCommitment syllabusJson).
Proof. unfold time_budgets. typed_chain. Qed.

Lemma typed_question_create (q : value) : typed (question_create q).
Proof. unfold question_create. typed_chain. Qed.

Lemma typed_quiz_create (l : LessonRecord) : typed (quiz_create R l).
Proof.
  unfold quiz_create, concat_literal.
  repeat first
    [ apply typed_Ok | apply typed_get | apply typed_array_elements
    | apply typed_ToString
    | apply typed_mapi_outcome_from; intros; apply typed_question_create
    | apply typed_obind; [|intros] ].
Qed.

Lemma typed_lesson_create (idx : nat) (l : LessonRecord) : typed (lesson_create R idx l).
Proof.
  unfold lesson_create.
  repeat first [apply typed_Ok | apply typed_get | apply typed_quiz_create
               | apply typed_obind; [|intros] ].
Qed.

Lemma typed_course_create_data (syllabusJson userId postCourse : value)
    (lessons : list LessonRecord) :
  typed (course_create_data R syllabusJson userId lessons postCourse).
Proof.
  unfold course_create_data.
  repeat first
    [ apply typed_Ok | apply typed_get
    | apply typed_mapi_outcome_from; intros; apply typed_lesson_create
    | apply typed_obind; [|intros] ].
Qed.

Lemma typed_destructure_personalization (personalization : value) :
  typed (destructure_personalization personalization).
Proof. unfold destructure_personalization. cbv zeta. typed_chain. Qed.

Lemma destructure_request_raises (message : jsstring) (e : error) :
  destructure_request R message = Throw e -> e = SyntaxError \/ e = TypeError.
Proof.
  unfold destructure_request. destruct (JSON_parse R message) as [parsed|].
  - intros H. right. revert e H.
    change (typed
      (obind (get parsed (lit "topic")) (fun topic =>
       obind (get parsed (lit "userId")) (fun userId =>
       obind (get parsed (lit "personalization")) (fun p =>
       obind (destructure_personalization (default_to p (VObj []))) (fun pers =>
       Ok {| topic := topic; userId := userId; personalization := pers |})))))).
    repeat first [apply typed_Ok | apply typed_get
                 | apply typed_destructure_personalization
                 | apply typed_obind; [|intros] ].
  - intros H. inversion H. left. reflexivity.
Qed.

Lemma getRandomApiKey_raises (e : error) :
  getRandomApiKey R = Throw e -> exists keyIndex, e = MissingApiKey (key_name keyIndex).
Proof.
  unfold getRandomApiKey. cbv zeta. intros H.
  exists (random_below R TOTAL_KEYS + 1). unfold key_name.
  destruct (process_env R _) as [[|c key]|]; cbn [truthy] in H;
    inversion H; reflexivity.
Qed.

End TypedSteps.

Section Raising.

Variable R : Runtime.
Hypothesis Hprompts : typed_prompts R.

Lemma raises_ret {A} (P : error -> Prop) (a : A) : raises P (ret a).
Proof. intros w e w' H. discriminate H. Qed.

Lemma raises_throw {A} (P : error -> Prop) (e : error) : P e -> raises P (@throw A e).
Proof. intros He w e' w' H. inversion H. subst. exact He. Qed.

Lemma raises_lift {A} (P : error -> Prop) (o : outcome A) :
  (forall e, o = Throw e -> P e) -> raises P (lift o).
Proof. intros Ho w e w' H. inversion H. apply Ho. assumption. Qed.

Lemma raises_bind {A B} (P : error -> Prop) (m : M A) (k : A -> M B) :
  raises P m -> (forall a, raises P (k a)) -> raises P (bind m k).
Proof.
  intros Hm Hk w e w'. unfold bind.
  destruct (m w) as [[a|e'] w1] eqn:E.
  - apply Hk.
  - intros H. inversion H. subst. exact (Hm w e w' E).
Qed.

Lemma raises_update (P : error -> Prop) (f : World -> World) : raises P (update f).
Proof. intros w e w' H. discriminate H. Qed.

Lemma raises_draw_uuid (P : error -> Prop) : raises P (draw_uuid R).
Proof. intros w e w' H. discriminate H. Qed.

Lemma raises_typed {A} (o : outcome A) : typed o -> raises raised_by_handler (lift o).
Proof.
  intros Ho. apply raises_lift. intros e He. right. left. exact (Ho e He).
Qed.

Lemma raises_generate (prompt : jsstring) :
  raises raised_by_handler (generateValidJsonWithRetries R prompt MAX_RETRIES).
Proof.
  intros w e w' H.
  pose proof (attempts_trace normalize R prompt MAX_RETRIES 4 1 w eq_refl) as Htrace.
  cbv zeta in Htrace. destruct Htrace as (k & _ & _ & _ & _ & _ & Hres).
  unfold generateValidJsonWithRetries, generate_with, MAX_RETRIES in H.
  unfold MAX_RETRIES in Hres. rewrite H in Hres. cbn [fst] in Hres.
  destruct Hres as [-> _]. repeat right. reflexivity.
Qed.

Lemma raises_blocks_loop (lessonTitle section : value) (blocks : list value) :
  forall acc, raises raised_by_handler (blocks_loop R lessonTitle section blocks acc).
Proof.
  induction blocks as [|block rest IH]; intros acc; [apply raises_ret|].
  cbn [blocks_loop].
  apply raises_bind; [apply raises_draw_uuid|]. intros id.
  apply raises_bind; [apply raises_typed, typed_make_contentBlock|]. intros cb.
  apply raises_bind; [apply raises_typed, typed_get|]. intros sectionTitle.
  apply raises_bind; [apply raises_update|]. intros _. apply IH.
Qed.

Lemma raises_sections_loop (lessonTitle : value) (sections : list value) :
  forall acc, raises raised_by_handler (sections_loop R lessonTitle sections acc).
Proof.
  induction sections as [|section rest IH]; intros acc; [apply raises_ret|].
  cbn [sections_loop].
  apply raises_bind; [apply raises_typed, typed_get|]. intros contentBlocks.
  apply raises_bind; [apply raises_typed, typed_iterate|]. intros blocks.
  apply raises_bind; [apply raises_blocks_loop|]. intros acc'. apply IH.
Qed.

Lemma raises_lesson_body (p : Personalization) (lt qt : float) (lessonObj : value) :
  raises raised_by_handler (lesson_body R p lt qt lessonObj).
Proof.
  destruct Hprompts as (_ & Hcontext & Hsections & Hquiz & _).
  unfold lesson_body.
  apply raises_bind; [apply raises_typed, typed_get|]. intros lessonTitle.
  apply raises_bind; [apply raises_typed, typed_get|]. intros lessonDuration.
  apply raises_bind; [apply raises_update|]. intros _.
  apply raises_bind; [apply raises_typed, Hcontext|]. intros contextPrompt.
  apply raises_bind; [apply raises_generate|]. intros context.
  apply raises_bind; [apply raises_typed, Hsections|]. intros sectionPrompt.
  apply raises_bind; [apply raises_generate|]. intros sectionContent.
  apply raises_bind.
  { apply raises_typed. apply typed_obind; [apply typed_get | apply typed_iterate]. }
  intros sections.
  apply raises_bind; [apply raises_sections_loop|]. intros allContentBlocks.
  apply raises_bind; [apply raises_typed, Hquiz|]. intros quizPrompt.
  apply raises_bind; [apply raises_generate|]. intros quizJson.
  apply raises_bind; [apply raises_update|]. intros _. apply raises_ret.
Qed.

Lemma raises_lesson_loop (p : Personalization) (lt qt : float) (lessonObjs : list value) :
  forall acc, raises raised_by_handler (lesson_loop R p lt qt lessonObjs acc).
Proof.
  induction lessonObjs as [|lessonObj rest IH]; intros acc; [apply raises_ret|].
  cbn [lesson_loop].
  apply raises_bind; [apply raises_lesson_body|]. intros l. apply IH.
Qed.

Lemma raises_generate_course (message : jsstring) :
  raises raised_by_handler (generate_course R message).
Proof.
  destruct Hprompts as (Hsyllabus & _ & _ & _ & Hpost).
  unfold generate_course.
  apply raises_bind.
  { apply raises_lift. intros e He.
    destruct (destructure_request_raises R message e He) as [->| ->];
      [left | right; left]; reflexivity. }
  intros req. destruct (negb (truthy (topic req)) || negb (truthy (userId req))).
  { apply raises_throw. right. right. left. reflexivity. }
  apply raises_bind.
  { apply raises_lift. intros e He. right. right. right. left.
    exact (getRandomApiKey_raises R e He). }
  intros _.
  apply raises_bind; [apply raises_update|]. intros _.
  apply raises_bind; [apply raises_update|]. intros _.
  apply raises_bind; [apply raises_typed, Hsyllabus|]. intros syllabusPrompt.
  apply raises_bind; [apply raises_generate|]. intros syllabusJson.
  apply raises_bind; [apply raises_typed, typed_time_budgets|]. intros b.
  apply raises_bind; [apply raises_update|]. intros _.
  apply raises_bind.
  { apply raises_typed. apply typed_obind; [apply typed_get | apply typed_iterate]. }
  intros lessonObjs.
  apply raises_bind; [apply raises_lesson_loop|]. intros lessons.
  apply raises_bind; [apply raises_update|]. intros _.
  apply raises_bind; [apply raises_typed, Hpost|]. intros postCoursePrompt.
  apply raises_bind; [apply raises_generate|]. intros postCourse. apply raises_ret.
Qed.

Lemma raises_persist (g : Generated) :
  raises (fun e => e = TypeError \/ e = PersistenceError) (persist R g).
Proof.
  unfold persist.
  apply raises_bind; [apply raises_update|]. intros _.
  apply raises_bind.
  { apply raises_lift. intros e He. left.
    exact (typed_course_create_data R _ _ _ _ e He). }
  intros data. apply raises_bind.
  { intros w e w'. unfold db_create.
    destruct (db_course_create R data); intros H; inversion H. right. reflexivity. }
  intros created. apply raises_bind.
  { apply raises_lift. intros e He. left. exact (get_throws _ _ e He). }
  intros courseId.
  apply raises_bind; [apply raises_update|]. intros _.
  apply raises_bind; [apply raises_update|]. intros _. apply raises_update.
Qed.

(** What the [try] block throws, and in which part of it. *)
Lemma try_block_raises (message : jsstring) (w w1 : World) (e : error) :
  try_block R message w = (Throw e, w1) ->
  (raised_by_handler e /\ db_calls w1 = db_calls w)
  \/ ((e = TypeError \/ e = PersistenceError)
      /\ In (Notice SavingToDatabase) (sent w1)).
Proof.
  unfold try_block, bind.
  destruct (generate_course R message w) as [[g|e'] w0] eqn:Egen.
  - intros H. right. split; [exact (raises_persist g w0 e w1 H)|].
    destruct (persist_cases R g w0)
      as [(data & created & courseId & _ & _ & Hp)|(e2 & w2 & Hp & Hs & _)];
      rewrite Hp in H; inversion H; subst.
    rewrite Hs. apply in_or_app. right. left. reflexivity.
  - intros H. inversion H; subst. left.
    split; [exact (raises_generate_course message w e w1 Egen)|].
    pose proof (stays_generate_course R message w) as Hq.
    rewrite Egen in Hq. destruct Hq as (Hdb & _). exact Hdb.
Qed.

End Raising.

(** X24, witness: no field sent, and every field falsy in its own way. *)
Lemma X24_falsy_fields_are_alike_witness :
  (forall topic,
     Prompts.getSyllabusPrompt Reference.Number_toString topic Samples.absent
     = Prompts.getSyllabusPrompt Reference.Number_toString topic Samples.falsy)
  /\ (forall lessonTitle,
        Prompts.getLessonContextPrompt Reference.Number_toString lessonTitle
          Samples.absent
        = Prompts.getLessonContextPrompt Reference.Number_toString lessonTitle
            Samples.falsy)
  /\ (forall context,
        Prompts.getAllSectionsContentPrompt Reference.Number_toString context
          Samples.absent
        = Prompts.getAllSectionsContentPrompt Reference.Number_toString context
            Samples.falsy)
  /\ (forall lessonTitle contentBlocks,
        Prompts.getQuizPrompt Reference.Number_toString Samples.stringify lessonTitle
          contentBlocks Samples.absent
        = Prompts.getQuizPrompt Reference.Number_toString Samples.stringify lessonTitle
            contentBlocks Samples.falsy)
  /\ (forall topic,
        Prompts.getPostCourseDataPrompt Reference.Number_toString topic Samples.absent
        = Prompts.getPostCourseDataPrompt Reference.Number_toString topic
            Samples.falsy).
Proof.
  assert (H : same_profile Samples.absent Samples.falsy)
    by (repeat split; right; split; reflexivity).
  exact (X24_falsy_fields_are_alike Reference.Number_toString Samples.stringify
           Samples.absent Samples.falsy H).
Defined.

Section Openings.

Variable nts : float -> jsstring.

(** A template whose first line is empty and whose second line starts with
    literal text returns a prompt that starts with a line feed and that
    text. *)
Lemma render_opening (t : String.string) (l : list Prompts.part)
    (rest : list (list Prompts.part)) (s : jsstring) :
  Prompts.render nts ([] :: (Prompts.T t :: l) :: rest) = Ok s ->
  exists b, s = 10%N :: Prompts.text t ++ b.
Proof.
  cbn [Prompts.render Prompts.line Prompts.piece obind].
  destruct (Prompts.line nts l) as [b|e]; cbn [obind]; [|discriminate].
  destruct rest as [|l' rest'].
  - cbn [obind app]. intros H. inversion H. exists b. reflexivity.
  - destruct (Prompts.render nts (l' :: rest')) as [c|e]; cbn [obind app];
      [|discriminate].
    intros H. inversion H. exists (b ++ 10%N :: c).
    rewrite <- app_assoc. reflexivity.
Qed.

Lemma openings_differ (t t' : String.string) (b b' : jsstring) :
  firstn 32 (Prompts.text t) <> firstn 32 (Prompts.text t') ->
  length (Prompts.text t) >= 32 -> length (Prompts.text t') >= 32 ->
  10%N :: Prompts.text t ++ b <> 10%N :: Prompts.text t' ++ b'.
Proof.
  intros Hdiff Hlen Hlen' H. apply Hdiff. inversion H as [Heq].
  apply (f_equal (firstn 32)) in Heq.
  rewrite !firstn_app in Heq.
  replace (32 - length (Prompts.text t)) with 0 in Heq by lia.
  replace (32 - length (Prompts.text t')) with 0 in Heq by lia.
  cbn [firstn] in Heq. rewrite !app_nil_r in Heq. exact Heq.
Qed.

End Openings.

(** Two prompts with different opening sentences. *)
Ltac by_openings H H' :=
  intros Heq; rewrite H, H' in Heq; revert Heq;
  apply openings_differ; [vm_compute; discriminate | vm_compute; lia ..].

(** X25: the five builders open their prompts with five different
    sentences, so no two of them ever return the same prompt, whatever they
    are given. *)
Theorem X25_prompts_tell_the_stage (nts : float -> jsstring)
    (stringify : list ContentBlock -> jsstring)
    (topic lessonTitle context quizTitle courseTopic : value)
    (contentBlocks : list ContentBlock) (p1 p2 p3 p4 p5 : Personalization)
    (s1 s2 s3 s4 s5 : jsstring)
    (H1 : Prompts.getSyllabusPrompt nts topic p1 = Ok s1)
    (H2 : Prompts.getLessonContextPrompt nts lessonTitle p2 = Ok s2)
    (H3 : Prompts.getAllSectionsContentPrompt nts context p3 = Ok s3)
    (H4 : Prompts.getQuizPrompt nts stringify quizTitle contentBlocks p4 = Ok s4)
    (H5 : Prompts.getPostCourseDataPrompt nts courseTopic p5 = Ok s5) :
  NoDup [s1; s2; s3; s4; s5].
Proof.
  apply render_opening in H1, H2, H3, H4, H5.
  destruct H1 as [b1 H1], H2 as [b2 H2], H3 as [b3 H3], H4 as [b4 H4], H5 as [b5 H5].
  repeat constructor; cbn [In]; intros Hin;
    repeat match type of Hin with
           | _ \/ _ => destruct Hin as [Hin|Hin]
           | False => exact Hin
           end;
    revert Hin.
  - by_openings H1 H2.
  - by_openings H1 H3.
  - by_openings H1 H4.
  - by_openings H1 H5.
  - by_openings H2 H3.
  - by_openings H2 H4.
  - by_openings H2 H5.
  - by_openings H3 H4.
  - by_openings H3 H5.
  - by_openings H4 H5.
Qed.

(** X25, witness: the five prompts of a course on algebra. *)
Lemma X25_prompts_tell_the_stage_witness :
  NoDup
    [ Samples.returned
        (Prompts.getSyllabusPrompt Reference.Number_toString (VStr (lit "Algebra"))
           Samples.profile);
      Samples.returned
        (Prompts.getLessonContextPrompt Reference.Number_toString
           (VStr (lit "Numbers")) Samples.profile);
      Samples.returned
        (Prompts.getAllSectionsContentPrompt Reference.Number_toString
           Samples.lesson_context Samples.profile);
      Samples.returned
        (Prompts.getQuizPrompt Reference.Number_toString Samples.stringify
           (VStr (lit "Numbers")) [] Samples.profile);
      Samples.returned
        (Prompts.getPostCourseDataPrompt Reference.Number_toString
           (VStr (lit "Algebra")) Samples.profile) ].
Proof.
  apply (X25_prompts_tell_the_stage Reference.Number_toString Samples.stringify
           (VStr (lit "Algebra")) (VStr (lit "Numbers")) Samples.lesson_context
           (VStr (lit "Numbers")) (VStr (lit "Algebra")) []
           Samples.profile Samples.profile Samples.profile Samples.profile
           Samples.profile);
    vm_compute; reflexivity.
Defined.

Section InstalledPrompts.

Variable stringify : list ContentBlock -> jsstring.
Variable R : Runtime.

Lemma installed_typed : typed_prompts (Prompts.installed stringify R).
Proof.
  unfold typed_prompts, Prompts.installed.
  cbn [Effects.getSyllabusPrompt Effects.getLessonContextPrompt
         Effects.getAllSectionsContentPrompt Effects.getQuizPrompt
         Effects.getPostCourseDataPrompt Number_toString].
  split; [|split; [|split; [|split]]]; intros.
  - exact (typed_settles _ _ (getSyllabusPrompt_settles _ _ _)).
  - exact (typed_settles _ _ (getLessonContextPrompt_settles _ _ _)).
  - exact (typed_settles _ _ (getAllSectionsContentPrompt_settles _ _ _)).
  - exact (typed_settles _ _ (getQuizPrompt_settles _ _ _ _ _)).
  - exact (typed_settles _ _ (getPostCourseDataPrompt_settles _ _ _)).
Qed.

End InstalledPrompts.

Section Logged.

Variable R : Runtime.

(** The [try] block logs no error itself. *)
Lemma try_block_errors (message : jsstring) (w : World) :
  errors_logged (snd (try_block R message w)) = errors_logged w.
Proof.
  unfold try_block, bind.
  pose proof (stays_generate_course R message w) as Hq.
  destruct (generate_course R message w) as [[g|e] w0]; cbn [snd] in Hq;
    destruct Hq as (_ & _ & Herr & _); [|exact Herr].
  destruct (persist_cases R g w0)
    as [(data & created & courseId & _ & _ & ->)|(e & w1 & -> & _ & _ & He & _)];
    cbn [snd]; [exact Herr | congruence].
Qed.

End Logged.

(** X26: with the five builders for prompts, a run logs at most one
    error, and it is one the handler's code raises itself (the SyntaxError
    of an unreadable request, a TypeError, the missing topic or user
    identifier, the missing key [GEMINI_API_KEY_k], the failure after
    [MAX_RETRIES] attempts) or the rejection of the store.  An error of the
    backend is never logged as such, and when the generation stages fail
    the store has not been called. *)
Theorem X26_logged_errors (stringify : list ContentBlock -> jsstring) (R : Runtime)
    (message : jsstring) (w : World) :
  let run := on_message (Prompts.installed stringify R) message w in
  errors_logged (snd run) = errors_logged w
  \/ exists e,
       errors_logged (snd run) = errors_logged w ++ [e]
       /\ e <> BackendError
       /\ ((raised_by_handler e /\ db_calls (snd run) = db_calls w)
           \/ ((e = TypeError \/ e = PersistenceError)
               /\ In (Notice SavingToDatabase) (sent (snd run)))).
Proof.
  intros run. subst run. set (R' := Prompts.installed stringify R).
  pose proof (try_block_errors R' message w) as Herr.
  destruct (try_block R' message w) as [[[]|e] w1] eqn:Etry; cbn [snd] in Herr.
  - left. rewrite (on_message_ok R' message w w1 Etry). exact Herr.
  - right. exists e. rewrite (on_message_throw R' message w w1 e Etry).
    cbn [snd]. split; [cbn; rewrite Herr; reflexivity|].
    pose proof (try_block_raises R' (installed_typed stringify R) message w w1 e Etry)
      as Hraised.
    split.
    + destruct Hraised as [[[->|[->|[->|[[k ->]| ->]]]] _]|[[->| ->] _]];
        discriminate.
    + destruct Hraised as [[Hr Hdb]|[He Hin]].
      * left. split; [exact Hr | exact Hdb].
      * right. split; [exact He|]. cbn. apply in_or_app. left. exact Hin.
Qed.

(* ================================================================== *)
(** * The course a run hands to the store *)

Section Written.

Variable R : Runtime.

(** The persisting step, case by case. *)
Lemma persist_unfold (g : Generated) (w : World) :
  persist R g w
  = match course_create_data R (g_syllabusJson g) (g_userId g) (g_lessons g)
            (g_postCourse g) with
    | Throw e => (Throw e, log_sent (Notice SavingToDatabase) w)
    | Ok data =>
        let w1 := log_db_call data (log_sent (Notice SavingToDatabase) w) in
        match db_course_create R data with
        | None => (Throw PersistenceError, w1)
        | Some created =>
            match get created (lit "id") with
            | Throw e => (Throw e, w1)
            | Ok courseId => (Ok tt, completed data courseId w)
            end
        end
    end.
Proof.
  unfold persist. rewrite bind_sendData.
  destruct (course_create_data R (g_syllabusJson g) (g_userId g) (g_lessons g)
              (g_postCourse g)) as [data|e]; [|reflexivity].
  rewrite bind_lift. cbv zeta. unfold bind at 1, db_create.
  destruct (db_course_create R data) as [created|]; [|reflexivity].
  destruct (get created (lit "id")) as [courseId|e]; reflexivity.
Qed.

(** The persisting step leaves the warnings and the backend calls as they
    are. *)
Lemma persist_frame (g : Generated) (w : World) :
  warnings (snd (persist R g w)) = warnings w
  /\ backend_calls (snd (persist R g w)) = backend_calls w.
Proof.
  rewrite persist_unfold.
  destruct (course_create_data R (g_syllabusJson g) (g_userId g) (g_lessons g)
              (g_postCourse g)) as [data|e]; [|split; reflexivity].
  cbv zeta. destruct (db_course_create R data) as [created|]; [|split; reflexivity].
  destruct (get created (lit "id")) as [courseId|e]; split; reflexivity.
Qed.

(** The store is called at most once, with what [course_create_data]
    returns for the outcome of the generation stages. *)
Lemma persist_db_calls (g : Generated) (w : World) :
  match course_create_data R (g_syllabusJson g) (g_userId g) (g_lessons g)
          (g_postCourse g) with
  | Ok data => db_calls (snd (persist R g w)) = db_calls w ++ [data]
  | Throw _ => db_calls (snd (persist R g w)) = db_calls w
  end.
Proof.
  rewrite persist_unfold.
  destruct (course_create_data R (g_syllabusJson g) (g_userId g) (g_lessons g)
              (g_postCourse g)) as [data|e]; [|reflexivity].
  cbv zeta. destruct (db_course_create R data) as [created|]; [|reflexivity].
  destruct (get created (lit "id")) as [courseId|e]; reflexivity.
Qed.

Lemma persist_sent (g : Generated) (w : World) :
  exists ms, sent (snd (persist R g w)) = sent w ++ ms.
Proof.
  rewrite persist_unfold.
  destruct (course_create_data R (g_syllabusJson g) (g_userId g) (g_lessons g)
              (g_postCourse g)) as [data|e]; [|eexists; reflexivity].
  cbv zeta. destruct (db_course_create R data) as [created|]; [|eexists; reflexivity].
  destruct (get created (lit "id")) as [courseId|e]; cbn;
    rewrite <- ?app_assoc; eexists; reflexivity.
Qed.

(** What the handler does after the [try] block changes neither the store
    calls, the warnings nor the backend calls, and only adds to what was
    sent. *)
Lemma on_message_after_try (message : jsstring) (w : World) :
  let w1 := snd (try_block R message w) in
  let w' := snd (on_message R message w) in
  db_calls w' = db_calls w1
  /\ warnings w' = warnings w1
  /\ backend_calls w' = backend_calls w1
  /\ exists ms, sent w' = sent w1 ++ ms.
Proof.
  unfold on_message, try_catch.
  destruct (try_block R message w) as [[[]|e] w1]; cbn [snd].
  - repeat split. exists []. symmetry. apply app_nil_r.
  - repeat split. eexists. reflexivity.
Qed.

(** A course in the log of the store is the argument assembled from the
    outcome of the generation stages of that run. *)
Lemma written_course (message : jsstring) (w : World) (data : CourseCreate) :
  db_calls (snd (on_message R message w)) = db_calls w ++ [data] ->
  exists g w1,
    generate_course R message w = (Ok g, w1)
    /\ course_create_data R (g_syllabusJson g) (g_userId g) (g_lessons g)
         (g_postCourse g) = Ok data
    /\ exists ms, sent (snd (on_message R message w)) = sent w1 ++ ms.
Proof.
  intros Hwritten.
  destruct (on_message_after_try message w) as (Hdb & _ & _ & ms & Hsent).
  rewrite Hdb in Hwritten. rewrite Hsent. clear Hdb Hsent.
  unfold try_block, bind in *.
  pose proof (stays_generate_course R message w) as Hq.
  destruct (generate_course R message w) as [[g|e] w1]; cbn [snd] in *.
  - destruct Hq as (Hdb1 & _).
    pose proof (persist_db_calls g w1) as Hp.
    destruct (persist_sent g w1) as [ms1 Hs1].
    exists g, w1. split; [reflexivity|].
    destruct (course_create_data R (g_syllabusJson g) (g_userId g) (g_lessons g)
                (g_postCourse g)) as [data'|e].
    + rewrite Hp, Hdb1 in Hwritten. apply app_inv_head in Hwritten.
      inversion Hwritten. split; [reflexivity|].
      exists (ms1 ++ ms). rewrite Hs1, app_assoc. reflexivity.
    + exfalso. rewrite Hp, Hdb1 in Hwritten.
      apply (f_equal (@length _)) in Hwritten. rewrite length_app in Hwritten.
      cbn in Hwritten. lia.
  - exfalso. destruct Hq as (Hdb1 & _). rewrite Hdb1 in Hwritten.
    apply (f_equal (@length _)) in Hwritten. rewrite length_app in Hwritten.
    cbn in Hwritten. lia.
Qed.

End Written.

Section Pairing.

Lemma Forall2_Forall_l {A B} (P : A -> Prop) (Q : A -> B -> Prop)
    (l : list A) (l' : list B) :
  Forall P l -> Forall2 Q l l' -> Forall2 (fun x y => P x /\ Q x y) l l'.
Proof.
  intros HP HQ. induction HQ as [|x y l l' Hxy _ IH]; constructor.
  - split; [exact (Forall_inv HP) | exact Hxy].
  - apply IH. exact (Forall_inv_tail HP).
Qed.

Lemma Forall2_Forall_r {A B} (Q : A -> B -> Prop) (l : list A) (l' : list B) :
  Forall2 Q l l' -> Forall (fun y => exists x, In x l /\ Q x y) l'.
Proof.
  induction 1 as [|x y l l' Hxy _ IH]; constructor.
  - exists x. split; [left; reflexivity | exact Hxy].
  - eapply Forall_impl; [|exact IH].
    intros b (a & Ha & Hab). exists a. split; [right; exact Ha | exact Hab].
Qed.

Lemma Forall_In_self {A} (l : list A) : Forall (fun x => In x l) l.
Proof. apply Forall_forall. intros x Hx. exact Hx. Qed.

Lemma In_combine_r {A B} (l1 : list A) (l2 : list B) (y : B) :
  length l1 = length l2 -> In y l2 -> exists x, In (x, y) (combine l1 l2).
Proof.
  revert l2. induction l1 as [|a l1 IH]; intros [|b l2] Hlen Hin;
    try discriminate Hlen; [contradiction Hin|].
  destruct Hin as [->|Hin].
  - exists a. left. reflexivity.
  - destruct (IH l2 (eq_add_S _ _ Hlen) Hin) as [x Hx]. exists x. right. exact Hx.
Qed.

Lemma Forall2_combine_In {A B} (P : A -> B -> Prop) (l1 : list A) (l2 : list B)
    (x : A) (y : B) :
  Forall2 P l1 l2 -> In (x, y) (combine l1 l2) -> P x y.
Proof.
  induction 1 as [|a b l1 l2 Hab _ IH]; cbn [combine]; intros Hin;
    [contradiction Hin|].
  destruct Hin as [Heq|Hin]; [inversion Heq; subst; exact Hab | exact (IH Hin)].
Qed.

End Pairing.

Section WrittenLessons.

Variable R : Runtime.

(** A block of a lesson record is streamed with the title of the lesson. *)
Lemma block_event_sent (g : Generated) (sectionTitles : list (list value))
    (l : LessonRecord) (cb : ContentBlock) :
  Forall2 (fun l titles => length titles = length (allContentBlocks l))
    (g_lessons g) sectionTitles ->
  In l (g_lessons g) -> In cb (allContentBlocks l) ->
  exists sectionTitle,
    In (ContentBlockProduced (lessonTitle l) sectionTitle cb)
      (generation_events g sectionTitles).
Proof.
  intros Hall Hl Hcb.
  destruct (Forall2_In_combine _ _ _ _ Hall Hl) as [ts Hts].
  assert (Hlen : length ts = length (allContentBlocks l)).
  { exact (Forall2_combine_In _ _ _ _ _ Hall Hts). }
  destruct (In_combine_r ts (allContentBlocks l) cb Hlen Hcb) as [t Ht].
  exists t. unfold generation_events. apply in_or_app. right. apply in_or_app. left.
  apply in_concat. exists (lesson_events (l, ts)). split.
  - apply in_map. exact Hts.
  - unfold lesson_events. cbn [fst snd]. right. apply in_or_app. left.
    apply (in_map (block_event (lessonTitle l)) _ (t, cb)). exact Ht.
Qed.

(** The blocks of a lesson record, as the flattening loop made them. *)
Lemma lesson_blocks (p : Personalization) (lt qt : float) (lessonObj : value)
    (l : LessonRecord) :
  (forall i j, randomUUID R i = randomUUID R j -> i = j) ->
  lesson_generated R p lt qt lessonObj l ->
  exists prompt sectionContent sections raws,
    getAllSectionsContentPrompt R (context l)
      (with_timeCommitment p (number_text R lt)) = Ok prompt
    /\ generated_for R prompt sectionContent
    /\ obind (get sectionContent (lit "sections")) iterate = Ok sections
    /\ raw_blocks sections = Ok raws
    /\ Forall2 made_from raws (allContentBlocks l)
    /\ NoDup (map cb_id (allContentBlocks l)).
Proof.
  intros Hfresh (_ & _ & _ & (prompt & sc & sections & w1 & w2 & Hp & Hsc & Hs & Hloop) & _).
  apply sections_loop_inv in Hloop.
  destruct Hloop as (raws & made & Hraw & Hout & Hmade & Hids & _).
  cbn [app] in Hout. subst made.
  exists prompt, sc, sections, raws.
  repeat (split; [assumption|]).
  rewrite Hids. apply NoDup_map_injective; [exact Hfresh | apply seq_NoDup].
Qed.

End WrittenLessons.

Section WrittenRun.

Variable R : Runtime.

(** What is known of a run from the course in the log of the store: the
    outcome of its generation stages, what was sent for them, and the
    lessons of the course paired with the records they were made from. *)
Lemma written_run (message : jsstring) (w : World) (data : CourseCreate) :
  db_calls (snd (on_message R message w)) = db_calls w ++ [data] ->
  exists g w1 req b lessonObjs sectionTitles ms,
    generate_course R message w = (Ok g, w1)
    /\ destructure_request R message = Ok req
    /\ time_budgets R (timeCommitment (personalization req)) (g_syllabusJson g) = Ok b
    /\ obind (get (g_syllabusJson g) (lit "lessons")) iterate = Ok lessonObjs
    /\ Forall2 (lesson_generated R (personalization req)
                  (lessonTimePerLesson b) (quizTimePerLesson b))
         lessonObjs (g_lessons g)
    /\ Forall2 (fun l titles => length titles = length (allContentBlocks l))
         (g_lessons g) sectionTitles
    /\ sent (snd (on_message R message w))
       = sent w ++ generation_events g sectionTitles ++ ms
    /\ mapi_outcome_from (lesson_create R) 0 (g_lessons g) = Ok (c_lessons data).
Proof.
  intros Hwritten.
  destruct (written_course R message w data Hwritten)
    as (g & w1 & Hgen & Hdata & ms & Hsent).
  destruct (generate_course_inv R message w w1 g Hgen)
    as (req & b & lessonObjs & Hreq & Hb & Hobjs & Hlessons).
  destruct (generate_course_sent R message w w1 g Hgen) as (titless & Hall & Hsent1).
  destruct (course_create_data_inv R _ _ _ _ _ Hdata) as (Hmap & _).
  exists g, w1, req, b, lessonObjs, titless, ms.
  repeat (split; [assumption|]).
  split; [|exact Hmap].
  rewrite Hsent, Hsent1, <- app_assoc. reflexivity.
Qed.

End WrittenRun.

(* ================================================================== *)
(** * C3, as the code has it *)




Section WrittenQuiz.

Variable R : Runtime.

(** The quiz made for a lesson record: the three constants, and the
    questions of the parsed quiz mapped one by one. *)
Lemma quiz_questions_inv (l : LessonRecord) (quiz : QuizCreate) :
  quiz_create R l = Ok quiz ->
  quiz_isCompleted quiz = false
  /\ quiz_gainedMarks quiz = 0%Z
  /\ quiz_timeTaken quiz = 0%Z
  /\ exists questions,
       get (quizJson l) (lit "questions") = Ok (VArr questions)
       /\ Forall2 (fun q qc => question_create q = Ok qc /\ defaults_applied q qc)
            questions (quiz_questions quiz).
Proof.
  unfold quiz_create. intros H.
  destruct (get (context l) (lit "title")) as [contextTitle|]; [|discriminate].
  cbn [obind] in H.
  destruct (concat_literal (Number_toString R) contextTitle (lit " Quiz"))
    as [title|]; [|discriminate].
  cbn [obind] in H.
  destruct (get (quizJson l) (lit "duration")); [|discriminate].
  destruct (get (quizJson l) (lit "totalMarks")); [|discriminate].
  destruct (get (quizJson l) (lit "passingMarks")); [|discriminate].
  destruct (get (quizJson l) (lit "questions")) as [questions|]; [|discriminate].
  cbn [obind] in H.
  destruct questions as [| | | | |qs|]; try discriminate. cbn [array_elements obind] in H.
  destruct (mapi_outcome_from (fun _ q => question_create q) 0 qs) as [created|] eqn:Em;
    [|discriminate].
  cbn [obind] in H. inversion H; subst quiz. clear H.
  cbn [quiz_isCompleted quiz_gainedMarks quiz_timeTaken quiz_questions].
  do 3 (split; [reflexivity|]).
  exists qs. split; [reflexivity|].
  apply mapi_outcome_from_Forall2 in Em.
  eapply Forall2_impl; [|exact Em].
  intros q qc [_ Hq]. split; [exact Hq | apply question_create_inv; exact Hq].
Qed.

End WrittenQuiz.

(* ================================================================== *)
(** * C9 *)

(** C9: in every course a run hands to the store, each lesson's quiz is
    the one the quiz stage returned for that lesson and streamed; it has
    [isCompleted = false], [gainedMarks = 0] and [timeTaken = 0], and its
    questions are those of the parsed quiz in order, each with the empty
    list in place of a missing (or [null]) [options], [correctAnswers] or
    [rubric] and ['Explanation not provided.'] in place of a missing
    [explanation], whatever its declared type.  The mapping of a question
    returns for every question object: none is rejected for lacking a field
    its type would require. *)
Theorem C9_persisted_question_defaults (R : Runtime) (message : jsstring) (w : World)
    (data : CourseCreate)
    (Hwritten : db_calls (snd (on_message R message w)) = db_calls w ++ [data]) :
  let w' := snd (on_message R message w) in
  (forall q, is_nullish q = false ->
     exists qc, question_create q = Ok qc
       /\ q_type qc = field q "type"
       /\ (field q "options" = VUndefined -> q_options qc = VArr [])
       /\ (field q "correctAnswers" = VUndefined -> q_correctAnswers qc = VArr [])
       /\ (field q "rubric" = VUndefined -> q_rubric qc = VArr [])
       /\ (field q "explanation" = VUndefined ->
           q_explanation qc = VStr (lit "Explanation not provided.")))
  /\ exists g w1,
       generate_course R message w = (Ok g, w1)
       /\ Forall2 (fun l lc =>
            In (QuizCompleted (quizJson l)) (sent w')
            /\ quiz_isCompleted (l_quizz lc) = false
            /\ quiz_gainedMarks (l_quizz lc) = 0%Z
            /\ quiz_timeTaken (l_quizz lc) = 0%Z
            /\ exists questions,
                 get (quizJson l) (lit "questions") = Ok (VArr questions)
                 /\ Forall2 (fun q qc =>
                      question_create q = Ok qc /\ defaults_applied q qc)
                      questions (quiz_questions (l_quizz lc)))
            (g_lessons g) (c_lessons data).
Proof.
  intros w'. subst w'. split.
  - intros q Hq. destruct (question_create_defined q Hq) as (qc & Hqc & Hd).
    destruct Hd as (_ & _ & Ht & _ & Ho & Hc & He & Hr).
    exists qc. split; [exact Hqc|]. split; [exact Ht|].
    repeat split; intros Hmissing.
    + rewrite Ho, Hmissing. reflexivity.
    + rewrite Hc, Hmissing. reflexivity.
    + rewrite Hr, Hmissing. reflexivity.
    + rewrite He, Hmissing. reflexivity.
  - destruct (written_run R message w data Hwritten)
      as (g & w1 & req & b & lessonObjs & titless & ms & Hgen & _ & _ & _
          & _ & Hall & Hsent & Hmap).
    exists g, w1. split; [exact Hgen|].
    apply mapi_outcome_from_Forall2 in Hmap.
    eapply Forall2_impl;
      [|exact (Forall2_Forall_l _ _ _ _ (Forall_In_self (g_lessons g)) Hmap)].
    intros l lc [Hl [idx Hlc]].
    split.
    { rewrite Hsent. apply in_or_app. right. apply in_or_app. left.
      apply quiz_event_sent; assumption. }
    unfold lesson_create in Hlc.
    destruct (get (context l) (lit "title")) as [title|]; [|discriminate].
    destruct (get (context l) (lit "objective")) as [objective|]; [|discriminate].
    destruct (quiz_create R l) as [quiz|] eqn:Equiz; [|discriminate].
    cbn [obind] in Hlc. inversion Hlc; subst lc. clear Hlc. cbn [l_quizz].
    exact (quiz_questions_inv R l quiz Equiz).
Qed.

(** C9, witness: the example run; the second question of each quiz is
    ['DESCRIPTIVE'] and has no [rubric], [options], [correctAnswers] or
    [explanation], and is handed to the store with the defaults. *)
Lemma C9_persisted_question_defaults_witness :
  let R := Demo.steady Demo.lessons3 in
  let w' := snd (on_message R Demo.request fresh) in
  let data := Demo.persisted R Demo.request in
  db_calls w' = [data]
  /\ map (fun lc => map (fun qc => (q_type qc, q_rubric qc, q_explanation qc))
                      (quiz_questions (l_quizz lc))) (c_lessons data)
     = repeat [(VStr (lit "MCQ"), VArr [], VStr (lit "why"));
               (VStr (lit "DESCRIPTIVE"), VArr [],
                VStr (lit "Explanation not provided."))] 3
  /\ exists g w1,
       generate_course R Demo.request fresh = (Ok g, w1)
       /\ Forall2 (fun l lc =>
            In (QuizCompleted (quizJson l)) (sent w')
            /\ quiz_isCompleted (l_quizz lc) = false
            /\ quiz_gainedMarks (l_quizz lc) = 0%Z
            /\ quiz_timeTaken (l_quizz lc) = 0%Z
            /\ exists questions,
                 get (quizJson l) (lit "questions") = Ok (VArr questions)
                 /\ Forall2 (fun q qc =>
                      question_create q = Ok qc /\ defaults_applied q qc)
                      questions (quiz_questions (l_quizz lc)))
            (g_lessons g) (c_lessons data).
Proof.
  intros R w' data.
  assert (Hwritten : db_calls (snd (on_message R Demo.request fresh))
                     = db_calls fresh ++ [data]) by (vm_compute; reflexivity).
  split; [exact Hwritten|]. split; [vm_compute; reflexivity|].
  exact (proj2 (C9_persisted_question_defaults R Demo.request fresh data Hwritten)).
Defined.

(* ================================================================== *)
(** * C10 *)

(** C10: in every course a run hands to the store, the lessons are one per
    element of the lesson list of the syllabus that was generated and
    streamed, in the same order; the one at position [i] has [order = i],
    its [title] and [description] are the [title] and [objective] of what
    the lesson-context stage returned for the title of that element (the
    syllabus element supplies only [duration]), and the title of its quiz is
    the context title followed by [' Quiz'], whatever title the quiz stage
    returned. *)
Theorem C10_persisted_lesson_fields (R : Runtime) (message : jsstring) (w : World)
    (data : CourseCreate)
    (Hwritten : db_calls (snd (on_message R message w)) = db_calls w ++ [data]) :
  let w' := snd (on_message R message w) in
  exists g w1 req b lessonObjs,
    generate_course R message w = (Ok g, w1)
    /\ destructure_request R message = Ok req
    /\ time_budgets R (timeCommitment (personalization req)) (g_syllabusJson g) = Ok b
    /\ In (SyllabusCompleted (g_syllabusJson g)) (sent w')
    /\ obind (get (g_syllabusJson g) (lit "lessons")) iterate = Ok lessonObjs
    /\ length (c_lessons data) = length lessonObjs
    /\ forall (i : nat) (lc : LessonCreate),
         nth_error (c_lessons data) i = Some lc ->
         exists lessonObj l contextPrompt contextTitle,
           nth_error lessonObjs i = Some lessonObj
           /\ nth_error (g_lessons g) i = Some l
           /\ get lessonObj (lit "title") = Ok (lessonTitle l)
           /\ get lessonObj (lit "duration") = Ok (l_duration lc)
           /\ getLessonContextPrompt R (lessonTitle l)
                (with_timeCommitment (personalization req)
                   (number_text R (lessonTimePerLesson b))) = Ok contextPrompt
           /\ generated_for R contextPrompt (context l)
           /\ l_order lc = i
           /\ get (context l) (lit "title") = Ok contextTitle
           /\ l_title lc = contextTitle
           /\ get (context l) (lit "objective") = Ok (l_description lc)
           /\ concat_literal (Number_toString R) contextTitle (lit " Quiz")
              = Ok (quiz_title (l_quizz lc)).
Proof.
  intros w'. subst w'.
  destruct (written_run R message w data Hwritten)
    as (g & w1 & req & b & lessonObjs & titless & ms & Hgen & Hreq & Hb & Hobjs
        & Hmade & _ & Hsent & Hmap).
  exists g, w1, req, b, lessonObjs.
  do 3 (split; [assumption|]).
  split.
  { rewrite Hsent. apply in_or_app. right. apply in_or_app. left.
    unfold generation_events. right. right. left. reflexivity. }
  split; [exact Hobjs|].
  destruct (mapi_outcome_from_inv _ _ _ _ Hmap) as (Hlen & Hnth).
  split; [rewrite Hlen; symmetry; apply (Forall2_length Hmade)|].
  intros i lc Hlc.
  assert (Hi : i < length (g_lessons g)).
  { rewrite <- Hlen. apply nth_error_Some. rewrite Hlc. discriminate. }
  destruct (nth_error_defined (g_lessons g) i Hi) as [l Hl].
  destruct (Hnth i l Hl) as (lc' & Hlc' & Hcreate).
  rewrite Hlc in Hlc'. inversion Hlc'; subst lc'. clear Hlc'.
  destruct (Forall2_nth_error _ _ _ Hmade i l Hl) as (lessonObj & Hobj & Hgenerated).
  destruct Hgenerated as (Htitle0 & Hduration & (contextPrompt & Hcp & Hctx) & _ & _).
  apply lesson_create_inv in Hcreate.
  destruct Hcreate as (Horder & Htitle & Hobjective & Hdur & _ & Hquiz).
  destruct Hquiz as (_ & _ & _ & (contextTitle & Hct & Hqt) & _).
  assert (Ht : l_title lc = contextTitle) by congruence.
  exists lessonObj, l, contextPrompt, contextTitle.
  split; [exact Hobj|]. split; [exact Hl|]. split; [exact Htitle0|].
  split; [rewrite Hdur; exact Hduration|].
  split; [exact Hcp|]. split; [exact Hctx|]. split; [exact Horder|].
  split; [exact Hct|]. split; [exact Ht|].
  split; [exact Hobjective | exact Hqt].
Qed.

(** C10, witness: the example run, three lessons; the context stage calls
    each lesson ['From the context stage'] and the quiz stage calls each
    quiz ['From the quiz stage']. *)
Lemma C10_persisted_lesson_fields_witness :
  let R := Demo.steady Demo.lessons3 in
  let w' := snd (on_message R Demo.request fresh) in
  let data := Demo.persisted R Demo.request in
  db_calls w' = [data]
  /\ map l_order (c_lessons data) = [0; 1; 2]
  /\ map l_title (c_lessons data) = repeat (VStr (lit "From the context stage")) 3
  /\ map (fun lc => quiz_title (l_quizz lc)) (c_lessons data)
     = repeat (VStr (lit "From the context stage Quiz")) 3
  /\ exists g w1 req b lessonObjs,
       generate_course R Demo.request fresh = (Ok g, w1)
       /\ destructure_request R Demo.request = Ok req
       /\ time_budgets R (timeCommitment (personalization req)) (g_syllabusJson g) = Ok b
       /\ In (SyllabusCompleted (g_syllabusJson g)) (sent w')
       /\ obind (get (g_syllabusJson g) (lit "lessons")) iterate = Ok lessonObjs
       /\ length (c_lessons data) = length lessonObjs
       /\ forall (i : nat) (lc : LessonCreate),
            nth_error (c_lessons data) i = Some lc ->
            exists lessonObj l contextPrompt contextTitle,
              nth_error lessonObjs i = Some lessonObj
              /\ nth_error (g_lessons g) i = Some l
              /\ get lessonObj (lit "title") = Ok (lessonTitle l)
              /\ get lessonObj (lit "duration") = Ok (l_duration lc)
              /\ getLessonContextPrompt R (lessonTitle l)
                   (with_timeCommitment (personalization req)
                      (number_text R (lessonTimePerLesson b))) = Ok contextPrompt
              /\ generated_for R contextPrompt (context l)
              /\ l_order lc = i
              /\ get (context l) (lit "title") = Ok contextTitle
              /\ l_title lc = contextTitle
              /\ get (context l) (lit "objective") = Ok (l_description lc)
              /\ concat_literal (Number_toString R) contextTitle (lit " Quiz")
                 = Ok (quiz_title (l_quizz lc)).
Proof.
  intros R w' data.
  assert (Hwritten : db_calls (snd (on_message R Demo.request fresh))
                     = db_calls fresh ++ [data]) by (vm_compute; reflexivity).
  split; [exact Hwritten|]. do 3 (split; [vm_compute; reflexivity|]).
  exact (C10_persisted_lesson_fields R Demo.request fresh data Hwritten).
Defined.

(* ================================================================== *)
(** * A stage that exhausts its retries *)

Section Exhaustion.

Variable R : Runtime.

(** A step that logs no warning and makes no backend call. *)
Lemma exhausts_still {A} (m : M A) :
  (forall w, warnings (snd (m w)) = warnings w
             /\ backend_calls (snd (m w)) = backend_calls w) ->
  exhausts_only R m.
Proof.
  intros H w. destruct (H w) as [Hw Hc]. exists [], [].
  rewrite Hw, Hc, !app_nil_r.
  split; [reflexivity|]. split; [reflexivity|]. intros [].
Qed.

Lemma exhausts_ret {A} (a : A) : exhausts_only R (ret a).
Proof. apply exhausts_still. intros w. split; reflexivity. Qed.

Lemma exhausts_throw {A} (e : error) : exhausts_only R (@throw A e).
Proof. apply exhausts_still. intros w. split; reflexivity. Qed.

Lemma exhausts_lift {A} (o : outcome A) : exhausts_only R (lift o).
Proof. apply exhausts_still. intros w. split; reflexivity. Qed.

Lemma exhausts_sendData (m : message) : exhausts_only R (sendData m).
Proof. apply exhausts_still. intros w. split; reflexivity. Qed.

Lemma exhausts_draw_uuid : exhausts_only R (draw_uuid R).
Proof. apply exhausts_still. intros w. split; reflexivity. Qed.

Lemma exhausts_bind {A B} (m : M A) (k : A -> M B) :
  exhausts_only R m -> (forall a, exhausts_only R (k a)) ->
  exhausts_only R (bind m k).
Proof.
  intros Hm Hk w. unfold bind.
  destruct (Hm w) as (ws1 & calls1 & Hw1 & Hc1 & Hlast1).
  destruct (m w) as [[a|e] w1]; cbn [fst snd] in *.
  - destruct (Hk a w1) as (ws2 & calls2 & Hw2 & Hc2 & Hlast2).
    exists (ws1 ++ ws2), (calls1 ++ calls2).
    split; [rewrite Hw2, Hw1, app_assoc; reflexivity|].
    split; [rewrite Hc2, Hc1, app_assoc; reflexivity|].
    intros Hin. apply in_app_or in Hin. destruct Hin as [Hin|Hin].
    + destruct (Hlast1 Hin) as [Habs _]. discriminate Habs.
    + destruct (Hlast2 Hin) as (Hthrow & earlier & prompt & Hcalls & Hfail).
      split; [exact Hthrow|].
      exists (calls1 ++ earlier), prompt.
      split; [rewrite Hcalls, app_assoc; reflexivity|].
      intros i Hi. specialize (Hfail i Hi).
      rewrite Hc1, !length_app in Hfail. rewrite length_app.
      replace (length (backend_calls w) + (length calls1 + length earlier) + i)
        with (length (backend_calls w) + length calls1 + length earlier + i) by lia.
      exact Hfail.
  - exists ws1, calls1. split; [exact Hw1|]. split; [exact Hc1|].
    intros Hin. destruct (Hlast1 Hin) as (Hthrow & Hrest).
    inversion Hthrow; subst e. split; [reflexivity | exact Hrest].
Qed.

(** The structured generator logs the warning of the last attempt exactly
    when it throws, after [MAX_RETRIES] calls none of which parses. *)
Lemma generate_warned (prompt : jsstring) (w : World) :
  let run := generateValidJsonWithRetries R prompt MAX_RETRIES w in
  exists ws calls,
    warnings (snd run) = warnings w ++ ws
    /\ backend_calls (snd run) = backend_calls w ++ calls
    /\ (In MAX_RETRIES ws <-> fst run = Throw (FailedAfterAttempts MAX_RETRIES))
    /\ (In MAX_RETRIES ws ->
        calls = repeat prompt MAX_RETRIES
        /\ forall i, i < MAX_RETRIES ->
             try_parse R (length (backend_calls w) + i) prompt = None).
Proof.
  intros run. subst run.
  pose proof (attempts_trace normalize R prompt MAX_RETRIES 4 1 w eq_refl) as Htrace.
  cbv zeta in Htrace.
  destruct Htrace as (k & Hk & Hcalls & Hnone & _ & _ & Hres).
  unfold generateValidJsonWithRetries, generate_with.
  change (attempts_from_with normalize R prompt MAX_RETRIES MAX_RETRIES 1 w)
    with (attempts_from_with normalize R prompt MAX_RETRIES 5 1 w).
  destruct (attempts_from_with normalize R prompt MAX_RETRIES 5 1 w) as [[v|e] w1];
    cbn [fst snd] in *.
  - destruct Hres as [_ Hw]. exists (seq 1 k), (repeat prompt (S k)).
    split; [exact Hw|]. split; [exact Hcalls|].
    assert (Hno : ~ In MAX_RETRIES (seq 1 k)).
    { intros Hin. apply in_seq in Hin. unfold MAX_RETRIES in Hin. lia. }
    split; [split; [intros Hin; contradiction | discriminate]|].
    intros Hin. contradiction.
  - destruct Hres as (-> & -> & Hlast & Hw).
    exists (seq 1 5), (repeat prompt 5).
    split; [exact Hw|]. split; [exact Hcalls|].
    split.
    + split; [reflexivity|]. intros _. apply in_seq. unfold MAX_RETRIES. lia.
    + intros _. split; [reflexivity|].
      intros i Hi. unfold MAX_RETRIES in Hi.
      destruct (Nat.eq_dec i 4) as [->|Hne]; [exact Hlast|].
      apply Hnone. lia.
Qed.

Lemma exhausts_generate (prompt : jsstring) :
  exhausts_only R (generateValidJsonWithRetries R prompt MAX_RETRIES).
Proof.
  intros w. destruct (generate_warned prompt w) as (ws & calls & Hw & Hc & Hiff & Hlast).
  exists ws, calls. split; [exact Hw|]. split; [exact Hc|].
  intros Hin. split; [apply Hiff; exact Hin|].
  destruct (Hlast Hin) as [-> Hfail].
  exists [], prompt. split; [reflexivity|].
  intros i Hi. cbn [length]. rewrite Nat.add_0_r. exact (Hfail i Hi).
Qed.

Ltac exhausts_step :=
  repeat first
    [ apply exhausts_ret
    | apply exhausts_lift
    | apply exhausts_sendData
    | apply exhausts_draw_uuid
    | apply exhausts_generate
    | apply exhausts_bind; [|intros] ].

Lemma exhausts_blocks_loop (lessonTitle section : value) (blocks : list value) :
  forall acc, exhausts_only R (blocks_loop R lessonTitle section blocks acc).
Proof.
  induction blocks as [|block rest IH]; intros acc; cbn [blocks_loop];
    [apply exhausts_ret|].
  exhausts_step. apply IH.
Qed.

Lemma exhausts_sections_loop (lessonTitle : value) (sections : list value) :
  forall acc, exhausts_only R (sections_loop R lessonTitle sections acc).
Proof.
  induction sections as [|section rest IH]; intros acc; cbn [sections_loop];
    [apply exhausts_ret|].
  apply exhausts_bind; [apply exhausts_lift|]. intros contentBlocks.
  apply exhausts_bind; [apply exhausts_lift|]. intros blocks.
  apply exhausts_bind; [apply exhausts_blocks_loop|]. intros acc'. apply IH.
Qed.

Lemma exhausts_lesson_body (p : Personalization) (lt qt : float) (lessonObj : value) :
  exhausts_only R (lesson_body R p lt qt lessonObj).
Proof.
  unfold lesson_body.
  repeat first
    [ apply exhausts_ret
    | apply exhausts_lift
    | apply exhausts_sendData
    | apply exhausts_generate
    | apply exhausts_sections_loop
    | apply exhausts_bind; [|intros] ].
Qed.

Lemma exhausts_lesson_loop (p : Personalization) (lt qt : float)
    (lessonObjs : list value) :
  forall acc, exhausts_only R (lesson_loop R p lt qt lessonObjs acc).
Proof.
  induction lessonObjs as [|lessonObj rest IH]; intros acc; cbn [lesson_loop];
    [apply exhausts_ret|].
  apply exhausts_bind; [apply exhausts_lesson_body|]. intros l. apply IH.
Qed.

Lemma exhausts_generate_course (message : jsstring) :
  exhausts_only R (generate_course R message).
Proof.
  unfold generate_course.
  apply exhausts_bind; [apply exhausts_lift|]. intros req.
  destruct (negb (truthy (topic req)) || negb (truthy (userId req)));
    [apply exhausts_throw|].
  repeat first
    [ apply exhausts_ret
    | apply exhausts_lift
    | apply exhausts_sendData
    | apply exhausts_generate
    | apply exhausts_lesson_loop
    | apply exhausts_bind; [|intros] ].
Qed.

(** A run in which the warning of the last attempt is logged: the
    generation stages threw the error of the generator, right after
    [MAX_RETRIES] calls with one prompt none of which parses. *)
Lemma run_exhausted (message : jsstring) (w : World) (ws : list nat) :
  warnings (snd (on_message R message w)) = warnings w ++ ws ->
  In MAX_RETRIES ws ->
  exists w1 earlier prompt,
    generate_course R message w = (Throw (FailedAfterAttempts MAX_RETRIES), w1)
    /\ backend_calls w1 = backend_calls w ++ earlier ++ repeat prompt MAX_RETRIES
    /\ forall i, i < MAX_RETRIES ->
         try_parse R (length (backend_calls w) + length earlier + i) prompt = None.
Proof.
  intros Hws Hin.
  destruct (on_message_after_try R message w) as (_ & Hw' & _).
  rewrite Hw' in Hws. clear Hw'. unfold try_block, bind in Hws.
  destruct (exhausts_generate_course message w) as (ws1 & calls & Hw1 & Hc1 & Hlast).
  destruct (generate_course R message w) as [[g|e] w1]; cbn [fst snd] in *.
  - exfalso. destruct (persist_frame R g w1) as [Hp _].
    rewrite Hp, Hw1 in Hws. apply app_inv_head in Hws. subst ws1.
    destruct (Hlast Hin) as [Habs _]. discriminate Habs.
  - rewrite Hw1 in Hws. apply app_inv_head in Hws. subst ws1.
    destruct (Hlast Hin) as (He & earlier & prompt & Hcalls & Hfail).
    inversion He; subst e. exists w1, earlier, prompt.
    split; [reflexivity|]. split; [rewrite Hc1, Hcalls; reflexivity | exact Hfail].
Qed.

End Exhaustion.

(** ** C5 *)

(** C5: a stage exhausts its retry budget exactly when its structured
    generator logs the warning of attempt [MAX_RETRIES]; it then throws the
    error that carries [MAX_RETRIES].  In every run in which that warning is
    logged, the failure propagates at once: the last backend calls of the
    run are the [MAX_RETRIES] calls of the exhausted stage, none of which
    parses; the store is not called, so nothing of the lessons completed
    before is persisted; the messages sent are those of the stages run so
    far followed by the one error event, none of them a terminal event or
    the notice of the persisting step; the error of the generator is the
    one logged, and the socket is closed once. *)
Theorem C5_exhausted_stage_aborts_run (R : Runtime) (message : jsstring) (w : World) :
  let w' := snd (on_message R message w) in
  (forall prompt w0,
     let stage := generateValidJsonWithRetries R prompt MAX_RETRIES w0 in
     exists ws,
       warnings (snd stage) = warnings w0 ++ ws
       /\ (In MAX_RETRIES ws <-> fst stage = Throw (FailedAfterAttempts MAX_RETRIES)))
  /\ forall ws,
       warnings w' = warnings w ++ ws ->
       In MAX_RETRIES ws ->
       db_calls w' = db_calls w
       /\ (exists ms,
             sent w' = sent w ++ ms ++ [ErrorMessage]
             /\ filter is_terminal (ms ++ [ErrorMessage]) = [ErrorMessage]
             /\ ~ In (Notice SavingToDatabase) ms)
       /\ errors_logged w' = errors_logged w ++ [FailedAfterAttempts MAX_RETRIES]
       /\ closes w' = S (closes w)
       /\ exists earlier prompt,
            backend_calls w' = backend_calls w ++ earlier ++ repeat prompt MAX_RETRIES
            /\ forall i, i < MAX_RETRIES ->
                 try_parse R (length (backend_calls w) + length earlier + i) prompt
                 = None.
Proof.
  intros w'. subst w'. split.
  - intros prompt w0 stage. subst stage.
    destruct (generate_warned R prompt w0) as (ws & calls & Hw & _ & Hiff & _).
    exists ws. split; [exact Hw | exact Hiff].
  - intros ws Hws Hin.
    destruct (run_exhausted R message w ws Hws Hin)
      as (w1 & earlier & prompt & Hgen & Hcalls & Hfail).
    pose proof (stays_generate_course R message w) as Hquiet.
    rewrite Hgen in Hquiet. cbn [snd] in Hquiet.
    assert (Hrun : on_message R message w
                   = (Ok tt, failed (FailedAfterAttempts MAX_RETRIES) w1)).
    { apply on_message_throw. unfold try_block. apply (bind_throw _ _ _ _ _ Hgen). }
    rewrite Hrun. cbn [snd].
    destruct Hquiet as (Hdb & Hcloses & Herrors & ms & Hsent & Hms).
    unfold failed.
    cbn [db_calls sent errors_logged closes backend_calls count_close log_sent log_error].
    split; [exact Hdb|]. split.
    { exists ms. split; [rewrite Hsent, <- app_assoc; reflexivity|]. split.
      - rewrite filter_app, (generation_not_terminal ms Hms). reflexivity.
      - apply generation_not_saving. exact Hms. }
    split; [rewrite Herrors; reflexivity|].
    split; [rewrite Hcloses; reflexivity|].
    exists earlier, prompt. split; [exact Hcalls | exact Hfail].
Qed.

(** C5, witness: three lessons, and the backend returns prose from the quiz
    stage of the second lesson on: the first lesson and two stages of the
    second are generated with six calls, the quiz stage makes five and the
    run ends with the error event and no call of the store. *)
Lemma C5_exhausted_stage_aborts_run_witness :
  let R := Demo.failing_from_rank6 in
  let w' := snd (on_message R Demo.request fresh) in
  warnings w' = [1; 2; 3; 4; 5]
  /\ length (backend_calls w') = 11
  /\ In (QuizCompleted (Demo.parsed Demo.quiz_text)) (sent w')
  /\ db_calls w' = db_calls fresh
  /\ (exists ms,
        sent w' = sent fresh ++ ms ++ [ErrorMessage]
        /\ filter is_terminal (ms ++ [ErrorMessage]) = [ErrorMessage]
        /\ ~ In (Notice SavingToDatabase) ms)
  /\ errors_logged w' = errors_logged fresh ++ [FailedAfterAttempts MAX_RETRIES]
  /\ closes w' = S (closes fresh)
  /\ exists earlier prompt,
       backend_calls w' = backend_calls fresh ++ earlier ++ repeat prompt MAX_RETRIES
       /\ forall i, i < MAX_RETRIES ->
            try_parse R (length (backend_calls fresh) + length earlier + i) prompt
            = None.
Proof.
  intros R w'.
  assert (Hws : warnings w' = warnings fresh ++ [1; 2; 3; 4; 5])
    by (vm_compute; reflexivity).
  assert (Hin : In MAX_RETRIES [1; 2; 3; 4; 5]) by (vm_compute; tauto).
  split; [exact Hws|]. split; [vm_compute; reflexivity|].
  split; [apply (nth_error_In _ 10); vm_compute; reflexivity|].
  exact (proj2 (C5_exhausted_stage_aborts_run R Demo.request fresh) _ Hws Hin).
Defined.
